(** * oled-sys-monitor: the sensor aggregation engine and the UI configuration
      of [monitor_server.py], embedded in Rocq.

    Layout of the development:
    - [Py]: the Python built-ins the server relies on (string methods,
      [max], [sum], [round], [float], the [.3f] format), on binary64
      floats ([PrimFloat]) and UTF-8 text;
    - [LHM]: the data model of the hardware-monitoring provider;
    - [Reader]: [HardwareMonitorReader], selector by selector, and
      [read_metrics];
    - [Config]: the canonical key order, [_normalize_order],
      [load_ui_config], [save_ui_config], [config_view] and the start-up
      of [main];
    - [Server]: [CompositeMetricsReader] and the [metrics_json] view;
    - [Loader]: the search for the monitoring library;
    - [Page]: the tile grid of the page served by [index] and the script
      functions that reorder it;
    - [Spec] and [ConfigSpec]: the vocabulary of the specification (pools,
      maximum, average, recognized and missing keys), stated without the
      loops of the code;
    - [Examples]: the concrete inputs of the examples;
    - facts about floats, the loops of the selectors, and then the
      properties of the specification, one theorem for each.

    Conventions of the embedding.  A Python [float] is a [PrimFloat.float];
    [None] is the [None] of [option]; an operation that may raise returns a
    [Py.result], and the exception is handled where the source has its
    [try]/[except].  A Python [str] is held as its UTF-8 encoding, one
    [ascii] for each byte: equality, [in], [startswith], [split] and [join]
    are then the same on the bytes as on the characters, and [strip],
    [lower] and [float] decode the characters they have to look at. *)

From Stdlib Require Import Floats ZArith String Ascii Bool Lia.
From stdpp Require Import base option list strings gmap sets pretty.

Set Warnings "-inexact-float,-register-all,-clear-no-such-hyp".
Local Open Scope Z_scope.

(* ===================================================================== *)
(** * Python built-ins *)
(* ===================================================================== *)

Module Py.

(** ** Exceptions *)

Inductive exn :=
  | ValueError | ZeroDivisionError | OverflowError | TypeError
  | AttributeError | OSError
  | ConfigParserError.  (* [configparser.Error] and its subclasses *)

(** The outcome of an operation that may raise. *)
Inductive result (A : Type) :=
  | Ok (a : A)
  | Raise (e : exn).
Arguments Ok {A} a.
Arguments Raise {A} e.

Definition bind {A B} (c : result A) (k : A → result B) : result B :=
  match c with
  | Ok a => k a
  | Raise e => Raise e
  end.

(** [try: c  except Exception: handler] *)
Definition try_except {A} (c : result A) (handler : A) : A :=
  match c with
  | Ok a => a
  | Raise _ => handler
  end.

(** ** Strings *)

(** *** The characters of UTF-8 text *)

(** The six bits that a continuation byte carries. *)
Definition continuation (c : ascii) : option N :=
  let n := N_of_ascii c in
  if (128 <=? n)%N && (n <? 192)%N then Some (n - 128)%N else None.

(** The code point of the first character of [s] and the text after it;
    [None] when [s] is empty or does not start with an encoded character
    (which the encoding of a [str] never does). *)
Definition decode_first (s : string) : option (N * string) :=
  match s with
  | EmptyString => None
  | String a r =>
      let n := N_of_ascii a in
      if (n <? 128)%N then Some (n, r)
      else if (n <? 192)%N then None
      else if (n <? 224)%N then
        match r with
        | String b r1 =>
            x ← continuation b;
            let cp := ((n - 192) * 64 + x)%N in
            if (128 <=? cp)%N then Some (cp, r1) else None
        | _ => None
        end
      else if (n <? 240)%N then
        match r with
        | String b (String c r2) =>
            x ← continuation b; y ← continuation c;
            let cp := (((n - 224) * 64 + x) * 64 + y)%N in
            if (2048 <=? cp)%N then Some (cp, r2) else None
        | _ => None
        end
      else if (n <? 248)%N then
        match r with
        | String b (String c (String d r3)) =>
            x ← continuation b; y ← continuation c; z ← continuation d;
            let cp := ((((n - 240) * 64 + x) * 64 + y) * 64 + z)%N in
            if (65536 <=? cp)%N && (cp <? 1114112)%N then Some (cp, r3) else None
        | _ => None
        end
      else None
  end.

(** The same from the end: [r] is the text reversed, and the result holds
    the code point of the last character and the reversed text before it.  A
    character has one to four bytes. *)
Definition decode_last (r : string) : option (N * string) :=
  let try (k : nat) : option (N * string) :=
    match decode_first (String.rev (substring 0 k r)) with
    | Some (cp, EmptyString) => Some (cp, substring k (String.length r - k) r)
    | _ => None
    end in
  match try 1%nat with
  | Some x => Some x
  | None =>
      match try 2%nat with
      | Some x => Some x
      | None =>
          match try 3%nat with
          | Some x => Some x
          | None => try 4%nat
          end
      end
  end.

(** *** [lower] *)

(** [c.lower()] on one ASCII character. *)
Definition lower_char (c : ascii) : ascii :=
  let n := N_of_ascii c in
  if (65 <=? n)%N && (n <=? 90)%N then ascii_of_N (n + 32) else c.

Definition is_byte (c : ascii) (n : N) : bool := (N_of_ascii c =? n)%N.

(** [s.lower()], as far as ASCII letters go: the capitals A-Z, and the two
    other characters whose lower-case form has an ASCII letter, U+0130 (an
    [i] followed by U+0307) and the Kelvin sign U+212A (a [k]).  Every other
    character is left as it is; its lower-case form has no ASCII character,
    so a comparison of the result with an ASCII keyword ([==], [in],
    [startswith]) gives what it gives in the source. *)
Fixpoint lower (s : string) : string :=
  match s with
  | EmptyString => EmptyString
  | String c s' =>
      match s' with
      | String c1 s1 =>
          if is_byte c 196 && is_byte c1 176 then
            String "i" (String (ascii_of_N 204) (String (ascii_of_N 135) (lower s1)))
          else
            match s1 with
            | String c2 s2 =>
                if is_byte c 226 && is_byte c1 132 && is_byte c2 170
                then String "k" (lower s2)
                else String (lower_char c) (lower s')
            | EmptyString => String (lower_char c) (lower s')
            end
      | EmptyString => String (lower_char c) EmptyString
      end
  end.

(** *** [strip] *)

(** [c.isspace()] for the character of code point [cp]: tab, line feed,
    vertical tab, form feed, carriage return, the four separators
    U+001C-U+001F, the space, and the white space beyond ASCII. *)
Definition isspace (cp : N) : bool :=
  ((9 <=? cp) && (cp <=? 13) || (28 <=? cp) && (cp <=? 32)
   || (cp =? 0x85) || (cp =? 0xA0) || (cp =? 0x1680)
   || (0x2000 <=? cp) && (cp <=? 0x200A)
   || (cp =? 0x2028) || (cp =? 0x2029) || (cp =? 0x202F)
   || (cp =? 0x205F) || (cp =? 0x3000))%N.

(** At most [fuel] characters are removed; a text has no more characters
    than bytes. *)
Fixpoint lstrip_go (fuel : nat) (s : string) : string :=
  match fuel with
  | O => s
  | S n =>
      match decode_first s with
      | Some (cp, r) => if isspace cp then lstrip_go n r else s
      | None => s
      end
  end.

Definition lstrip (s : string) : string := lstrip_go (String.length s) s.

Fixpoint rstrip_go (fuel : nat) (r : string) : string :=
  match fuel with
  | O => r
  | S n =>
      match decode_last r with
      | Some (cp, r') => if isspace cp then rstrip_go n r' else r
      | None => r
      end
  end.

Definition rstrip (s : string) : string :=
  String.rev (rstrip_go (String.length s) (String.rev s)).

(** [s.strip()] *)
Definition strip (s : string) : string := rstrip (lstrip s).

(** [s.startswith(p)] *)
Fixpoint startswith (s p : string) {struct p} : bool :=
  match p, s with
  | EmptyString, _ => true
  | String a p', String b s' => Ascii.eqb a b && startswith s' p'
  | String _ _, EmptyString => false
  end.

(** [s.endswith(p)] *)
Definition endswith (s p : string) : bool :=
  startswith (String.rev s) (String.rev p).

(** [sub in s] *)
Fixpoint contains (sub s : string) : bool :=
  startswith s sub ||
  match s with
  | EmptyString => false
  | String _ s' => contains sub s'
  end.

(** [any(k in name for k in keys)] *)
Definition any_in (keys : list string) (name : string) : bool :=
  existsb (fun k => contains k name) keys.

(** [x in (a, b, ...)] on strings *)
Definition str_in_tuple (x : string) (t : list string) : bool :=
  existsb (String.eqb x) t.

(** [s.split(sep)] for a one-character separator; [cur] is the field being
    read, reversed. *)
Fixpoint split_go (sep : ascii) (cur : string) (s : string) : list string :=
  match s with
  | EmptyString => [String.rev cur]
  | String c s' =>
      if Ascii.eqb c sep then String.rev cur :: split_go sep EmptyString s'
      else split_go sep (String c cur) s'
  end.

Definition split (sep : ascii) (s : string) : list string :=
  split_go sep EmptyString s.

(** [sep.join(l)] *)
Fixpoint join (sep : string) (l : list string) : string :=
  match l with
  | [] => EmptyString
  | [x] => x
  | x :: t => x +:+ sep +:+ join sep t
  end.

(** ** Floats *)

(** [math.isfinite(v)] *)
Definition isfinite (v : float) : bool := PrimFloat.is_finite v.

(** [a > b] *)
Definition gt (a b : float) : bool := PrimFloat.ltb b a.

(** [max(a, b)]: the first argument unless the second is greater. *)
Definition max2 (a b : float) : float := if gt b a then b else a.

(** [max(l)] *)
Definition max_list (l : list float) : result float :=
  match l with
  | [] => Raise ValueError
  | x :: t => Ok (fold_left max2 t x)
  end.

(** [sum(l)]: the additions are done left to right, from zero, each one
    rounded to the nearest float.  (From version 3.12 on the interpreter
    compensates the rounding errors of the partial sums; the two agree
    whenever the partial sums are exact.) *)
Definition sum (l : list float) : float := fold_left PrimFloat.add l 0%float.

(** Conversion of an integer to the nearest float. *)
Definition int_to_float (z : Z) : float :=
  SF2Prim (binary_normalize prec emax z 0 false).

(** [float(z)] for an [int] *)
Definition float_of_int (z : Z) : result float :=
  let f := int_to_float z in
  if PrimFloat.is_infinity f then Raise OverflowError else Ok f.

(** [a / b]: a division by zero raises. *)
Definition div (a b : float) : result float :=
  if PrimFloat.eqb b 0 then Raise ZeroDivisionError else Ok (PrimFloat.div a b).

(** [a / n] for an [int] divisor, which is zero as a float exactly when it
    is the integer zero. *)
Definition div_int (a : float) (n : Z) : result float :=
  if Z.eqb n 0 then Raise ZeroDivisionError
  else Ok (PrimFloat.div a (int_to_float n)).

(** [sum(l) / len(l)] *)
Definition mean (l : list float) : result float :=
  div_int (sum l) (Z.of_nat (length l)).

(** Nearest integer to [num / den], ties to even ([0 <= num], [0 < den]). *)
Definition rne_div (num den : Z) : Z :=
  let q := num / den in
  let r := num mod den in
  match (2 * r ?= den) with
  | Lt => q
  | Gt => q + 1
  | Eq => if Z.even q then q else q + 1
  end.

(** Nearest integer, ties to even, to [m * 2^e * 10^d]: the exact value of a
    finite float scaled to [d] decimals. *)
Definition scaled (m : positive) (e : Z) (d : nat) : Z :=
  if 0 <=? e then Z.pos m * 2 ^ e * 10 ^ Z.of_nat d
  else rne_div (Z.pos m * 10 ^ Z.of_nat d) (2 ^ (- e)).

(** Nearest float to [(-1)^s * n / 10^k]. *)
Definition decimal_to_float (s : bool) (n : Z) (k : nat) : float :=
  match n with
  | Z.pos p =>
      SF2Prim (SFdiv prec emax (S754_finite s p 0)
                 (S754_finite false (Z.to_pos (10 ^ Z.of_nat k)) 0))
  | _ => if s then PrimFloat.neg_zero else PrimFloat.zero
  end.

(** [round(x, d)] for [0 <= d]: the exact value of [x] is rounded to [d]
    decimals, ties to even, and the decimal obtained is converted back to
    the nearest float.  Infinities and NaN round to themselves. *)
Definition round (x : float) (d : nat) : float :=
  match Prim2SF x with
  | S754_finite s m e => decimal_to_float s (scaled m e d) d
  | _ => x
  end.

(** [f"{x:.3f}"]: the exact value rounded to three decimals, ties to even,
    written with its sign, its integer part and three fraction digits. *)
Definition format_3f (x : float) : string :=
  match Prim2SF x with
  | S754_nan => "nan"
  | S754_infinity s => if s then "-inf" else "inf"
  | S754_zero s => if s then "-0.000" else "0.000"
  | S754_finite s m e =>
      let n := scaled m e 3 in
      let frac := pretty (n mod 1000) in
      let pad := match String.length frac with
                 | 1%nat => "00" | 2%nat => "0" | _ => ""
                 end in
      (if s then "-" else "") +:+ pretty (n / 1000) +:+ "." +:+ pad +:+ frac
  end%string.

(** *** [float(s)] on a string

    The text is first brought to ASCII, then stripped of the white space
    around it.  What remains has the grammar of the language reference: a
    sign, then [inf], [infinity] or [nan] in any case, or a decimal number
    with an optional exponent, where single underscores may separate
    digits. *)

Fixpoint is_ascii (s : string) : bool :=
  match s with
  | EmptyString => true
  | String c s' => (N_of_ascii c <? 128)%N && is_ascii s'
  end.

(** The code points of the digits zero that the Unicode database (14.0, the
    one of CPython 3.11) has with the property [Decimal] beyond ASCII; the
    nine code points after each of them are the digits one to nine. *)
Definition DECIMAL_ZEROS : list N :=
  [ 0x660; 0x6F0; 0x7C0; 0x966; 0x9E6; 0xA66; 0xAE6; 0xB66; 0xBE6; 0xC66;
    0xCE6; 0xD66; 0xDE6; 0xE50; 0xED0; 0xF20; 0x1040; 0x1090; 0x17E0;
    0x1810; 0x1946; 0x19D0; 0x1A80; 0x1A90; 0x1B50; 0x1BB0; 0x1C40; 0x1C50;
    0xA620; 0xA8D0; 0xA900; 0xA9D0; 0xA9F0; 0xAA50; 0xABF0; 0xFF10;
    0x104A0; 0x10D30; 0x11066; 0x110F0; 0x11136; 0x111D0; 0x112F0; 0x11450;
    0x114D0; 0x11650; 0x116C0; 0x11730; 0x118E0; 0x11950; 0x11C50; 0x11D50;
    0x11DA0; 0x16A60; 0x16AC0; 0x16B50; 0x1D7CE; 0x1D7D8; 0x1D7E2; 0x1D7EC;
    0x1D7F6; 0x1E140; 0x1E2F0; 0x1E950; 0x1FBF0 ]%N.

(** The value of a decimal digit beyond ASCII. *)
Definition decimal (cp : N) : option N :=
  (λ zero, cp - zero)%N <$>
  List.find (λ zero, (zero <=? cp) && (cp <? zero + 10))%N DECIMAL_ZEROS.

(** The characters of a text that is not ASCII, one by one: a character
    below U+007F stays, white space becomes a space, a decimal digit becomes
    its ASCII digit, and at any other character the text ends with a
    question mark. *)
Fixpoint to_ascii_go (fuel : nat) (s : string) : string :=
  match fuel, s with
  | O, _ => EmptyString
  | _, EmptyString => EmptyString
  | S n, _ =>
      match decode_first s with
      | Some (cp, r) =>
          if (cp <? 127)%N then String (ascii_of_N cp) (to_ascii_go n r)
          else if isspace cp then String " " (to_ascii_go n r)
          else
            match decimal cp with
            | Some d => String (ascii_of_N (48 + d)) (to_ascii_go n r)
            | None => "?"
            end
      | None => "?"
      end
  end.

(** The conversion that [float] applies to a [str] before it reads it: an
    ASCII text is taken as it is. *)
Definition to_ascii (s : string) : string :=
  if is_ascii s then s else to_ascii_go (String.length s) s.

(** The white space that [float] strips from the ASCII text: tab, line
    feed, vertical tab, form feed, carriage return and space (not the
    separators U+001C-U+001F, which [strip] removes). *)
Definition isspace_ascii (c : ascii) : bool :=
  let n := N_of_ascii c in
  ((9 <=? n) && (n <=? 13) || (n =? 32))%N.

Fixpoint lstrip_ascii (s : string) : string :=
  match s with
  | EmptyString => EmptyString
  | String c s' => if isspace_ascii c then lstrip_ascii s' else s
  end.

Definition rstrip_ascii (s : string) : string :=
  String.rev (lstrip_ascii (String.rev s)).

(** The ASCII letters in lower case: [inf] and [nan] are read in any case. *)
Fixpoint lower_ascii (s : string) : string :=
  match s with
  | EmptyString => EmptyString
  | String c s' => String (lower_char c) (lower_ascii s')
  end.

Definition digit_of (c : ascii) : option Z :=
  let n := N_of_ascii c in
  if (48 <=? n)%N && (n <=? 57)%N then Some (Z.of_N (n - 48)) else None.

(** The digits that follow a first digit: [acc] is the number read so far,
    [cnt] how many digits it has. *)
Fixpoint digits_go (acc : Z) (cnt : nat) (s : string) : Z * nat * string :=
  match s with
  | String c s' =>
      match digit_of c with
      | Some d => digits_go (10 * acc + d) (S cnt) s'
      | None =>
          if Ascii.eqb c "_" then
            match s' with
            | String c' s'' =>
                match digit_of c' with
                | Some d => digits_go (10 * acc + d) (S cnt) s''
                | None => (acc, cnt, s)
                end
            | EmptyString => (acc, cnt, s)
            end
          else (acc, cnt, s)
      end
  | EmptyString => (acc, cnt, s)
  end.

(** [digitpart]: at least one digit; continues the number [acc]. *)
Definition digitpart (acc : Z) (s : string) : option (Z * nat * string) :=
  match s with
  | String c s' =>
      match digit_of c with
      | Some d => Some (digits_go (10 * acc + d) 1 s')
      | None => None
      end
  | EmptyString => None
  end.

(** [[sign]]: the sign read (true for minus) and the rest. *)
Definition read_sign (s : string) : bool * string :=
  match s with
  | String "+" s' => (false, s')
  | String "-" s' => (true, s')
  | _ => (false, s)
  end.

(** [number]: the digits as one integer, the count of fraction digits, and
    the count of all digits read. *)
Definition read_number (s : string) : option (Z * nat * nat * string) :=
  match digitpart 0 s with
  | Some (i, ni, String "." rest) =>
      match digitpart i rest with
      | Some (m, nf, rest') => Some (m, nf, (ni + nf)%nat, rest')
      | None => Some (i, 0%nat, ni, rest)
      end
  | Some (i, ni, rest) => Some (i, 0%nat, ni, rest)
  | None =>
      match s with
      | String "." rest =>
          match digitpart 0 rest with
          | Some (m, nf, rest') => Some (m, nf, nf, rest')
          | None => None
          end
      | _ => None
      end
  end.

(** [[exponent]]: the signed exponent and the rest; [None] when an [e] is
    not followed by an exponent. *)
Definition read_exponent (s : string) : option (Z * string) :=
  match s with
  | String c s' =>
      if Ascii.eqb c "e" || Ascii.eqb c "E" then
        let '(neg, s'') := read_sign s' in
        match digitpart 0 s'' with
        | Some (e, _, rest) => Some (if neg then - e else e, rest)
        | None => None
        end
      else Some (0, s)
  | EmptyString => Some (0, s)
  end.

(** Nearest float to [(-1)^neg * m * 10^e10], where [m] was written with [nd]
    digits.  Beyond the range of the format the result is known without
    computing the power. *)
Definition decimal_exp_to_float (neg : bool) (m : Z) (e10 : Z) (nd : nat) : float :=
  match m with
  | Z.pos p =>
      if 400 <? e10 then (if neg then neg_infinity else infinity)
      else if e10 + Z.of_nat nd <? -400 then (if neg then neg_zero else PrimFloat.zero)
      else if 0 <=? e10 then
        SF2Prim (binary_normalize prec emax
                   ((if neg then -1 else 1) * (Z.pos p * 10 ^ e10)) 0 false)
      else
        SF2Prim (SFdiv prec emax (S754_finite neg p 0)
                   (S754_finite false (Z.to_pos (10 ^ (- e10))) 0))
  | _ => if neg then neg_zero else PrimFloat.zero
  end.

Definition float_of_string (s : string) : result float :=
  let '(neg, body) := read_sign (rstrip_ascii (lstrip_ascii (to_ascii s))) in
  let word := lower_ascii body in
  if String.eqb word "inf" || String.eqb word "infinity" then
    Ok (if neg then neg_infinity else infinity)
  else if String.eqb word "nan" then Ok nan
  else
    match read_number body with
    | Some (m, nf, nd, rest) =>
        match read_exponent rest with
        | Some (e, EmptyString) =>
            Ok (decimal_exp_to_float neg m (e - Z.of_nat nf) nd)
        | _ => Raise ValueError
        end
    | None => Raise ValueError
    end.

End Py.

(** [x ← c; k] runs [c] and continues with [k], unless [c] raised. *)
#[global] Instance result_bind : MBind Py.result := λ A B k c, Py.bind c k.

(* ===================================================================== *)
(** * The provider's data model *)
(* ===================================================================== *)

Module LHM.

(** Modelled from the spec: the device-kind enumeration of the provider
    (the [HardwareType] of the monitoring library, which is not part of the
    repository).  The GPU kinds carry their vendor tag. *)
Inductive HardwareType :=
  | Cpu | Mainboard | Memory
  | GpuNvidia | GpuAti | GpuAmd | GpuAmdRadeon | GpuIntel
  | Network | Storage | OtherHardware.

(** Modelled from the spec: the measurement-kind enumeration of the provider
    (its [SensorType]). *)
Inductive SensorType :=
  | Temperature | Load | Clock | Power | Data | OtherSensor.

#[global] Instance HardwareType_eq_dec : EqDecision HardwareType.
Proof. solve_decision. Defined.

#[global] Instance SensorType_eq_dec : EqDecision SensorType.
Proof. solve_decision. Defined.

(** [getattr(HardwareType, name, None)]: the member of that name. *)
Definition HardwareType_getattr (name : string) : option HardwareType :=
  if String.eqb name "Cpu" then Some Cpu
  else if String.eqb name "Mainboard" then Some Mainboard
  else if String.eqb name "Memory" then Some Memory
  else if String.eqb name "GpuNvidia" then Some GpuNvidia
  else if String.eqb name "GpuAti" then Some GpuAti
  else if String.eqb name "GpuAmd" then Some GpuAmd
  else if String.eqb name "GpuAmdRadeon" then Some GpuAmdRadeon
  else if String.eqb name "GpuIntel" then Some GpuIntel
  else if String.eqb name "Network" then Some Network
  else if String.eqb name "Storage" then Some Storage
  else None.

(** [getattr(SensorType, name, None)] *)
Definition SensorType_getattr (name : string) : option SensorType :=
  if String.eqb name "Temperature" then Some Temperature
  else if String.eqb name "Load" then Some Load
  else if String.eqb name "Clock" then Some Clock
  else if String.eqb name "Power" then Some Power
  else if String.eqb name "Data" then Some Data
  else None.

(** [t.__str__()]: the name of the member. *)
Definition SensorType_str (t : SensorType) : string :=
  match t with
  | Temperature => "Temperature" | Load => "Load" | Clock => "Clock"
  | Power => "Power" | Data => "Data" | OtherSensor => "Other"
  end.

(** One sensor of the provider: its free-text name (possibly absent), its
    measurement kind and its value, which may be absent, NaN or infinite. *)
Record Sensor := mkSensor {
  s_Name : option string;
  s_SensorType : SensorType;
  s_Value : option float
}.

(** One device: its kind, its sensors and its sub-devices. *)
Inductive Hardware := mkHardware {
  h_HardwareType : HardwareType;
  h_Sensors : list Sensor;
  h_SubHardware : list Hardware
}.

End LHM.

(* ===================================================================== *)
(** * [HardwareMonitorReader] *)
(* ===================================================================== *)

Module Reader.
Import LHM.

(** [a or b] on values that are [None] or an enumeration member. *)
Definition py_or {A} (a b : option A) : option A :=
  match a with Some _ => a | None => b end.

(** The enumeration members cached by [__init__]. *)
Definition HT_CPU : option HardwareType :=
  py_or (HardwareType_getattr "Cpu") (HardwareType_getattr "CPU").
Definition HT_MAINBOARD : option HardwareType :=
  py_or (HardwareType_getattr "Mainboard") (HardwareType_getattr "Motherboard").
Definition HT_RAM : option HardwareType :=
  py_or (HardwareType_getattr "Memory") (HardwareType_getattr "RAM").
Definition HT_NETWORK : option HardwareType := HardwareType_getattr "Network".
Definition ST_TEMP : option SensorType := SensorType_getattr "Temperature".
Definition ST_LOAD : option SensorType := SensorType_getattr "Load".
Definition ST_CLOCK : option SensorType := SensorType_getattr "Clock".
Definition ST_POWER : option SensorType := SensorType_getattr "Power".
Definition ST_DATA : option SensorType := SensorType_getattr "Data".

(** An element of the flattened sensor list:
    [(hardware, sensor, parent_hardware)]. *)
Definition Entry : Type := Hardware * Sensor * Hardware.

Definition sensor_of (e : Entry) : Sensor := snd (fst e).
Definition parent_of (e : Entry) : Hardware := snd e.

(** [_collect_sensors]: the sensors of each device, then those of each of
    its sub-devices, attributed to the device. *)
Definition _collect_sensors (computer : list Hardware) : list Entry :=
  flat_map (fun hardware =>
    map (fun sensor => (hardware, sensor, hardware)) (h_Sensors hardware) ++
    flat_map (fun sub =>
      map (fun sensor => (sub, sensor, hardware)) (h_Sensors sub))
      (h_SubHardware hardware))
    computer.

(** [_is_finite]: the value of a sensor is [None] or a float, on which
    [float(value)] is the identity and does not raise. *)
Definition _is_finite (value : option float) : bool :=
  match value with
  | None => false
  | Some v => Py.isfinite v
  end.

(** [if self._is_finite(value): pool.append(float(value))] *)
Definition append_finite (pool : list float) (value : option float) : list float :=
  match value with
  | Some v => if _is_finite value then pool ++ [v] else pool
  | None => pool
  end.

(** [if self._is_finite(value): var = float(value)] *)
Definition assign_finite (var : option float) (value : option float) : option float :=
  match value with
  | Some v => if _is_finite value then Some v else var
  | None => var
  end.

(** [getattr(parent, "HardwareType", None) == ht] *)
Definition hw_is (parent : Hardware) (ht : option HardwareType) : bool :=
  bool_decide (Some (h_HardwareType parent) = ht).

(** [getattr(parent, "HardwareType", None) in types] *)
Definition hw_in (parent : Hardware) (types : list (option HardwareType)) : bool :=
  bool_decide (Some (h_HardwareType parent) ∈ types).

(** [sensor.SensorType == st] *)
Definition st_is (sensor : Sensor) (st : option SensorType) : bool :=
  bool_decide (Some (s_SensorType sensor) = st).

(** [st is None or sensor.SensorType == st] *)
Definition st_is_or_unknown (sensor : Sensor) (st : option SensorType) : bool :=
  match st with None => true | Some _ => st_is sensor st end.

(** [(st is not None and sensor.SensorType == st) or
     (st is None and sensor.SensorType.__str__().endswith(suffix))] *)
Definition st_is_or_named (sensor : Sensor) (st : option SensorType)
    (suffix : string) : bool :=
  match st with
  | Some _ => st_is sensor st
  | None => Py.endswith (SensorType_str (s_SensorType sensor)) suffix
  end.

(** [(sensor.Name or "")] *)
Definition name_or_empty (sensor : Sensor) : string :=
  match s_Name sensor with Some n => n | None => "" end.

(** [(sensor.Name or "").lower()] *)
Definition lower_name (sensor : Sensor) : string :=
  Py.lower (name_or_empty sensor).

(** ** [_select_cpu_temps] *)

(** The four lists filled by the loop, in the order of their declaration. *)
Record CpuTempPools := mkCpuTempPools {
  core_sensor_temps : list float;
  ccd_sensor_temps : list float;
  package_temps : list float;
  mb_cpu_temps : list float
}.

(** One iteration of the loop. *)
Definition cpu_temps_step (p : CpuTempPools) (e : Entry) : CpuTempPools :=
  let sensor := sensor_of e in
  let parent := parent_of e in
  if (match ST_TEMP with Some _ => negb (st_is sensor ST_TEMP) | None => false end)
  then p
  else
    let name := lower_name sensor in
    if hw_is parent HT_CPU then
      if Py.contains "ccd" name then
        mkCpuTempPools (core_sensor_temps p)
          (append_finite (ccd_sensor_temps p) (s_Value sensor))
          (package_temps p) (mb_cpu_temps p)
      else if Py.contains "core" name then
        mkCpuTempPools (append_finite (core_sensor_temps p) (s_Value sensor))
          (ccd_sensor_temps p) (package_temps p) (mb_cpu_temps p)
      else if Py.any_in ["package"; "tdie"; "tctl"; "cpu"] name then
        mkCpuTempPools (core_sensor_temps p) (ccd_sensor_temps p)
          (append_finite (package_temps p) (s_Value sensor)) (mb_cpu_temps p)
      else p
    else if hw_is parent HT_MAINBOARD then
      if Py.any_in ["cpu"; "cpu socket"; "package"; "tdie"; "tctl"] name then
        mkCpuTempPools (core_sensor_temps p) (ccd_sensor_temps p)
          (package_temps p) (append_finite (mb_cpu_temps p) (s_Value sensor))
      else p
    else p.

Definition cpu_temp_pools (sensors : list Entry) : CpuTempPools :=
  fold_left cpu_temps_step sensors (mkCpuTempPools [] [] [] []).

(** [if l:] on a list *)
Definition nonempty {A} (l : list A) : bool :=
  match l with [] => false | _ :: _ => true end.

(** [max(l)] as an optional result. *)
Definition some_max (l : list float) : Py.result (option float) :=
  m ← Py.max_list l ; Py.Ok (Some m).

(** [sum(l) / len(l)] as an optional result. *)
Definition some_mean (l : list float) : Py.result (option float) :=
  a ← Py.mean l ; Py.Ok (Some a).

(** The two results of [_select_cpu_temps]: [(core_avg, hotspot)]. *)
Definition _select_cpu_temps (sensors : list Entry)
    : Py.result (option float * option float) :=
  let p := cpu_temp_pools sensors in
  hotspot ←
    (if nonempty (core_sensor_temps p) then some_max (core_sensor_temps p)
     else if nonempty (package_temps p) then some_max (package_temps p)
     else if nonempty (mb_cpu_temps p) then some_max (mb_cpu_temps p)
     else Py.Ok None) ;
  let vals :=
    if nonempty (ccd_sensor_temps p) then ccd_sensor_temps p
    else if nonempty (core_sensor_temps p) then core_sensor_temps p
    else if nonempty (package_temps p) then package_temps p
    else if nonempty (mb_cpu_temps p) then mb_cpu_temps p
    else [] in
  core_avg ← (if nonempty vals then some_mean vals else Py.Ok None) ;
  Py.Ok (core_avg, hotspot).

(** ** [_select_cpu_total_load] *)

Definition is_cpu_load (e : Entry) : bool :=
  hw_is (parent_of e) HT_CPU && st_is_or_unknown (sensor_of e) ST_LOAD.

(** The first loop: the first usable sensor named "cpu total" or "total". *)
Fixpoint cpu_total_named (sensors : list Entry) : option float :=
  match sensors with
  | [] => None
  | e :: rest =>
      if is_cpu_load e &&
         Py.str_in_tuple (Py.lower (Py.strip (name_or_empty (sensor_of e))))
           ["cpu total"; "total"] &&
         _is_finite (s_Value (sensor_of e))
      then s_Value (sensor_of e)
      else cpu_total_named rest
  end.

(** The second loop: every usable CPU load. *)
Definition cpu_loads (sensors : list Entry) : list float :=
  fold_left (fun loads e =>
    if is_cpu_load e then append_finite loads (s_Value (sensor_of e)) else loads)
    sensors [].

Definition _select_cpu_total_load (sensors : list Entry)
    : Py.result (option float) :=
  match cpu_total_named sensors with
  | Some v => Py.Ok (Some v)
  | None =>
      let loads := cpu_loads sensors in
      if nonempty loads then some_mean loads else Py.Ok None
  end.

(** ** [_select_cpu_core_clocks] *)

Definition cpu_clocks (sensors : list Entry) : list float :=
  fold_left (fun clocks e =>
    let sensor := sensor_of e in
    if hw_is (parent_of e) HT_CPU && st_is_or_unknown sensor ST_CLOCK then
      let name := lower_name sensor in
      if Py.startswith name "cpu core" || Py.startswith name "core" ||
         Py.contains "clock" name
      then append_finite clocks (s_Value sensor)
      else clocks
    else clocks)
    sensors [].

(** [(max_clock, avg_clock)] *)
Definition _select_cpu_core_clocks (sensors : list Entry)
    : Py.result (option float * option float) :=
  let clocks := cpu_clocks sensors in
  if nonempty clocks then
    max_clock ← some_max clocks ;
    avg_clock ← some_mean clocks ;
    Py.Ok (max_clock, avg_clock)
  else Py.Ok (None, None).

(** ** [_select_ram_used_free_gb] *)

(** [getattr(parent, "HardwareType", None) in
     (getattr(self.HardwareType, "RAM", None),
      getattr(self.HardwareType, "Memory", None))] *)
Definition is_ram_hw (parent : Hardware) : bool :=
  hw_in parent [HardwareType_getattr "RAM"; HardwareType_getattr "Memory"].

(** The three variables assigned by the loop. *)
Record RamVars := mkRamVars {
  used_gb : option float;
  free_gb : option float;
  load_percent : option float
}.

Definition ram_step (r : RamVars) (e : Entry) : RamVars :=
  let sensor := sensor_of e in
  if negb (is_ram_hw (parent_of e)) then r
  else
    let name := lower_name sensor in
    if Py.contains "virtual" name then r
    else
      let r1 :=
        if st_is_or_named sensor ST_DATA "Data" then
          let used :=
            if Py.contains "used" name then assign_finite (used_gb r) (s_Value sensor)
            else used_gb r in
          let free :=
            if Py.contains "available" name || Py.contains "free" name
            then assign_finite (free_gb r) (s_Value sensor)
            else free_gb r in
          mkRamVars used free (load_percent r)
        else r in
      if st_is_or_unknown sensor ST_LOAD &&
         ((String.eqb name "memory" || String.eqb name "ram") ||
          (Py.contains "memory" name || Py.contains "ram" name) ||
          (Py.contains "load" name || Py.contains "usage" name))
      then mkRamVars (used_gb r1) (free_gb r1)
             (assign_finite (load_percent r1) (s_Value sensor))
      else r1.

(** [(used_gb, free_gb, load_percent)] *)
Definition _select_ram_used_free_gb (sensors : list Entry) : RamVars :=
  fold_left ram_step sensors (mkRamVars None None None).

(** ** [_select_ram_usage] *)

(** The first loop: the first usable Load sensor of a memory device. *)
Fixpoint ram_load_first (sensors : list Entry) : option float :=
  match sensors with
  | [] => None
  | e :: rest =>
      if is_ram_hw (parent_of e) && st_is_or_unknown (sensor_of e) ST_LOAD &&
         _is_finite (s_Value (sensor_of e))
      then s_Value (sensor_of e)
      else ram_load_first rest
  end.

(** The second loop: [(used, available)]. *)
Definition ram_used_available_step (ua : option float * option float) (e : Entry)
    : option float * option float :=
  let sensor := sensor_of e in
  if negb (is_ram_hw (parent_of e)) then ua
  else if st_is_or_named sensor ST_DATA "Data" then
    let name := lower_name sensor in
    let used :=
      if Py.contains "used" name then assign_finite (fst ua) (s_Value sensor)
      else fst ua in
    let available :=
      if Py.contains "available" name then assign_finite (snd ua) (s_Value sensor)
      else snd ua in
    (used, available)
  else ua.

Definition _select_ram_usage (sensors : list Entry) : Py.result (option float) :=
  match ram_load_first sensors with
  | Some v => Py.Ok (Some v)
  | None =>
      match fold_left ram_used_available_step sensors (None, None) with
      | (Some used, Some available) =>
          if Py.gt (used + available)%float 0%float then
            q ← Py.div used (used + available)%float ;
            Py.Ok (Some (q * 100)%float)
          else Py.Ok None
      | _ => Py.Ok None
      end
  end.

(** ** [_select_gpu_metrics] *)

Definition gpu_types : list (option HardwareType) :=
  [ HardwareType_getattr "GpuNvidia";
    HardwareType_getattr "GpuAti";
    HardwareType_getattr "GpuAmd";
    HardwareType_getattr "GpuAmdRadeon";
    HardwareType_getattr "GpuIntel" ].

(** The six lists filled by the loop, in the order of their declaration. *)
Record GpuPools := mkGpuPools {
  temps : list float;
  hotspot_temps : list float;
  loads : list float;
  powers : list float;
  core_clocks : list float;
  mem_clocks : list float
}.

(** The body of the loop is four tests in a row, one per measurement kind;
    each is a function of the pools and the sensor. *)
Definition gpu_temp_block (p : GpuPools) (sensor : Sensor) : GpuPools :=
  if st_is_or_unknown sensor ST_TEMP then
    if Py.any_in ["hot spot"; "hotspot"; "junction"] (lower_name sensor) then
      mkGpuPools (temps p) (append_finite (hotspot_temps p) (s_Value sensor))
        (loads p) (powers p) (core_clocks p) (mem_clocks p)
    else
      mkGpuPools (append_finite (temps p) (s_Value sensor)) (hotspot_temps p)
        (loads p) (powers p) (core_clocks p) (mem_clocks p)
  else p.

Definition gpu_load_block (p : GpuPools) (sensor : Sensor) : GpuPools :=
  if st_is_or_unknown sensor ST_LOAD then
    if Py.contains "core" (lower_name sensor) ||
       Py.str_in_tuple (lower_name sensor) ["gpu core"; "gpu"]
    then
      mkGpuPools (temps p) (hotspot_temps p)
        (append_finite (loads p) (s_Value sensor))
        (powers p) (core_clocks p) (mem_clocks p)
    else p
  else p.

Definition gpu_power_block (p : GpuPools) (sensor : Sensor) : GpuPools :=
  if st_is_or_named sensor ST_POWER "Power" then
    mkGpuPools (temps p) (hotspot_temps p) (loads p)
      (append_finite (powers p) (s_Value sensor))
      (core_clocks p) (mem_clocks p)
  else p.

Definition gpu_clock_block (p : GpuPools) (sensor : Sensor) : GpuPools :=
  if st_is_or_unknown sensor ST_CLOCK then
    if Py.contains "memory" (lower_name sensor) && _is_finite (s_Value sensor) then
      mkGpuPools (temps p) (hotspot_temps p) (loads p) (powers p)
        (core_clocks p) (append_finite (mem_clocks p) (s_Value sensor))
    else if (Py.contains "gpu core" (lower_name sensor) ||
             Py.contains "core" (lower_name sensor)) &&
            _is_finite (s_Value sensor) then
      mkGpuPools (temps p) (hotspot_temps p) (loads p) (powers p)
        (append_finite (core_clocks p) (s_Value sensor)) (mem_clocks p)
    else p
  else p.

(** One iteration of the loop. *)
Definition gpu_step (p : GpuPools) (e : Entry) : GpuPools :=
  let sensor := sensor_of e in
  if hw_in (parent_of e) gpu_types then
    gpu_clock_block
      (gpu_power_block (gpu_load_block (gpu_temp_block p sensor) sensor) sensor)
      sensor
  else p.

Definition gpu_pools (sensors : list Entry) : GpuPools :=
  fold_left gpu_step sensors (mkGpuPools [] [] [] [] [] []).

(** [max(l) if l else None] *)
Definition max_or_none (l : list float) : Py.result (option float) :=
  if nonempty l then some_max l else Py.Ok None.

(** The six results, as the tuple the method returns. *)
Record GpuResult := mkGpuResult {
  r_core_temp : option float;
  r_hotspot : option float;
  r_load : option float;
  r_power : option float;
  r_core_clock : option float;
  r_mem_clock : option float
}.

Definition _select_gpu_metrics (sensors : list Entry) : Py.result GpuResult :=
  let p := gpu_pools sensors in
  core_temp ← max_or_none (temps p) ;
  hotspot ← max_or_none (hotspot_temps p) ;
  load ← max_or_none (loads p) ;
  power ← max_or_none (powers p) ;
  core_clock ← max_or_none (core_clocks p) ;
  mem_clock ← max_or_none (mem_clocks p) ;
  Py.Ok (mkGpuResult core_temp hotspot load power core_clock mem_clock).

(** ** [_round_or_none] *)

(** [round] does not raise on a float for the digit counts used here, so the
    [except] branch of the source is never taken. *)
Definition _round_or_none (value : option float) (digits : nat) : option float :=
  match value with
  | None => None
  | Some v => Some (Py.round v digits)
  end.

(** ** [read_metrics] *)

(** The loop over the network adapters. *)
Definition net_load_values (sensors : list Entry) : list float :=
  fold_left (fun vals e =>
    let sensor := sensor_of e in
    if hw_is (parent_of e) HT_NETWORK && st_is_or_unknown sensor ST_LOAD then
      match s_Value sensor with
      | Some val =>
          if _is_finite (s_Value sensor) then
            if PrimFloat.leb 0 val && PrimFloat.leb val 100 then vals ++ [val]
            else vals
          else vals
      | None => vals
      end
    else vals)
    sensors [].

(** The loop over the CPU power sensors. *)
Definition cpu_powers (sensors : list Entry) : list float :=
  fold_left (fun pw e =>
    let sensor := sensor_of e in
    if hw_is (parent_of e) HT_CPU && st_is_or_named sensor ST_POWER "Power" then
      if Py.any_in ["package"; "cpu"; "ppt"; "socket"; "total"] (lower_name sensor)
      then append_finite pw (s_Value sensor)
      else pw
    else pw)
    sensors [].

(** The snapshot: the nested dictionaries of the source, one record each. *)
Record CpuMetrics := mkCpuMetrics {
  cpu_core_temperature_c : option float;
  cpu_hotspot_temperature_c : option float;
  cpu_usage_percent : option float;
  cpu_max_clock_mhz : option float;
  cpu_avg_clock_mhz : option float;
  cpu_power_w : option float
}.

Record RamMetrics := mkRamMetrics {
  ram_usage_percent : option float;
  ram_used_gb : option float;
  ram_free_gb : option float
}.

Record GpuMetrics := mkGpuMetrics {
  gpu_core_temperature_c : option float;
  gpu_hotspot_temperature_c : option float;
  gpu_usage_percent : option float;
  gpu_core_clock_mhz : option float;
  gpu_memory_clock_mhz : option float;
  gpu_power_w : option float
}.

Record NetMetrics := mkNetMetrics {
  net_usage_percent : option float
}.

Record Snapshot := mkSnapshot {
  cpu : CpuMetrics;
  ram : RamMetrics;
  gpu : GpuMetrics;
  net : NetMetrics;
  timestamp : float
}.

(** What one call observes of the outside: the device tree as the refresh of
    [_update_all] left it, and the clock read by [time.time()]. *)
Record World := mkWorld {
  computer : list Hardware;
  clock : float
}.

(** [net_load]: the maximum of the loop's values, when there is one. *)
Definition net_load (sensors : list Entry) : Py.result (option float) :=
  max_or_none (net_load_values sensors).

(** [cpu_power] *)
Definition cpu_power (sensors : list Entry) : Py.result (option float) :=
  max_or_none (cpu_powers sensors).

(** The selection and rounding of [read_metrics] on a flattened sensor list,
    stamped with [now]. *)
Definition metrics_of (sensors : list Entry) (now : float) : Py.result Snapshot :=
  '(cpu_core_temp, cpu_hotspot_temp) ← _select_cpu_temps sensors ;
  cpu_load ← _select_cpu_total_load sensors ;
  '(cpu_clock_max_mhz, cpu_clock_avg_mhz) ← _select_cpu_core_clocks sensors ;
  let ram_vars := _select_ram_used_free_gb sensors in
  let ram_usage := load_percent ram_vars in
  g ← _select_gpu_metrics sensors ;
  net_load ← net_load sensors ;
  cpu_power ← cpu_power sensors ;
  Py.Ok (mkSnapshot
    (mkCpuMetrics
       (_round_or_none cpu_core_temp 1)
       (_round_or_none cpu_hotspot_temp 1)
       (_round_or_none cpu_load 1)
       (_round_or_none cpu_clock_max_mhz 0)
       (_round_or_none cpu_clock_avg_mhz 0)
       (_round_or_none cpu_power 1))
    (mkRamMetrics
       (_round_or_none ram_usage 1)
       (_round_or_none (used_gb ram_vars) 1)
       (_round_or_none (free_gb ram_vars) 1))
    (mkGpuMetrics
       (_round_or_none (r_core_temp g) 1)
       (_round_or_none (r_hotspot g) 1)
       (_round_or_none (r_load g) 1)
       (_round_or_none (r_core_clock g) 0)
       (_round_or_none (r_mem_clock g) 0)
       (_round_or_none (r_power g) 1))
    (mkNetMetrics (_round_or_none net_load 1))
    now).

Definition read_metrics (w : World) : Py.result Snapshot :=
  metrics_of (_collect_sensors (computer w)) (clock w).

End Reader.

(* ===================================================================== *)
(** * UI configuration: [config.ini] and the [/api/config] view *)
(* ===================================================================== *)

Module Config.

Definition SENSOR_KEYS_DEFAULT : list string :=
  [ "cpu_core_temp"; "cpu_hotspot_temp"; "cpu_usage"; "net_load";
    "cpu_clock_max"; "cpu_clock_avg"; "cpu_power";
    "ram_usage"; "ram_used"; "ram_free";
    "gpu_core_temp"; "gpu_hotspot_temp"; "gpu_clock"; "gpu_mem_clock";
    "gpu_usage"; "gpu_power" ].

(** The [UI_CONFIG] dictionary: its two keys are always present. *)
Record UiConfig := mkUiConfig {
  order : list string;
  update_interval_sec : float
}.

Definition UI_CONFIG_default : UiConfig := mkUiConfig SENSOR_KEYS_DEFAULT 1.

Definition ALIAS_TO_CANON : gmap string string :=
  {[ "cpu_temp" := "cpu_core_temp" ]}.

Definition CANON_TO_EXTERNAL : gmap string string := ∅.

(** [d.get(key, key)] *)
Definition get_or_self (d : gmap string string) (key : string) : string :=
  default key (d !! key).

(** ** [_normalize_order] *)

(** One iteration of the first loop, on [(seen, normalized)]. *)
Definition normalize_step (st : gset string * list string) (key : string)
    : gset string * list string :=
  let canon := get_or_self ALIAS_TO_CANON key in
  if bool_decide (canon ∈ SENSOR_KEYS_DEFAULT) && bool_decide (canon ∉ st.1)
  then ({[ canon ]} ∪ st.1, st.2 ++ [canon])
  else st.

(** One iteration of the second loop: [seen] is only read. *)
Definition append_missing_step (seen : gset string) (normalized : list string)
    (key : string) : list string :=
  if bool_decide (key ∉ seen) then normalized ++ [key] else normalized.

Definition _normalize_order (order : list string) : list string :=
  let '(seen, normalized) := fold_left normalize_step order (∅, []) in
  fold_left (append_missing_step seen) SENSOR_KEYS_DEFAULT normalized.

(** ** The persisted file *)

(** [config.ini] as [ConfigParser] sees it after [cfg.read]: absent,
    unreadable as an INI file (any error of [cfg.read]), or a map from
    section names to their options, each option with its text as written in
    the file.  The section [DEFAULT], when the file has one, is the entry
    of that name. *)
Inductive ConfigFile :=
  | NoFile
  | Malformed
  | Ini (cfg : gmap string (gmap string string)).

(** The file and whether it can be opened for writing. *)
Record FileSystem := mkFileSystem {
  config_file : ConfigFile;
  writable : bool
}.

(** [cfg.has_section(section)] *)
Definition has_section (cfg : gmap string (gmap string string)) (section : string)
    : bool :=
  bool_decide (is_Some (cfg !! section)).

(** [d[option]] on the chain that [cfg.get] builds for a section: the
    option of the section, else the one of [DEFAULT]. *)
Definition chain_lookup (cfg : gmap string (gmap string string))
    (section name : string) : option string :=
  match (cfg !! section) ≫= (λ sec, sec !! name) with
  | Some v => Some v
  | None => (cfg !! "DEFAULT") ≫= (λ sec, sec !! name)
  end.

(** One pass of [BasicInterpolation._interpolate_some] over the text of an
    option.  Outside a reference ([name] is [None]) a [%%] gives a [%], a
    [%(] opens a reference and any other [%] is a syntax error.  Inside a
    reference [name] holds its characters, reversed: the reference ends at
    the first [)], must not be empty and must be followed by an [s] (the
    pattern [%\(([^)]+)\)s]); [resolve] gives what it stands for. *)
Fixpoint interpolate_some (resolve : string → Py.result string)
    (name : option string) (rest : string) : Py.result string :=
  match name, rest with
  | None, EmptyString => Py.Ok EmptyString
  | None, String c r =>
      if Ascii.eqb c "%" then
        match r with
        | String c' r' =>
            if Ascii.eqb c' "%" then
              t ← interpolate_some resolve None r'; Py.Ok (String "%" t)
            else if Ascii.eqb c' "(" then
              interpolate_some resolve (Some EmptyString) r'
            else Py.Raise Py.ConfigParserError
        | EmptyString => Py.Raise Py.ConfigParserError
        end
      else t ← interpolate_some resolve None r; Py.Ok (String c t)
  | Some _, EmptyString => Py.Raise Py.ConfigParserError
  | Some acc, String c r =>
      if Ascii.eqb c ")" then
        match acc, r with
        | String _ _, String c' r' =>
            if Ascii.eqb c' "s" then
              v ← resolve (String.rev acc);
              t ← interpolate_some resolve None r';
              Py.Ok (v +:+ t)
            else Py.Raise Py.ConfigParserError
        | _, _ => Py.Raise Py.ConfigParserError
        end
      else interpolate_some resolve (Some (String c acc)) r
  end.

(** [BasicInterpolation.before_get]: the text of an option with its
    references replaced.  A reference names an option of the same chain,
    in any case ([optionxform], here [Py.lower], which is [str.lower] on a
    name without capital letters beyond ASCII); its text is interpolated in
    turn when it has a [%], and [depth] bounds the nesting.  A missing
    option, a reference nested too deep and a syntax error raise. *)
Fixpoint interpolate (depth : nat) (map : string → option string)
    (value : string) : Py.result string :=
  match depth with
  | O => Py.Raise Py.ConfigParserError
  | S depth' =>
      interpolate_some
        (λ var,
           match map (Py.lower var) with
           | Some v => if Py.contains "%" v then interpolate depth' map v
                       else Py.Ok v
           | None => Py.Raise Py.ConfigParserError
           end)
        None value
  end.

Definition MAX_INTERPOLATION_DEPTH : nat := 10.

(** [cfg.get(section, option, fallback=fallback)], for a section that
    exists: the text of the option in the chain of the section,
    interpolated, or the fallback as it is when the chain has no such
    option. *)
Definition cfg_get (cfg : gmap string (gmap string string))
    (section option fallback : string) : Py.result string :=
  match chain_lookup cfg section option with
  | Some value =>
      interpolate MAX_INTERPOLATION_DEPTH (chain_lookup cfg section) value
  | None => Py.Ok fallback
  end.

(** [cfg.set(section, option, value)], for a section that exists.  ([set]
    refuses a value with a [%] that is not interpolation syntax; the two
    values that the server sets, a list of canonical keys and a number
    written by the [.3f] format, have no [%].) *)
Definition cfg_set (cfg : gmap string (gmap string string))
    (section option value : string) : gmap string (gmap string string) :=
  <[ section := <[ option := value ]> (default ∅ (cfg !! section)) ]> cfg.

(** [[s.strip() for s in order_str.split(",") if s.strip()]] *)
Definition order_list_of (order_str : string) : list string :=
  map Py.strip
    (filter (λ s, Py.strip s ≠ EmptyString) (Py.split "," order_str)).

(** ** [load_ui_config] *)

(** The outer [try] covers the reading of the order, the inner one the
    reading of the interval: an error in the former leaves [result] with
    both its defaults, an error in the latter sets the interval to 1. *)
Definition load_ui_config (fs : FileSystem) : UiConfig :=
  match config_file fs with
  | NoFile => UI_CONFIG_default
  | Malformed => UI_CONFIG_default
  | Ini cfg =>
      if has_section cfg "ui" then
        match cfg_get cfg "ui" "order" "," with
        | Py.Ok order_str =>
            let interval :=
              Py.try_except
                (s ← cfg_get cfg "ui" "update_interval_sec" "1.0" ;
                 v ← Py.float_of_string s ;
                 Py.Ok (Py.max2 0.05 v))
                1%float in
            mkUiConfig (_normalize_order (order_list_of order_str)) interval
        | Py.Raise _ => UI_CONFIG_default
        end
      else UI_CONFIG_default
  end.

(** ** [save_ui_config] *)

(** The parser state after the optional [cfg.read]: a file that cannot be
    parsed is replaced by an empty parser. *)
Definition cfg_read_or_empty (f : ConfigFile) : gmap string (gmap string string) :=
  match f with
  | Ini cfg => cfg
  | NoFile | Malformed => ∅
  end.

(** The parser state that [save_ui_config] writes. *)
Definition cfg_to_save (order : option (list string))
    (update_interval_sec : option float) (f : ConfigFile)
    : gmap string (gmap string string) :=
  let cfg0 := cfg_read_or_empty f in
  let cfg1 := if has_section cfg0 "ui" then cfg0 else <[ "ui" := ∅ ]> cfg0 in
  let cfg2 :=
    match order with
    | Some o =>
        let canon_list := _normalize_order o in
        let external_list := map (get_or_self CANON_TO_EXTERNAL) canon_list in
        cfg_set cfg1 "ui" "order" (Py.join "," external_list)
    | None => cfg1
    end in
  match update_interval_sec with
  | Some v =>
      let val := Py.max2 0.05 v in
      cfg_set cfg2 "ui" "update_interval_sec" (Py.format_3f val)
  | None => cfg2
  end.

(** A file that cannot be opened for writing raises and is left as it was. *)
Definition save_ui_config (order : option (list string))
    (update_interval_sec : option float) (fs : FileSystem) : Py.result FileSystem :=
  if writable fs
  then Py.Ok (mkFileSystem
                (Ini (cfg_to_save order update_interval_sec (config_file fs)))
                (writable fs))
  else Py.Raise Py.OSError.

(** ** [config_view] *)

(** A JSON value, as [json.loads] returns it. *)
Inductive json :=
  | JNull
  | JBool (b : bool)
  | JInt (z : Z)
  | JFloat (f : float)
  | JStr (s : string)
  | JArr (l : list json)
  | JObj (members : list (string * json)).

(** [payload.get(key)] on a dictionary built from [members]: the last member
    of that name, or [None]. *)
Fixpoint obj_get (members : list (string * json)) (key : string) : option json :=
  match members with
  | [] => None
  | (k, v) :: rest =>
      match obj_get rest key with
      | Some v' => Some v'
      | None => if String.eqb k key then Some v else None
      end
  end.

(** [float(x)] on a JSON value *)
Definition py_float (x : json) : Py.result float :=
  match x with
  | JBool b => Py.Ok (if b then 1 else 0)%float
  | JInt z => Py.float_of_int z
  | JFloat f => Py.Ok f
  | JStr s => Py.float_of_string s
  | JNull | JArr _ | JObj _ => Py.Raise Py.TypeError
  end.

(** The body of a request: empty, one that [json.loads] refuses (text that
    is not JSON or not UTF-8, an integer literal longer than the digit limit
    of the interpreter), or the JSON value that [json.loads] returns. *)
Inductive Body :=
  | BodyEmpty
  | BodyInvalid
  | BodyJson (j : json).

Record Request := mkRequest {
  method : string;
  body : Body
}.

(** The [JsonResponse] returned: the configuration, [{"ok": True}], or an
    error with its status. *)
Inductive Response :=
  | ConfigResponse (order : list string) (update_interval_sec : float)
  | OkResponse
  | ErrorResponse (status : nat) (error : string).

(** The state of the server: the [UI_CONFIG] global and the file system. *)
Record State := mkState {
  UI_CONFIG : UiConfig;
  fs : FileSystem
}.

Section ConfigView.

(** [str(x)] on a JSON value that is not a string (its Python [repr]). *)
Variable py_repr : json → string.

Definition py_str (x : json) : string :=
  match x with
  | JStr s => s
  | _ => py_repr x
  end.

(** [json.loads(body or "{}")] *)
Definition payload_of (b : Body) : Py.result json :=
  match b with
  | BodyEmpty => Py.Ok (JObj [])
  | BodyInvalid => Py.Raise Py.ValueError
  | BodyJson j => Py.Ok j
  end.

(** The view returns its response and the new state; an exception that the
    view does not catch ([payload.get] on a payload that is not an object)
    leaves the state as it was. *)
Definition config_view (st : State) (request : Request)
    : Py.result Response * State :=
  if String.eqb (method request) "GET" then
    (Py.Ok (ConfigResponse (order (UI_CONFIG st))
              (update_interval_sec (UI_CONFIG st))), st)
  else
    match payload_of (body request) with
    | Py.Raise _ => (Py.Ok (ErrorResponse 400 "Invalid JSON"), st)
    | Py.Ok (JObj members) =>
        let order1 :=
          match obj_get members "order" with
          | Some (JArr l) => _normalize_order (map py_str l)
          | _ => order (UI_CONFIG st)
          end in
        let interval1 :=
          match obj_get members "update_interval_sec" with
          | None | Some JNull => update_interval_sec (UI_CONFIG st)
          | Some v =>
              Py.try_except (f ← py_float v ; Py.Ok (Py.max2 0.05 f))
                (update_interval_sec (UI_CONFIG st))
          end in
        let ui := mkUiConfig order1 interval1 in
        match save_ui_config (Some order1) (Some interval1) (fs st) with
        | Py.Ok fs' => (Py.Ok OkResponse, mkState ui fs')
        | Py.Raise _ =>
            (Py.Ok (ErrorResponse 500 "Failed to save config"), mkState ui (fs st))
        end
    | Py.Ok _ => (Py.Raise Py.AttributeError, st)
    end.

End ConfigView.

(** ** [main] *)

(** The start of the server, as far as the configuration goes: [UI_CONFIG]
    is what [load_ui_config] returns.  ([load_ui_config] catches its own
    errors, so the [except] branch of [main] is never taken; the reader and
    the HTTP server that [main] then starts are outside the model.) *)
Definition main (files : FileSystem) : State :=
  mkState (load_ui_config files) files.

End Config.

(* ===================================================================== *)
(** * The metrics view *)
(* ===================================================================== *)

Module Server.
Import Reader.

(** [CompositeMetricsReader]: a wrapper around the hardware reader, which
    stands here for the machine it reads at the time of the call. *)
Record CompositeMetricsReader := mkCompositeMetricsReader {
  hw : World
}.

(** [CompositeMetricsReader.read_metrics] *)
Definition Composite_read_metrics (self : CompositeMetricsReader)
    : Py.result Snapshot :=
  read_metrics (hw self).

(** The [JsonResponse] of the view: an error with its status, or the
    snapshot. *)
Inductive MetricsResponse :=
  | MetricsError (status : nat) (error : string)
  | MetricsData (data : Snapshot).

(** [metrics_json]: [ohm_reader] is the global set by [main], [None] before. *)
Definition metrics_json (ohm_reader : option CompositeMetricsReader)
    : Py.result MetricsResponse :=
  match ohm_reader with
  | None => Py.Ok (MetricsError 500 "LibreHardwareMonitor not initialized")
  | Some reader =>
      data ← Composite_read_metrics reader ;
      Py.Ok (MetricsData data)
  end.

End Server.

(* ===================================================================== *)
(** * Loading the monitoring library *)
(* ===================================================================== *)

Module Loader.

(** What [_load_monitor_lib] asks of its environment: whether [clr] can be
    imported, the variable [LHM_DLL_PATH], the current directory, the
    directory of the script ([None] when it cannot be determined), the
    functions of [os.path], and whether [clr.AddReference] loads a reference
    or raises.  (The directories handed to [os.add_dll_directory] change
    nothing in what the method returns; [add_reference] is the outcome once
    they are registered.) *)
Record Env := mkEnv {
  clr_importable : bool;
  LHM_DLL_PATH : option string;
  getcwd : string;
  script_dir : option string;
  path_join : string → string → string;
  isdir : string → bool;
  path_exists : string → bool;
  add_reference : string → bool
}.

Definition DLL_NAME : string := "LibreHardwareMonitorLib.dll".
Definition ASSEMBLY_NAME : string := "LibreHardwareMonitorLib".

(** [if path: candidate_paths.append(path)]: [None] and the empty string
    add nothing. *)
Definition append_if_set (path : option string) : list string :=
  match path with
  | Some (String c rest) => [String c rest]
  | _ => []
  end.

(** The candidates, in the order in which they are appended. *)
Definition candidate_paths (env : Env) (dll_path : option string) : list string :=
  append_if_set dll_path ++
  append_if_set (LHM_DLL_PATH env) ++
  [path_join env (getcwd env) DLL_NAME] ++
  match script_dir env with
  | Some d => [path_join env d DLL_NAME]
  | None => []
  end.

(** The file looked for at a candidate: the library inside it when the
    candidate is a directory. *)
Definition dll_full (env : Env) (path : string) : string :=
  if isdir env path then path_join env path DLL_NAME else path.

(** The candidate's file exists and [AddReference] loads it. *)
Definition loads (env : Env) (path : string) : bool :=
  path_exists env (dll_full env path) && add_reference env (dll_full env path).

(** The loop over the candidates: it stops at the first that loads; a
    candidate whose file does not exist, or on which [AddReference] raises,
    is passed over. *)
Fixpoint load_first (env : Env) (paths : list string) : option string :=
  match paths with
  | [] => None
  | path :: rest =>
      if loads env path then Some (dll_full env path) else load_first env rest
  end.

(** The method returns after a reference was added, or raises. *)
Inductive Outcome :=
  | Loaded (reference : string)
  | RaiseRuntimeError
  | RaiseFileNotFoundError.

Definition _load_monitor_lib (env : Env) (dll_path : option string) : Outcome :=
  if clr_importable env then
    match load_first env (candidate_paths env dll_path) with
    | Some reference => Loaded reference
    | None =>
        if add_reference env ASSEMBLY_NAME then Loaded ASSEMBLY_NAME
        else RaiseFileNotFoundError
    end
  else RaiseRuntimeError.

End Loader.

(* ===================================================================== *)
(** * The page: the tile grid and its reordering *)
(* ===================================================================== *)

(** The script of the page served by [index] keeps the tiles of the grid in
    the configured order.  The grid is the list of its child elements, in
    document order; an element is a node of the document, told from the
    others by its identity, and carries its [data-key]. *)
Module Page.

Record Item := mkItem {
  item_id : nat;
  data_key : string
}.

#[global] Instance Item_eq_dec : EqDecision Item.
Proof. solve_decision. Defined.

(** The [data-key] attributes of the tiles, in the order of the markup. *)
Definition grid_keys : list string :=
  [ "cpu_core_temp"; "cpu_hotspot_temp"; "cpu_usage"; "cpu_clock_max";
    "net_load"; "cpu_clock_avg"; "cpu_power";
    "ram_usage"; "ram_used"; "ram_free";
    "gpu_core_temp"; "gpu_hotspot_temp"; "gpu_clock"; "gpu_mem_clock";
    "gpu_usage"; "gpu_power" ].

(** The grid of the markup: one element for each tile. *)
Definition initial_grid : list Item :=
  imap (λ i key, mkItem i key) grid_keys.

(** [getCurrentOrder]: the keys of the tiles, in document order. *)
Definition getCurrentOrder (grid : list Item) : list string :=
  map data_key grid.

(** [new Map(Array.from(grid.children).map(el => [el.dataset.key, el]))]:
    the entries are set one after the other, so the last element of a key
    is the one kept. *)
Definition key_map (grid : list Item) : gmap string Item :=
  foldl (λ m el, <[ data_key el := el ]> m) ∅ grid.

(** [grid.appendChild(el)] for a child [el] of the grid: the element is
    moved to the end. *)
Definition appendChild (grid : list Item) (el : Item) : list Item :=
  filter (λ x, x ≠ el) grid ++ [el].

(** [applyOrder], for a grid that exists and an array of keys. *)
Definition applyOrder (grid : list Item) (order : list string) : list Item :=
  let map := key_map grid in
  foldl (λ g key,
    match map !! key with
    | Some el => appendChild g el
    | None => g
    end) grid order.

End Page.

(* ===================================================================== *)
(** * The vocabulary of the specification *)
(* ===================================================================== *)

(** The pools of the specification, stated on the sensor list rather than
    as the loops that fill them, and the meaning of "maximum", "average"
    and "first non-empty pool". *)
Module Spec.
Import LHM Reader.

(** The usable value of a sensor, if it has one. *)
Definition usable_value (value : option float) : option float :=
  match value with
  | Some v => if Py.isfinite v then Some v else None
  | None => None
  end.

Definition usable (e : Entry) : option float :=
  usable_value (s_Value (sensor_of e)).

(** The sensor has a usable value. *)
Definition is_usable (e : Entry) : bool :=
  _is_finite (s_Value (sensor_of e)).

Definition kind_is (k : SensorType) (e : Entry) : bool :=
  bool_decide (s_SensorType (sensor_of e) = k).

Definition parent_is (h : HardwareType) (e : Entry) : bool :=
  bool_decide (h_HardwareType (parent_of e) = h).

Definition is_gpu (e : Entry) : bool :=
  bool_decide (h_HardwareType (parent_of e) ∈
               [GpuNvidia; GpuAti; GpuAmd; GpuAmdRadeon; GpuIntel]).

(** The lower-case name matched by the selectors. *)
Definition name_of (e : Entry) : string := lower_name (sensor_of e).

(** The usable values of the sensors selected by [sel], in list order. *)
Definition pool (sel : Entry → bool) (sensors : list Entry) : list float :=
  omap (λ e, if sel e then usable e else None) sensors.

(** Every value of the list is usable. *)
Definition all_usable (l : list float) : Prop :=
  Forall (λ v, Py.isfinite v = true) l.

(** The optional value is absent or usable. *)
Definition usable_or_absent (o : option float) : Prop :=
  ∀ v, o = Some v → Py.isfinite v = true.

(** *** The four CPU temperature pools *)

Inductive CpuPool := CCD | Core | Package | MainboardCpu.

#[global] Instance CpuPool_eq_dec : EqDecision CpuPool.
Proof. solve_decision. Defined.

Definition cpu_pool_of (e : Entry) : option CpuPool :=
  if kind_is Temperature e then
    if parent_is Cpu e then
      if Py.contains "ccd" (name_of e) then Some CCD
      else if Py.contains "core" (name_of e) then Some Core
      else if Py.any_in ["package"; "tdie"; "tctl"; "cpu"] (name_of e)
      then Some Package
      else None
    else if parent_is Mainboard e then
      if Py.any_in ["cpu"; "cpu socket"; "package"; "tdie"; "tctl"] (name_of e)
      then Some MainboardCpu
      else None
    else None
  else None.

Definition cpu_pool (c : CpuPool) : list Entry → list float :=
  pool (λ e, bool_decide (cpu_pool_of e = Some c)).

(** *** The two GPU temperature pools *)

Definition is_gpu_temp (e : Entry) : bool :=
  is_gpu e && kind_is Temperature e.

Definition is_hotspot_name (e : Entry) : bool :=
  Py.any_in ["hot spot"; "hotspot"; "junction"] (name_of e).

Definition gpu_hotspot_pool : list Entry → list float :=
  pool (λ e, is_gpu_temp e && is_hotspot_name e).

Definition gpu_core_pool : list Entry → list float :=
  pool (λ e, is_gpu_temp e && negb (is_hotspot_name e)).

(** *** The other pools of the CPU and GPU selectors *)

Definition cpu_load_sel (e : Entry) : bool :=
  parent_is Cpu e && kind_is Load e.

Definition cpu_clock_sel (e : Entry) : bool :=
  parent_is Cpu e && kind_is Clock e &&
  (Py.startswith (name_of e) "cpu core" || Py.startswith (name_of e) "core" ||
   Py.contains "clock" (name_of e)).

Definition cpu_power_sel (e : Entry) : bool :=
  parent_is Cpu e && kind_is Power e &&
  Py.any_in ["package"; "cpu"; "ppt"; "socket"; "total"] (name_of e).

Definition gpu_load_sel (e : Entry) : bool :=
  is_gpu e && kind_is Load e &&
  (Py.contains "core" (name_of e) || Py.str_in_tuple (name_of e) ["gpu core"; "gpu"]).

Definition gpu_power_sel (e : Entry) : bool :=
  is_gpu e && kind_is Power e.

Definition gpu_mem_clock_sel (e : Entry) : bool :=
  is_gpu e && kind_is Clock e && Py.contains "memory" (name_of e).

Definition gpu_core_clock_sel (e : Entry) : bool :=
  is_gpu e && kind_is Clock e && negb (Py.contains "memory" (name_of e)) &&
  (Py.contains "gpu core" (name_of e) || Py.contains "core" (name_of e)).

(** The Load sensors of a memory device. *)
Definition ram_load_sel (e : Entry) : bool :=
  parent_is Memory e && kind_is Load e.

(** *** The sensors read by the RAM selector *)

(** The sensors of a memory device, those of the virtual memory apart. *)
Definition ram_sel (e : Entry) : bool :=
  parent_is Memory e && negb (Py.contains "virtual" (name_of e)).

Definition ram_used_sel (e : Entry) : bool :=
  ram_sel e && kind_is Data e && Py.contains "used" (name_of e).

Definition ram_free_sel (e : Entry) : bool :=
  ram_sel e && kind_is Data e &&
  (Py.contains "available" (name_of e) || Py.contains "free" (name_of e)).

Definition ram_usage_sel (e : Entry) : bool :=
  ram_sel e && kind_is Load e &&
  ((String.eqb (name_of e) "memory" || String.eqb (name_of e) "ram") ||
   (Py.contains "memory" (name_of e) || Py.contains "ram" (name_of e)) ||
   (Py.contains "load" (name_of e) || Py.contains "usage" (name_of e))).

(** The CPU Load sensors named "cpu total" or "total", surrounding white
    space and case apart. *)
Definition cpu_total_sel (e : Entry) : bool :=
  cpu_load_sel e &&
  Py.str_in_tuple (Py.lower (Py.strip (name_or_empty (sensor_of e))))
    ["cpu total"; "total"].

(** *** The sensors read by [_select_ram_usage] *)

(** The Data sensors of a memory device named after the used amount, and
    those named after the available amount. *)
Definition usage_used_sel (e : Entry) : bool :=
  parent_is Memory e && kind_is Data e && Py.contains "used" (name_of e).

Definition usage_available_sel (e : Entry) : bool :=
  parent_is Memory e && kind_is Data e && Py.contains "available" (name_of e).

(** *** Device kinds *)

(** The sensor is attributed to a device of one of the [kinds]. *)
Definition of_kinds (kinds : list HardwareType) (e : Entry) : bool :=
  bool_decide (h_HardwareType (parent_of e) ∈ kinds).

(** The number of sensors of a device tree that [_collect_sensors] reaches:
    those of the devices and of their direct sub-devices. *)
Definition reachable_sensors (computer : list Hardware) : nat :=
  sum_list (map (λ h,
    length (h_Sensors h) +
    sum_list (map (λ sub, length (h_Sensors sub)) (h_SubHardware h)))%nat computer).

(** *** What the selectors read of an entry *)

(** The reading of an entry: its sensor, and the kind of the top-level
    device that the sensor is attributed to. *)
Definition reading (e : Entry) : Sensor * HardwareType :=
  (sensor_of e, h_HardwareType (parent_of e)).

(** An entry that has this reading and nothing else: the sensor, on a device
    of that kind without sensors or sub-devices. *)
Definition entry_of (r : Sensor * HardwareType) : Entry :=
  let device := mkHardware r.2 [] [] in (device, r.1, device).

(** *** The network pool *)

(** The value lies in the closed range from 0 to 100. *)
Definition in_percent_range (v : float) : bool :=
  PrimFloat.leb 0 v && PrimFloat.leb v 100.

Definition net_pool (sensors : list Entry) : list float :=
  filter (λ v, in_percent_range v = true)
    (pool (λ e, parent_is Network e && kind_is Load e) sensors).

(** *** Aggregates *)

(** [m] is a maximum of [l]: one of its elements, and none is greater. *)
Definition is_max (m : float) (l : list float) : Prop :=
  m ∈ l ∧ ∀ x, x ∈ l → PrimFloat.leb x m = true.

(** [r] is the maximum of the pool, absent when the pool is empty. *)
Definition max_of (l : list float) (r : option float) : Prop :=
  match l with
  | [] => r = None
  | _ :: _ => ∃ m, r = Some m ∧ is_max m l
  end.

(** [r] is the average of the pool (the sum of its values, added in list
    order, divided by their number), absent when the pool is empty. *)
Definition average_of (l : list float) (r : option float) : Prop :=
  match l with
  | [] => r = None
  | _ :: _ =>
      r = Some (PrimFloat.div (Py.sum l) (Py.int_to_float (Z.of_nat (length l))))
  end.

(** [n] is the integer nearest to [num / den], the even one of the two when
    [num / den] lies halfway between them. *)
Definition nearest_even (num den n : Z) : Prop :=
  2 * Z.abs (n * den - num) ≤ den ∧
  (2 * Z.abs (n * den - num) = den → Z.even n = true).

(** The first non-empty pool of a list of pools, empty when all are. *)
Fixpoint first_nonempty (pools : list (list float)) : list float :=
  match pools with
  | [] => []
  | [] :: rest => first_nonempty rest
  | (_ :: _) as p :: _ => p
  end.

End Spec.

(** The vocabulary of the specification for the UI configuration. *)
Module ConfigSpec.
Import Config.

(** The canonical key of a key: the legacy alias is mapped, every other key
    is its own. *)
Definition canonical (key : string) : string :=
  if String.eqb key "cpu_temp" then "cpu_core_temp" else key.

(** The list without its repetitions: each element stays where it first
    occurs. *)
Fixpoint dedup (l : list string) : list string :=
  match l with
  | [] => []
  | x :: t => x :: filter (λ y, y ≠ x) (dedup t)
  end.

(** The recognized keys of an input, canonical, in the order of their first
    occurrence. *)
Definition recognized (order : list string) : list string :=
  dedup (filter (λ k, k ∈ SENSOR_KEYS_DEFAULT) (map canonical order)).

(** The keys that the first loop of [_normalize_order] adds when it starts
    with the set [seen]. *)
Definition fresh (seen : gset string) (order : list string) : list string :=
  dedup (filter (λ k, k ∈ SENSOR_KEYS_DEFAULT ∧ k ∉ seen) (map canonical order)).

(** The canonical keys that the input does not mention, in default order. *)
Definition missing (order : list string) : list string :=
  filter (λ k, k ∉ recognized order) SENSOR_KEYS_DEFAULT.

(** The interval written in the file, if any. *)
Definition persisted_interval (fs : FileSystem) : option string :=
  match config_file fs with
  | Ini cfg => (cfg !! "ui") ≫= (λ sec, sec !! "update_interval_sec")
  | NoFile | Malformed => None
  end.








(** The option of the [ui] section written in the file, if any. *)
Definition persisted_option (f : ConfigFile) (name : string) : option string :=
  (cfg_read_or_empty f !! "ui") ≫= (λ sec, sec !! name).

(** The states the server can be in: the one [main] starts in, and those
    that follow a request to [config_view] or a change of the file system
    made from outside (the file edited, removed, or its directory made
    read-only). *)
Inductive reachable (py_repr : json → string) : State → Prop :=
  | reachable_main files : reachable py_repr (main files)
  | reachable_request st request :
      reachable py_repr st → reachable py_repr (config_view py_repr st request).2
  | reachable_outside st files :
      reachable py_repr st → reachable py_repr (mkState (UI_CONFIG st) files).

(** The configuration is one that the page can use: every canonical key
    once, and an interval of at least 0.05 s. *)
Definition valid_config (c : UiConfig) : Prop :=
  order c ≡ₚ SENSOR_KEYS_DEFAULT ∧
  PrimFloat.leb 0.05 (update_interval_sec c) = true.

End ConfigSpec.

(* ===================================================================== *)
(** * Concrete inputs *)
(* ===================================================================== *)

(** The inputs of the examples of the specification, and the inputs at
    which the theorems below are instantiated. *)
Module Examples.
Import LHM Reader Config.

Definition sensor (name : string) (kind : SensorType) (v : float) : Sensor :=
  mkSensor (Some name) kind (Some v).

(** A processor that reports two CCD and two core temperatures. *)
Definition cpu_ccd_core : Hardware :=
  mkHardware Cpu
    [ sensor "CCD1 (Tdie)" Temperature 60; sensor "CCD2 (Tdie)" Temperature 64;
      sensor "Core #1" Temperature 70; sensor "Core #2" Temperature 85 ] [].

(** A processor with a power and a clock sensor. *)
Definition cpu_power_clock : Hardware :=
  mkHardware Cpu
    [ sensor "CPU Package" Power 42.349; sensor "CPU Core #1" Clock 3799.6 ] [].

(** A processor whose total load is named with a no-break space (U+00A0)
    after it and a separator (U+001C) before it. *)
Definition cpu_total_padded : Hardware :=
  mkHardware Cpu
    [ sensor "CPU Core #1" Load 20;
      sensor (String (ascii_of_N 28)
                ("CPU Total" +:+ String (ascii_of_N 194) (String (ascii_of_N 160) "")))
        Load 99;
      sensor "CPU Core #2" Load 66 ] [].

(** Two device trees with the same readings: the sensors on the
    processor itself, or on a sub-device of it, which has a sub-device of
    its own. *)
Definition sensors_on_device : Hardware :=
  mkHardware Cpu
    [ sensor "Core #1" Temperature 70; sensor "CPU Total" Load 12 ] [].

Definition sensors_on_sub_device : Hardware :=
  mkHardware Cpu []
    [ mkHardware Storage
        [ sensor "Core #1" Temperature 70; sensor "CPU Total" Load 12 ]
        [ mkHardware Memory [ sensor "Memory Used" Data 4 ] [] ] ].

(** A memory device with the two data sensors and no load sensor. *)
Definition memory_used_available : Hardware :=
  mkHardware Memory
    [ sensor "Memory Used" Data 8; sensor "Memory Available" Data 8 ] [].

(** Three network adapters, one of them out of range. *)
Definition network_adapters : list Hardware :=
  [ mkHardware Network [ sensor "Network Utilization" Load 45 ] [];
    mkHardware Network [ sensor "Network Utilization" Load 150 ] [];
    mkHardware Network [ sensor "Network Utilization" Load 30 ] [] ].

(** A graphics card with a core, a hot-spot and a junction temperature. *)
Definition gpu_temperatures : Hardware :=
  mkHardware GpuNvidia
    [ sensor "GPU Core" Temperature 55; sensor "GPU Hot Spot" Temperature 71;
      sensor "GPU Memory Junction" Temperature 80 ] [].

(** A machine none of whose sensors has a usable value. *)
Definition unusable_machine : list Hardware :=
  [ mkHardware Cpu
      [ sensor "Core #1" Temperature nan; sensor "CPU Total" Load infinity;
        mkSensor (Some "CPU Package") Power None ] [];
    mkHardware GpuAmd [ sensor "GPU Core" Temperature neg_infinity ] [] ].

(** A fresh installation: no configuration file, a writable directory. *)
Definition fresh : State := mkState UI_CONFIG_default (mkFileSystem NoFile true).



(** A POST request with a JSON object as its body. *)
Definition post (members : list (string * json)) : Request :=
  mkRequest "POST" (BodyJson (JObj members)).

(** A stand-in for [str] on JSON values that are not strings. *)
Definition repr_stub (x : json) : string := "<json>".

End Examples.

(* ===================================================================== *)
(** * Facts about binary64 floats *)
(* ===================================================================== *)

Section FloatFacts.

(** The comparison of the specification floats is a lexicographic order on
    sign, exponent and mantissa; the lemmas below read it case by case. *)
Local Ltac sf_cases :=
  repeat match goal with
  | |- context [Pos.compare_cont Eq ?a ?b] =>
      change (Pos.compare_cont Eq a b) with (Pos.compare a b)
  | H : context [Pos.compare_cont Eq ?a ?b] |- _ =>
      change (Pos.compare_cont Eq a b) with (Pos.compare a b) in H
  end;
  repeat match goal with
  | H : context [Z.compare ?a ?b] |- _ => destruct (Z.compare_spec a b); simpl in H
  | H : context [Pos.compare ?a ?b] |- _ => destruct (Pos.compare_spec a b); simpl in H
  | |- context [Z.compare ?a ?b] => destruct (Z.compare_spec a b); simpl
  | |- context [Pos.compare ?a ?b] => destruct (Pos.compare_spec a b); simpl
  end.

Lemma SFcompare_refl x : x ≠ S754_nan → SFcompare x x = Some Eq.
Proof.
  destruct x as [s|s| |s m e]; simpl; try congruence; intros _.
  - by destruct s.
  - destruct s; rewrite Z.compare_refl;
      change (Pos.compare_cont Eq m m) with (Pos.compare m m);
      by rewrite Pos.compare_refl.
Qed.

Lemma SFleb_trans x y z :
  SFleb x y = true → SFleb y z = true → SFleb x z = true.
Proof.
  unfold SFleb.
  destruct x as [sx|sx| |sx mx ex], y as [sy|sy| |sy my ey], z as [sz|sz| |sz mz ez];
    simpl; try discriminate; try reflexivity;
    try destruct sx; try destruct sy; try destruct sz;
    simpl; try discriminate; try reflexivity;
    intros H1 H2; sf_cases; try discriminate; try reflexivity; try lia.
Qed.

Lemma SFltb_false_leb x y :
  x ≠ S754_nan → y ≠ S754_nan → SFltb x y = false → SFleb y x = true.
Proof.
  unfold SFltb, SFleb.
  destruct x as [sx|sx| |sx mx ex], y as [sy|sy| |sy my ey];
    simpl; try congruence; intros _ _;
    try destruct sx; try destruct sy;
    simpl; try discriminate; try reflexivity;
    intros H1; sf_cases; try discriminate; try reflexivity; try lia.
Qed.

Lemma SFltb_leb x y : SFltb x y = true → SFleb x y = true.
Proof.
  unfold SFltb, SFleb. destruct (SFcompare x y) as [[]|]; congruence.
Qed.

Lemma SFltb_asym x y : SFltb x y = true → SFltb y x = false.
Proof.
  unfold SFltb.
  destruct x as [sx|sx| |sx mx ex], y as [sy|sy| |sy my ey];
    simpl; try discriminate; try reflexivity;
    try destruct sx; try destruct sy;
    simpl; try discriminate; try reflexivity;
    intros H1; sf_cases; try discriminate; try reflexivity; try lia.
Qed.

(** Two finite floats that compare equal, the first one not a zero, have the
    same representation. *)
Lemma SFcompare_Eq_finite s m e y :
  SFcompare (S754_finite s m e) y = Some Eq → y = S754_finite s m e.
Proof.
  destruct y as [sy|sy| |sy my ey]; simpl; try (destruct s; discriminate);
    try (destruct sy; discriminate); try discriminate.
  destruct s, sy; try discriminate; intros H; sf_cases; try discriminate;
    by subst.
Qed.

Lemma Prim2SF_infinity : Prim2SF infinity = S754_infinity false.
Proof. reflexivity. Qed.

Lemma Prim2SF_zero : Prim2SF 0%float = S754_zero false.
Proof. reflexivity. Qed.

Lemma is_nan_false_SF x : PrimFloat.is_nan x = false → Prim2SF x ≠ S754_nan.
Proof.
  unfold PrimFloat.is_nan. rewrite FloatAxioms.eqb_spec. intros H Hn.
  rewrite Hn in H. discriminate.
Qed.

Lemma is_nan_true_iff v : PrimFloat.is_nan v = true ↔ v = nan.
Proof.
  split.
  - unfold PrimFloat.is_nan. rewrite FloatAxioms.eqb_spec. unfold SFeqb. intros H.
    apply Prim2SF_inj.
    destruct (Prim2SF v) eqn:E; try reflexivity;
      (rewrite SFcompare_refl in H; [discriminate | discriminate]).
  - intros ->. reflexivity.
Qed.

Lemma is_infinity_true_iff v :
  PrimFloat.is_infinity v = true ↔ v = infinity ∨ v = neg_infinity.
Proof.
  split.
  - unfold PrimFloat.is_infinity.
    rewrite FloatAxioms.eqb_spec, abs_spec, Prim2SF_infinity.
    intros H.
    destruct (Prim2SF v) as [s|s| |s m e] eqn:E; simpl in H; try discriminate.
    destruct s; [right | left]; apply Prim2SF_inj; rewrite E; reflexivity.
  - intros [-> | ->]; reflexivity.
Qed.

Lemma isfinite_iff v :
  Py.isfinite v = true ↔ v ≠ nan ∧ v ≠ infinity ∧ v ≠ neg_infinity.
Proof.
  unfold Py.isfinite, PrimFloat.is_finite.
  rewrite negb_true_iff, orb_false_iff.
  rewrite <- !not_true_iff_false, is_nan_true_iff, is_infinity_true_iff.
  tauto.
Qed.

Lemma isfinite_not_nan v : Py.isfinite v = true → PrimFloat.is_nan v = false.
Proof.
  unfold Py.isfinite, PrimFloat.is_finite.
  rewrite negb_true_iff, orb_false_iff. tauto.
Qed.

Lemma leb_trans x y z :
  PrimFloat.leb x y = true → PrimFloat.leb y z = true → PrimFloat.leb x z = true.
Proof. rewrite !FloatAxioms.leb_spec. apply SFleb_trans. Qed.

Lemma ltb_false_leb x y :
  PrimFloat.is_nan x = false → PrimFloat.is_nan y = false →
  PrimFloat.ltb x y = false → PrimFloat.leb y x = true.
Proof.
  intros Hx Hy. rewrite FloatAxioms.ltb_spec, FloatAxioms.leb_spec.
  apply SFltb_false_leb; by apply is_nan_false_SF.
Qed.

Lemma ltb_leb x y : PrimFloat.ltb x y = true → PrimFloat.leb x y = true.
Proof. rewrite FloatAxioms.ltb_spec, FloatAxioms.leb_spec. apply SFltb_leb. Qed.

Lemma ltb_asym x y : PrimFloat.ltb x y = true → PrimFloat.ltb y x = false.
Proof. rewrite !FloatAxioms.ltb_spec. apply SFltb_asym. Qed.

Lemma leb_refl x : PrimFloat.is_nan x = false → PrimFloat.leb x x = true.
Proof.
  intros Hx. rewrite FloatAxioms.leb_spec. unfold SFleb.
  rewrite SFcompare_refl; [done | by apply is_nan_false_SF].
Qed.

(** ** [max] *)

Lemma max2_cases a b : Py.max2 a b = a ∨ Py.max2 a b = b.
Proof. unfold Py.max2. destruct (Py.gt b a); auto. Qed.

Lemma max2_upper a b :
  PrimFloat.is_nan a = false → PrimFloat.is_nan b = false →
  PrimFloat.leb a (Py.max2 a b) = true ∧ PrimFloat.leb b (Py.max2 a b) = true.
Proof.
  intros Ha Hb. unfold Py.max2, Py.gt.
  destruct (PrimFloat.ltb a b) eqn:E.
  - split; [by apply ltb_leb | by apply leb_refl].
  - split; [by apply leb_refl | by apply ltb_false_leb].
Qed.

(** On values none of which is NaN, the left-to-right scan of [max] ends on
    a maximum. *)
Lemma fold_max2_is_max t x :
  Forall (λ v, PrimFloat.is_nan v = false) (x :: t) →
  Spec.is_max (fold_left Py.max2 t x) (x :: t).
Proof.
  revert x. induction t as [|y t IH]; intros x Hall.
  - split; [left | ]. intros z Hz. apply list_elem_of_singleton in Hz as ->.
    apply leb_refl. by inversion Hall.
  - simpl. inversion Hall as [|? ? Hx Hyt]; subst.
    inversion Hyt as [|? ? Hy Ht]; subst.
    destruct (max2_upper x y Hx Hy) as [Hxm Hym].
    assert (Hm : PrimFloat.is_nan (Py.max2 x y) = false)
      by (destruct (max2_cases x y) as [-> | ->]; done).
    destruct (IH (Py.max2 x y) (Forall_cons_2 _ _ _ Hm Ht)) as [Hin Hub].
    split.
    + apply elem_of_cons in Hin as [-> | Hin].
      * destruct (max2_cases x y) as [-> | ->]; set_solver.
      * set_solver.
    + intros z Hz.
      assert (Hself : PrimFloat.leb (Py.max2 x y)
                        (fold_left Py.max2 t (Py.max2 x y)) = true)
        by (apply Hub; left).
      apply elem_of_cons in Hz as [-> | Hz]; [by eapply leb_trans |].
      apply elem_of_cons in Hz as [-> | Hz]; [by eapply leb_trans |].
      apply Hub. by right.
Qed.

(** [max(0.05, max(0.05, v))] is [max(0.05, v)]. *)
Lemma max2_floor_idem v : Py.max2 0.05 (Py.max2 0.05 v) = Py.max2 0.05 v.
Proof.
  unfold Py.max2. destruct (Py.gt v 0.05) eqn:E; [by rewrite ?E | reflexivity].
Qed.

Lemma max2_floor_below v :
  PrimFloat.ltb v 0.05 = true → Py.max2 0.05 v = 0.05%float.
Proof.
  intros H. unfold Py.max2, Py.gt. by rewrite (ltb_asym _ _ H).
Qed.

Lemma max2_floor_above v :
  PrimFloat.leb 0.05 v = true → Py.max2 0.05 v = v.
Proof.
  intros H. unfold Py.max2, Py.gt.
  destruct (PrimFloat.ltb 0.05 v) eqn:E; [done |].
  rewrite FloatAxioms.leb_spec in H. rewrite FloatAxioms.ltb_spec in E.
  unfold SFleb in H. unfold SFltb in E.
  destruct (SFcompare (Prim2SF 0.05) (Prim2SF v)) as [[]|] eqn:C; try discriminate.
  change (Prim2SF 0.05) with (S754_finite false 7205759403792794 (-57)) in C.
  apply SFcompare_Eq_finite in C.
  apply Prim2SF_inj. by rewrite C.
Qed.

End FloatFacts.

(* ===================================================================== *)
(** * The loops of the selectors fill the pools of the specification *)
(* ===================================================================== *)

Section Loops.
Import LHM Reader Spec.

(** The name tests stay folded: the proofs case on their results. *)
#[local] Arguments Py.any_in : simpl never.
#[local] Arguments Py.contains : simpl never.
#[local] Arguments Py.startswith : simpl never.
#[local] Arguments Py.str_in_tuple : simpl never.
#[local] Arguments Py.lower : simpl never.

(** ** The tests on device and measurement kinds *)

Lemma HT_CPU_eq : HT_CPU = Some Cpu. Proof. reflexivity. Qed.
Lemma HT_MAINBOARD_eq : HT_MAINBOARD = Some Mainboard. Proof. reflexivity. Qed.
Lemma HT_NETWORK_eq : HT_NETWORK = Some Network. Proof. reflexivity. Qed.
Lemma ST_TEMP_eq : ST_TEMP = Some Temperature. Proof. reflexivity. Qed.
Lemma ST_LOAD_eq : ST_LOAD = Some Load. Proof. reflexivity. Qed.
Lemma ST_CLOCK_eq : ST_CLOCK = Some Clock. Proof. reflexivity. Qed.
Lemma ST_POWER_eq : ST_POWER = Some Power. Proof. reflexivity. Qed.

Lemma hw_is_Some p h : hw_is p (Some h) = bool_decide (h_HardwareType p = h).
Proof. unfold hw_is. apply bool_decide_ext. naive_solver. Qed.

Lemma st_is_Some s t : st_is s (Some t) = bool_decide (s_SensorType s = t).
Proof. unfold st_is. apply bool_decide_ext. naive_solver. Qed.

Lemma is_ram_hw_spec p : is_ram_hw p = bool_decide (h_HardwareType p = Memory).
Proof. unfold is_ram_hw, hw_in. by destruct (h_HardwareType p). Qed.

Lemma hw_in_gpu_types p :
  hw_in p gpu_types =
  bool_decide (h_HardwareType p ∈ [GpuNvidia; GpuAti; GpuAmd; GpuAmdRadeon; GpuIntel]).
Proof. unfold hw_in. by destruct (h_HardwareType p). Qed.

(** ** Appending and assigning usable values *)

Lemma is_finite_usable v : _is_finite v = bool_decide (is_Some (usable_value v)).
Proof.
  destruct v as [x|]; simpl; [by destruct (Py.isfinite x) | done].
Qed.

Lemma append_finite_spec l v : append_finite l v = l ++ option_list (usable_value v).
Proof.
  destruct v as [x|]; simpl; [destruct (Py.isfinite x) |]; simpl;
    by rewrite ?app_nil_r.
Qed.

Lemma assign_finite_spec var v :
  assign_finite var v = from_option Some var (usable_value v).
Proof. destruct v as [x|]; simpl; [by destruct (Py.isfinite x) | done]. Qed.

Lemma usable_value_None v : _is_finite v = false → usable_value v = None.
Proof. destruct v as [x|]; simpl; [by intros -> | done]. Qed.

Lemma pool_cons sel e sensors :
  pool sel (e :: sensors) =
  option_list (if sel e then usable e else None) ++ pool sel sensors.
Proof. unfold pool. simpl. by destruct (if sel e then usable e else None). Qed.

(** A loop that appends the usable value of the selected sensors computes
    the pool of the selection. *)
Lemma fold_left_pool (step : list float → Entry → list float) (sel : Entry → bool) :
  (∀ acc e, step acc e = acc ++ option_list (if sel e then usable e else None)) →
  ∀ sensors acc, fold_left step sensors acc = acc ++ pool sel sensors.
Proof.
  intros Hstep. induction sensors as [|e sensors IH]; intros acc.
  - simpl. by rewrite app_nil_r.
  - rewrite pool_cons. cbn [fold_left]. by rewrite IH, Hstep, app_assoc.
Qed.

(** Every value of a pool is usable. *)
Lemma pool_finite sel sensors : Forall (λ v, Py.isfinite v = true) (pool sel sensors).
Proof.
  unfold pool. induction sensors as [|e sensors IH]; simpl; [constructor |].
  destruct (sel e); [| done].
  unfold usable, usable_value.
  destruct (s_Value (sensor_of e)) as [x|]; [| done].
  destruct (Py.isfinite x) eqn:E; [| done]. by constructor.
Qed.

(** ** [_select_cpu_temps] *)

Lemma cpu_temps_step_spec p e :
  cpu_temps_step p e =
  mkCpuTempPools
    (core_sensor_temps p ++
       option_list (if bool_decide (cpu_pool_of e = Some Core) then usable e else None))
    (ccd_sensor_temps p ++
       option_list (if bool_decide (cpu_pool_of e = Some CCD) then usable e else None))
    (package_temps p ++
       option_list (if bool_decide (cpu_pool_of e = Some Package) then usable e else None))
    (mb_cpu_temps p ++
       option_list (if bool_decide (cpu_pool_of e = Some MainboardCpu) then usable e else None)).
Proof.
  unfold cpu_temps_step, cpu_pool_of, kind_is, parent_is, name_of, usable.
  rewrite ST_TEMP_eq, HT_CPU_eq, HT_MAINBOARD_eq, !hw_is_Some, st_is_Some.
  rewrite !append_finite_spec.
  destruct p as [core ccd pkg mb]; simpl.
  repeat case_bool_decide; simpl; try congruence;
    repeat (case_match; simpl; try congruence); simplify_eq;
    rewrite ?app_nil_r; try reflexivity.
Qed.

(** A loop on a record of pools, seen through one of its fields. *)
Lemma fold_left_field {S} (step : S → Entry → S) (field : S → list float)
    (sel : Entry → bool) :
  (∀ s e, field (step s e) =
          field s ++ option_list (if sel e then usable e else None)) →
  ∀ sensors s, field (fold_left step sensors s) = field s ++ pool sel sensors.
Proof.
  intros Hstep. induction sensors as [|e sensors IH]; intros s.
  - simpl. by rewrite app_nil_r.
  - rewrite pool_cons. cbn [fold_left]. by rewrite IH, Hstep, app_assoc.
Qed.

Lemma cpu_temp_pools_spec sensors :
  cpu_temp_pools sensors =
  mkCpuTempPools (cpu_pool Core sensors) (cpu_pool CCD sensors)
    (cpu_pool Package sensors) (cpu_pool MainboardCpu sensors).
Proof.
  unfold cpu_temp_pools, cpu_pool.
  set (p0 := mkCpuTempPools [] [] [] []).
  pose proof (fold_left_field cpu_temps_step core_sensor_temps _
    (λ s e, f_equal core_sensor_temps (cpu_temps_step_spec s e)) sensors p0) as H1.
  pose proof (fold_left_field cpu_temps_step ccd_sensor_temps _
    (λ s e, f_equal ccd_sensor_temps (cpu_temps_step_spec s e)) sensors p0) as H2.
  pose proof (fold_left_field cpu_temps_step package_temps _
    (λ s e, f_equal package_temps (cpu_temps_step_spec s e)) sensors p0) as H3.
  pose proof (fold_left_field cpu_temps_step mb_cpu_temps _
    (λ s e, f_equal mb_cpu_temps (cpu_temps_step_spec s e)) sensors p0) as H4.
  destruct (fold_left cpu_temps_step sensors p0); simpl in *. by subst.
Qed.

(** ** The guarded aggregates *)

Lemma nonempty_true {A} (l : list A) : nonempty l = true ↔ l ≠ [].
Proof. by destruct l. Qed.

Lemma some_max_spec l :
  l ≠ [] → Forall (λ v, Py.isfinite v = true) l →
  ∃ m, some_max l = Py.Ok (Some m) ∧ is_max m l.
Proof.
  destruct l as [|x t]; [done | intros _ Hfin].
  eexists. split; [reflexivity |].
  apply fold_max2_is_max. eapply Forall_impl; [exact Hfin |].
  intros v. apply isfinite_not_nan.
Qed.

Lemma some_mean_spec l :
  l ≠ [] →
  some_mean l =
  Py.Ok (Some (PrimFloat.div (Py.sum l) (Py.int_to_float (Z.of_nat (length l))))).
Proof.
  destruct l as [|x t]; [done | intros _].
  unfold some_mean, Py.mean, Py.div_int.
  replace (Z.of_nat (length (x :: t)) =? 0) with false; [done |].
  symmetry. apply Z.eqb_neq. simpl. lia.
Qed.

Lemma max_or_none_spec l :
  Forall (λ v, Py.isfinite v = true) l →
  ∃ r, max_or_none l = Py.Ok r ∧ max_of l r.
Proof.
  intros Hfin. unfold max_or_none, max_of.
  destruct l as [|x t]; [by eexists |].
  destruct (some_max_spec (x :: t)) as (m & Hm & Hmax); [done | done |].
  exists (Some m). simpl. split; [exact Hm | by exists m].
Qed.

(** ** The other loops *)

Lemma cpu_loads_spec sensors : cpu_loads sensors = pool cpu_load_sel sensors.
Proof.
  unfold cpu_loads. rewrite (fold_left_pool _ cpu_load_sel); [done |].
  intros acc e. unfold is_cpu_load, cpu_load_sel, parent_is, kind_is, usable.
  rewrite HT_CPU_eq, ST_LOAD_eq, hw_is_Some. cbn [st_is_or_unknown].
  rewrite st_is_Some, append_finite_spec.
  by destruct (_ && _); rewrite ?app_nil_r.
Qed.

Lemma cpu_clocks_spec sensors : cpu_clocks sensors = pool cpu_clock_sel sensors.
Proof.
  unfold cpu_clocks. rewrite (fold_left_pool _ cpu_clock_sel); [done |].
  intros acc e. unfold cpu_clock_sel, parent_is, kind_is, usable, name_of.
  rewrite HT_CPU_eq, ST_CLOCK_eq, hw_is_Some. cbn [st_is_or_unknown].
  rewrite st_is_Some, append_finite_spec.
  destruct (bool_decide _ && bool_decide _); simpl; [| by rewrite app_nil_r].
  by destruct (_ || _); rewrite ?app_nil_r.
Qed.

Lemma cpu_powers_spec sensors : cpu_powers sensors = pool cpu_power_sel sensors.
Proof.
  unfold cpu_powers. rewrite (fold_left_pool _ cpu_power_sel); [done |].
  intros acc e. unfold cpu_power_sel, parent_is, kind_is, usable, name_of.
  rewrite HT_CPU_eq, ST_POWER_eq, hw_is_Some. cbn [st_is_or_named].
  rewrite st_is_Some, append_finite_spec.
  destruct (bool_decide _ && bool_decide _); simpl; [| by rewrite app_nil_r].
  by destruct (Py.any_in _ _); rewrite ?app_nil_r.
Qed.

Lemma net_load_values_spec sensors : net_load_values sensors = net_pool sensors.
Proof.
  unfold net_load_values, net_pool.
  set (step := λ (vals : list float) (e : Entry), _).
  enough (H : ∀ acc, fold_left step sensors acc =
                     acc ++ filter (λ v, in_percent_range v = true)
                              (pool (λ e, parent_is Network e && kind_is Load e) sensors))
    by apply (H []).
  induction sensors as [|e sensors IH]; intros acc.
  - simpl. by rewrite app_nil_r.
  - rewrite pool_cons, filter_app. cbn [fold_left]. rewrite IH, app_assoc. f_equal.
    subst step. cbn beta. unfold parent_is, kind_is, usable, usable_value, in_percent_range.
    rewrite HT_NETWORK_eq, ST_LOAD_eq, hw_is_Some. cbn [st_is_or_unknown].
    rewrite st_is_Some.
    destruct (bool_decide _ && bool_decide _); simpl; [| by rewrite app_nil_r].
    destruct (s_Value (sensor_of e)) as [v|]; simpl; [| by rewrite app_nil_r].
    destruct (Py.isfinite v); simpl; [| by rewrite app_nil_r].
    rewrite filter_cons, filter_nil.
    destruct (PrimFloat.leb 0 v && PrimFloat.leb v 100) eqn:E.
    + by rewrite decide_True.
    + rewrite decide_False by congruence. by rewrite app_nil_r.
Qed.

Lemma select_cpu_temps_spec sensors :
  ∃ core_avg hotspot,
    _select_cpu_temps sensors = Py.Ok (core_avg, hotspot) ∧
    max_of (first_nonempty [cpu_pool Core sensors; cpu_pool Package sensors;
                            cpu_pool MainboardCpu sensors]) hotspot ∧
    average_of (first_nonempty [cpu_pool CCD sensors; cpu_pool Core sensors;
                                cpu_pool Package sensors;
                                cpu_pool MainboardCpu sensors]) core_avg.
Proof.
  unfold _select_cpu_temps. rewrite cpu_temp_pools_spec. cbn [core_sensor_temps
    ccd_sensor_temps package_temps mb_cpu_temps].
  pose proof (pool_finite (λ e, bool_decide (cpu_pool_of e = Some Core)) sensors) as Fcore.
  pose proof (pool_finite (λ e, bool_decide (cpu_pool_of e = Some Package)) sensors) as Fpkg.
  pose proof (pool_finite (λ e, bool_decide (cpu_pool_of e = Some MainboardCpu)) sensors) as Fmb.
  fold (cpu_pool Core sensors) in Fcore. fold (cpu_pool Package sensors) in Fpkg.
  fold (cpu_pool MainboardCpu sensors) in Fmb.
  set (hot := first_nonempty [cpu_pool Core sensors; cpu_pool Package sensors;
                              cpu_pool MainboardCpu sensors]).
  set (avg := first_nonempty [cpu_pool CCD sensors; cpu_pool Core sensors;
                              cpu_pool Package sensors; cpu_pool MainboardCpu sensors]).
  assert (Hhot : ∃ hotspot,
    (if nonempty (cpu_pool Core sensors) then some_max (cpu_pool Core sensors)
     else if nonempty (cpu_pool Package sensors) then some_max (cpu_pool Package sensors)
     else if nonempty (cpu_pool MainboardCpu sensors)
          then some_max (cpu_pool MainboardCpu sensors)
     else Py.Ok None) = Py.Ok hotspot ∧ max_of hot hotspot).
  { subst hot. unfold max_of.
    destruct (cpu_pool Core sensors) as [|a l1] eqn:E1; simpl.
    2:{ destruct (some_max_spec (a :: l1)) as (m & -> & Hm); [done | done |].
        exists (Some m). split; [done | by exists m]. }
    destruct (cpu_pool Package sensors) as [|b l2] eqn:E2; simpl.
    2:{ destruct (some_max_spec (b :: l2)) as (m & -> & Hm); [done | done |].
        exists (Some m). split; [done | by exists m]. }
    destruct (cpu_pool MainboardCpu sensors) as [|c l3] eqn:E3; simpl.
    2:{ destruct (some_max_spec (c :: l3)) as (m & -> & Hm); [done | done |].
        exists (Some m). split; [done | by exists m]. }
    by exists None. }
  destruct Hhot as (hotspot & -> & Hmax).
  assert (Havg :
    (if nonempty (cpu_pool CCD sensors) then cpu_pool CCD sensors
     else if nonempty (cpu_pool Core sensors) then cpu_pool Core sensors
     else if nonempty (cpu_pool Package sensors) then cpu_pool Package sensors
     else if nonempty (cpu_pool MainboardCpu sensors)
          then cpu_pool MainboardCpu sensors
     else []) = avg).
  { subst avg. simpl.
    destruct (cpu_pool CCD sensors); [| done].
    destruct (cpu_pool Core sensors); [| done].
    destruct (cpu_pool Package sensors); [| done].
    by destruct (cpu_pool MainboardCpu sensors). }
  rewrite Havg. clearbody avg hot.
  destruct (decide (avg = [])) as [-> | Hne].
  - exists None, hotspot. by simpl.
  - rewrite (proj2 (nonempty_true avg) Hne), (some_mean_spec avg Hne).
    eexists _, hotspot. split; [reflexivity |]. split; [done |].
    by destruct avg.
Qed.

(** ** [_select_gpu_metrics] *)

(** What one sensor adds to a pool: its usable value when [sel] holds. *)
Local Abbreviation adds sel sensor :=
  (option_list (if sel then usable_value (s_Value sensor) else None)).

Local Ltac name_cases :=
  repeat match goal with
  | |- context [Py.contains ?a ?b] => destruct (Py.contains a b)
  | |- context [Py.any_in ?a ?b] => destruct (Py.any_in a b)
  | |- context [Py.str_in_tuple ?a ?b] => destruct (Py.str_in_tuple a b)
  end; simpl; rewrite ?app_nil_r; try reflexivity.

Local Ltac block_spec :=
  intros p sensor; destruct p as [t h l pw cc mc];
  rewrite ?ST_TEMP_eq, ?ST_LOAD_eq, ?ST_POWER_eq, ?ST_CLOCK_eq;
  cbn [st_is_or_unknown st_is_or_named];
  rewrite !st_is_Some, ?is_finite_usable, ?append_finite_spec;
  destruct (bool_decide (s_SensorType sensor = _)); simpl; rewrite ?app_nil_r;
  try reflexivity;
  destruct (usable_value (s_Value sensor)); simpl; name_cases.

Lemma gpu_temp_block_spec :
  ∀ p sensor, gpu_temp_block p sensor =
    let k := bool_decide (s_SensorType sensor = Temperature) in
    let hot := Py.any_in ["hot spot"; "hotspot"; "junction"] (lower_name sensor) in
    mkGpuPools (temps p ++ adds (k && negb hot) sensor)
      (hotspot_temps p ++ adds (k && hot) sensor)
      (loads p) (powers p) (core_clocks p) (mem_clocks p).
Proof. unfold gpu_temp_block. block_spec. Qed.

Lemma gpu_load_block_spec :
  ∀ p sensor, gpu_load_block p sensor =
    mkGpuPools (temps p) (hotspot_temps p)
      (loads p ++ adds (bool_decide (s_SensorType sensor = Load) &&
                        (Py.contains "core" (lower_name sensor) ||
                         Py.str_in_tuple (lower_name sensor) ["gpu core"; "gpu"]))
                   sensor)
      (powers p) (core_clocks p) (mem_clocks p).
Proof. unfold gpu_load_block. block_spec. Qed.

Lemma gpu_power_block_spec :
  ∀ p sensor, gpu_power_block p sensor =
    mkGpuPools (temps p) (hotspot_temps p) (loads p)
      (powers p ++ adds (bool_decide (s_SensorType sensor = Power)) sensor)
      (core_clocks p) (mem_clocks p).
Proof. unfold gpu_power_block. block_spec. Qed.

Lemma gpu_clock_block_spec :
  ∀ p sensor, gpu_clock_block p sensor =
    let k := bool_decide (s_SensorType sensor = Clock) in
    let mem := Py.contains "memory" (lower_name sensor) in
    mkGpuPools (temps p) (hotspot_temps p) (loads p) (powers p)
      (core_clocks p ++
         adds (k && negb mem && (Py.contains "gpu core" (lower_name sensor) ||
                                 Py.contains "core" (lower_name sensor))) sensor)
      (mem_clocks p ++ adds (k && mem) sensor).
Proof. unfold gpu_clock_block. block_spec. Qed.

Lemma gpu_step_spec p e :
  gpu_step p e =
  mkGpuPools
    (temps p ++
       option_list (if is_gpu_temp e && negb (is_hotspot_name e) then usable e else None))
    (hotspot_temps p ++
       option_list (if is_gpu_temp e && is_hotspot_name e then usable e else None))
    (loads p ++ option_list (if gpu_load_sel e then usable e else None))
    (powers p ++ option_list (if gpu_power_sel e then usable e else None))
    (core_clocks p ++ option_list (if gpu_core_clock_sel e then usable e else None))
    (mem_clocks p ++ option_list (if gpu_mem_clock_sel e then usable e else None)).
Proof.
  unfold gpu_step, is_gpu_temp, is_hotspot_name, gpu_load_sel, gpu_power_sel,
    gpu_mem_clock_sel, gpu_core_clock_sel, is_gpu, kind_is, usable, name_of.
  rewrite hw_in_gpu_types.
  destruct (bool_decide (h_HardwareType (parent_of e) ∈ _)).
  - rewrite gpu_clock_block_spec, gpu_power_block_spec, gpu_load_block_spec,
      gpu_temp_block_spec. reflexivity.
  - destruct p. simpl. by rewrite !app_nil_r.
Qed.

Lemma gpu_pools_spec sensors :
  gpu_pools sensors =
  mkGpuPools (gpu_core_pool sensors) (gpu_hotspot_pool sensors)
    (pool gpu_load_sel sensors) (pool gpu_power_sel sensors)
    (pool gpu_core_clock_sel sensors) (pool gpu_mem_clock_sel sensors).
Proof.
  unfold gpu_pools, gpu_core_pool, gpu_hotspot_pool.
  set (p0 := mkGpuPools [] [] [] [] [] []).
  pose proof (fold_left_field gpu_step temps _
    (λ s e, f_equal temps (gpu_step_spec s e)) sensors p0) as H1.
  pose proof (fold_left_field gpu_step hotspot_temps _
    (λ s e, f_equal hotspot_temps (gpu_step_spec s e)) sensors p0) as H2.
  pose proof (fold_left_field gpu_step loads _
    (λ s e, f_equal loads (gpu_step_spec s e)) sensors p0) as H3.
  pose proof (fold_left_field gpu_step powers _
    (λ s e, f_equal powers (gpu_step_spec s e)) sensors p0) as H4.
  pose proof (fold_left_field gpu_step core_clocks _
    (λ s e, f_equal core_clocks (gpu_step_spec s e)) sensors p0) as H5.
  pose proof (fold_left_field gpu_step mem_clocks _
    (λ s e, f_equal mem_clocks (gpu_step_spec s e)) sensors p0) as H6.
  destruct (fold_left gpu_step sensors p0); simpl in *. by subst.
Qed.

(** ** Every selector returns *)

Lemma select_cpu_total_load_ok sensors :
  ∃ r, _select_cpu_total_load sensors = Py.Ok r.
Proof.
  unfold _select_cpu_total_load.
  destruct (cpu_total_named sensors); [by eexists |].
  destruct (decide (cpu_loads sensors = [])) as [-> | Hne]; [by eexists |].
  rewrite (proj2 (nonempty_true _) Hne), (some_mean_spec _ Hne). by eexists.
Qed.

Lemma select_cpu_core_clocks_spec sensors :
  ∃ max_clock avg_clock,
    _select_cpu_core_clocks sensors = Py.Ok (max_clock, avg_clock) ∧
    max_of (pool cpu_clock_sel sensors) max_clock ∧
    average_of (pool cpu_clock_sel sensors) avg_clock.
Proof.
  unfold _select_cpu_core_clocks. rewrite cpu_clocks_spec.
  pose proof (pool_finite cpu_clock_sel sensors) as Hfin.
  destruct (decide (pool cpu_clock_sel sensors = [])) as [-> | Hne].
  - by exists None, None.
  - rewrite (proj2 (nonempty_true _) Hne), (some_mean_spec _ Hne).
    destruct (some_max_spec _ Hne Hfin) as (m & -> & Hm).
    eexists _, _. split; [reflexivity |].
    destruct (pool cpu_clock_sel sensors); [done |]. split; [by exists m | done].
Qed.

Lemma select_gpu_metrics_spec sensors :
  ∃ g, _select_gpu_metrics sensors = Py.Ok g ∧
       max_of (gpu_core_pool sensors) (r_core_temp g) ∧
       max_of (gpu_hotspot_pool sensors) (r_hotspot g) ∧
       max_of (pool gpu_load_sel sensors) (r_load g) ∧
       max_of (pool gpu_power_sel sensors) (r_power g) ∧
       max_of (pool gpu_core_clock_sel sensors) (r_core_clock g) ∧
       max_of (pool gpu_mem_clock_sel sensors) (r_mem_clock g).
Proof.
  unfold _select_gpu_metrics. rewrite gpu_pools_spec. simpl.
  destruct (max_or_none_spec (gpu_core_pool sensors)) as (r1 & -> & H1);
    [apply pool_finite |].
  destruct (max_or_none_spec (gpu_hotspot_pool sensors)) as (r2 & -> & H2);
    [apply pool_finite |].
  destruct (max_or_none_spec (pool gpu_load_sel sensors)) as (r3 & -> & H3);
    [apply pool_finite |].
  destruct (max_or_none_spec (pool gpu_power_sel sensors)) as (r4 & -> & H4);
    [apply pool_finite |].
  destruct (max_or_none_spec (pool gpu_core_clock_sel sensors)) as (r5 & -> & H5);
    [apply pool_finite |].
  destruct (max_or_none_spec (pool gpu_mem_clock_sel sensors)) as (r6 & -> & H6);
    [apply pool_finite |].
  eexists. split; [reflexivity |]. simpl. done.
Qed.

Lemma net_pool_finite sensors :
  Forall (λ v, Py.isfinite v = true) (net_pool sensors).
Proof.
  unfold net_pool. apply Forall_forall. intros v Hv.
  apply list_elem_of_filter in Hv as [_ Hv].
  pose proof (pool_finite (λ e, parent_is Network e && kind_is Load e) sensors) as H.
  by eapply Forall_forall in H.
Qed.

Lemma net_load_spec sensors :
  ∃ r, net_load sensors = Py.Ok r ∧ max_of (net_pool sensors) r.
Proof.
  unfold net_load. rewrite net_load_values_spec.
  apply max_or_none_spec, net_pool_finite.
Qed.

Lemma cpu_power_spec sensors :
  ∃ r, cpu_power sensors = Py.Ok r ∧ max_of (pool cpu_power_sel sensors) r.
Proof.
  unfold cpu_power. rewrite cpu_powers_spec.
  apply max_or_none_spec, pool_finite.
Qed.

(** [read_metrics] returns a snapshot, whose fields are the results of the
    selectors, rounded. *)
Lemma metrics_of_spec sensors :
  ∃ core_avg hotspot cpu_load max_clock avg_clock g nl cp,
    _select_cpu_temps sensors = Py.Ok (core_avg, hotspot) ∧
    _select_cpu_total_load sensors = Py.Ok cpu_load ∧
    _select_cpu_core_clocks sensors = Py.Ok (max_clock, avg_clock) ∧
    _select_gpu_metrics sensors = Py.Ok g ∧
    net_load sensors = Py.Ok nl ∧
    cpu_power sensors = Py.Ok cp ∧
    ∀ now, metrics_of sensors now =
      Py.Ok (mkSnapshot
        (mkCpuMetrics (_round_or_none core_avg 1) (_round_or_none hotspot 1)
           (_round_or_none cpu_load 1) (_round_or_none max_clock 0)
           (_round_or_none avg_clock 0) (_round_or_none cp 1))
        (mkRamMetrics
           (_round_or_none (load_percent (_select_ram_used_free_gb sensors)) 1)
           (_round_or_none (used_gb (_select_ram_used_free_gb sensors)) 1)
           (_round_or_none (free_gb (_select_ram_used_free_gb sensors)) 1))
        (mkGpuMetrics (_round_or_none (r_core_temp g) 1)
           (_round_or_none (r_hotspot g) 1) (_round_or_none (r_load g) 1)
           (_round_or_none (r_core_clock g) 0) (_round_or_none (r_mem_clock g) 0)
           (_round_or_none (r_power g) 1))
        (mkNetMetrics (_round_or_none nl 1))
        now).
Proof.
  destruct (select_cpu_temps_spec sensors) as (ca & hs & E1 & _).
  destruct (select_cpu_total_load_ok sensors) as (cl & E2).
  destruct (select_cpu_core_clocks_spec sensors) as (mc & ac & E3 & _).
  destruct (select_gpu_metrics_spec sensors) as (g & E4 & _).
  destruct (net_load_spec sensors) as (nl & E5 & _).
  destruct (cpu_power_spec sensors) as (cp & E6 & _).
  exists ca, hs, cl, mc, ac, g, nl, cp. repeat (split; [done |]).
  intros now. unfold metrics_of. by rewrite E1, E2, E3, E4, E5, E6.
Qed.

(** ** Sensors without a usable value do not count *)

Lemma usable_None e : is_usable e = false → usable e = None.
Proof. apply usable_value_None. Qed.

Lemma pool_filter_usable sel sensors :
  pool sel (filter (λ e, is_usable e = true) sensors) = pool sel sensors.
Proof.
  induction sensors as [|e sensors IH]; [done |].
  rewrite filter_cons, (pool_cons sel e sensors).
  destruct (decide (is_usable e = true)) as [Hu | Hu].
  - by rewrite pool_cons, IH.
  - apply not_true_is_false in Hu. rewrite (usable_None _ Hu), IH.
    by destruct (sel e).
Qed.

(** A loop whose iterations on unusable sensors change nothing. *)
Lemma fold_left_filter_usable {S} (step : S → Entry → S) :
  (∀ s e, is_usable e = false → step s e = s) →
  ∀ sensors s,
    fold_left step (filter (λ e, is_usable e = true) sensors) s =
    fold_left step sensors s.
Proof.
  intros Hstep. induction sensors as [|e sensors IH]; intros s; [done |].
  rewrite filter_cons.
  destruct (decide (is_usable e = true)) as [Hu | Hu]; simpl.
  - apply IH.
  - apply not_true_is_false in Hu. by rewrite (Hstep _ _ Hu), IH.
Qed.

Lemma cpu_total_named_filter sensors :
  cpu_total_named (filter (λ e, is_usable e = true) sensors) =
  cpu_total_named sensors.
Proof.
  induction sensors as [|e sensors IH]; [done |].
  rewrite filter_cons.
  destruct (decide (is_usable e = true)) as [Hu | Hu]; simpl.
  - by rewrite IH.
  - apply not_true_is_false in Hu. unfold is_usable in Hu.
    by rewrite Hu, andb_false_r, IH.
Qed.

Lemma ram_step_unusable r e : is_usable e = false → ram_step r e = r.
Proof.
  intros Hu. unfold ram_step. unfold is_usable in Hu.
  rewrite !assign_finite_spec, (usable_value_None _ Hu). simpl.
  destruct r. simpl. repeat (case_match; try reflexivity).
Qed.

Lemma select_ram_filter sensors :
  _select_ram_used_free_gb (filter (λ e, is_usable e = true) sensors) =
  _select_ram_used_free_gb sensors.
Proof.
  unfold _select_ram_used_free_gb.
  apply fold_left_filter_usable, ram_step_unusable.
Qed.

Lemma metrics_of_filter_usable sensors now :
  metrics_of (filter (λ e, is_usable e = true) sensors) now = metrics_of sensors now.
Proof.
  unfold metrics_of, _select_cpu_temps, _select_cpu_total_load,
    _select_cpu_core_clocks, _select_gpu_metrics, net_load, cpu_power.
  rewrite !cpu_temp_pools_spec, !cpu_loads_spec, !cpu_clocks_spec, !gpu_pools_spec,
    !net_load_values_spec, !cpu_powers_spec, cpu_total_named_filter,
    select_ram_filter.
  unfold cpu_pool, gpu_core_pool, gpu_hotspot_pool, net_pool.
  by rewrite !pool_filter_usable.
Qed.

(** Without any usable value every metric is absent. *)
Lemma metrics_of_nil now :
  metrics_of [] now =
  Py.Ok (mkSnapshot (mkCpuMetrics None None None None None None)
           (mkRamMetrics None None None)
           (mkGpuMetrics None None None None None None)
           (mkNetMetrics None) now).
Proof. reflexivity. Qed.

Lemma filter_usable_nil sensors :
  Forall (λ e, is_usable e = false) sensors →
  filter (λ e, is_usable e = true) sensors = [].
Proof.
  induction 1 as [|e sensors He _ IH]; [done |].
  rewrite filter_cons, decide_False by congruence. exact IH.
Qed.

End Loops.

(* ===================================================================== *)
(** * The properties of the aggregation engine *)
(* ===================================================================== *)

Section Engine.
Import LHM Reader Spec.

Lemma elem_of_pool sel sensors v :
  v ∈ pool sel sensors ↔ ∃ e, e ∈ sensors ∧ sel e = true ∧ usable e = Some v.
Proof.
  unfold pool. rewrite list_elem_of_omap. split.
  - intros (e & He & Hv). exists e. destruct (sel e); [done | discriminate].
  - intros (e & He & Hs & Hv). exists e. by rewrite Hs.
Qed.

Lemma usable_Some e v :
  usable e = Some v ↔ s_Value (sensor_of e) = Some v ∧ Py.isfinite v = true.
Proof.
  unfold usable, usable_value. destruct (s_Value (sensor_of e)) as [x|].
  - destruct (Py.isfinite x) eqn:E; split.
    + by intros [= ->].
    + by intros [[= ->] _].
    + discriminate.
    + intros [[= ->] H]. congruence.
  - split; [discriminate | by intros [? _]].
Qed.

(** C2: the CPU selector takes the hotspot temperature as the maximum of
    the first non-empty pool among Core, Package and Mainboard-CPU (the CCD
    pool is not consulted), and the core temperature as the average of the
    first non-empty pool among CCD, Core, Package and Mainboard-CPU; each is
    absent when all its pools are empty.  A pool holds the usable values of
    the sensors of its class.  With CCD readings 60 and 64 and core readings
    70 and 85 the core temperature is 62 and the hotspot 85. *)
Theorem cpu_temps_selection :
  (∀ sensors c v,
     v ∈ cpu_pool c sensors ↔
     ∃ e, e ∈ sensors ∧ cpu_pool_of e = Some c ∧
          s_Value (sensor_of e) = Some v ∧ Py.isfinite v = true) ∧
  (∀ sensors, ∃ core_avg hotspot,
     _select_cpu_temps sensors = Py.Ok (core_avg, hotspot) ∧
     max_of (first_nonempty [cpu_pool Core sensors; cpu_pool Package sensors;
                             cpu_pool MainboardCpu sensors]) hotspot ∧
     average_of (first_nonempty [cpu_pool CCD sensors; cpu_pool Core sensors;
                                 cpu_pool Package sensors;
                                 cpu_pool MainboardCpu sensors]) core_avg) ∧
  (let sensors := _collect_sensors [Examples.cpu_ccd_core] in
   cpu_pool CCD sensors = [60; 64]%float ∧
   cpu_pool Core sensors = [70; 85]%float ∧
   cpu_pool Package sensors = [] ∧
   cpu_pool MainboardCpu sensors = [] ∧
   _select_cpu_temps sensors = Py.Ok (Some 62, Some 85)%float).
Proof.
  split; [| split; [exact select_cpu_temps_spec |]].
  - intros sensors c v. unfold cpu_pool. rewrite elem_of_pool.
    split; intros (e & He & Hc & Hv); exists e.
    + apply bool_decide_eq_true in Hc. by apply usable_Some in Hv.
    + split; [done |]. split; [by apply bool_decide_eq_true | by apply usable_Some].
  - repeat split; vm_compute; reflexivity.
Qed.

(** C3: the network usage is the maximum of the values of the Load sensors
    of Network devices that are finite and lie between 0 and 100; a value
    outside that range is dropped, not clamped, and the metric is absent
    when no value remains.  The snapshot holds that maximum, rounded.  The
    values 45, 150 and 30 give 45. *)
Theorem network_usage_max :
  (∀ sensors, ∃ nl,
     net_load sensors = Py.Ok nl ∧ max_of (net_pool sensors) nl ∧
     ∀ now, ∃ snap, metrics_of sensors now = Py.Ok snap ∧
                    net_usage_percent (net snap) = _round_or_none nl 1) ∧
  (∀ sensors v,
     v ∈ net_pool sensors ↔
     ∃ e, e ∈ sensors ∧
          h_HardwareType (parent_of e) = Network ∧
          s_SensorType (sensor_of e) = Load ∧
          s_Value (sensor_of e) = Some v ∧
          Py.isfinite v = true ∧
          PrimFloat.leb 0 v = true ∧ PrimFloat.leb v 100 = true) ∧
  (let sensors := _collect_sensors Examples.network_adapters in
   net_pool sensors = [45; 30]%float ∧
   net_load sensors = Py.Ok (Some 45%float) ∧
   ∀ now, ∃ snap, metrics_of sensors now = Py.Ok snap ∧
                  net_usage_percent (net snap) = Some 45%float).
Proof.
  split; [| split].
  - intros sensors.
    destruct (metrics_of_spec sensors)
      as (ca & hs & cl & mc & ac & g & nl & cp & _ & _ & _ & _ & Hnl & _ & Hm).
    destruct (net_load_spec sensors) as (nl' & Hnl' & Hmax).
    assert (nl' = nl) as -> by congruence.
    exists nl. split; [done |]. split; [done |].
    intros now. eexists. split; [apply Hm | done].
  - intros sensors v. unfold net_pool.
    rewrite list_elem_of_filter, elem_of_pool. unfold in_percent_range.
    split.
    + intros (Hr & e & He & Hsel & Hv).
      apply andb_prop in Hr as [H0 H100]. apply andb_prop in Hsel as [Hp Hk].
      apply usable_Some in Hv as [Hv Hfin].
      exists e. unfold parent_is in Hp. unfold kind_is in Hk.
      apply bool_decide_eq_true in Hp. apply bool_decide_eq_true in Hk. done.
    + intros (e & He & Hp & Hk & Hv & Hfin & H0 & H100).
      split; [by rewrite H0, H100 |].
      exists e. split; [done |]. split.
      * unfold parent_is, kind_is. by rewrite !bool_decide_eq_true_2.
      * by apply usable_Some.
  - repeat split; try (vm_compute; reflexivity).
    intros now. eexists. split; [reflexivity |]. vm_compute. reflexivity.
Qed.

Lemma is_hotspot_name_iff e :
  is_hotspot_name e = true ↔
  Py.contains "hot spot" (name_of e) = true ∨
  Py.contains "hotspot" (name_of e) = true ∨
  Py.contains "junction" (name_of e) = true.
Proof.
  unfold is_hotspot_name, Py.any_in. cbn [existsb].
  rewrite !orb_true_iff.
  split; [intros [?|[?|[?|?]]]; auto; discriminate | intros [?|[?|?]]; auto].
Qed.

(** C9: the GPU selector fills, in one pass, two pools with the usable
    Temperature values of the GPU devices: those whose name contains
    "hot spot", "hotspot" or "junction" go to the hotspot pool, all the
    others to the core pool, and no sensor goes to both; the hotspot
    temperature is the maximum of the first pool and the core temperature
    the maximum of the second, each absent when its pool is empty. *)
Theorem gpu_temperature_pools :
  (∀ sensors,
     temps (gpu_pools sensors) = gpu_core_pool sensors ∧
     hotspot_temps (gpu_pools sensors) = gpu_hotspot_pool sensors) ∧
  (∀ sensors v,
     (v ∈ gpu_hotspot_pool sensors ↔
      ∃ e, e ∈ sensors ∧ is_gpu_temp e = true ∧ is_hotspot_name e = true ∧
           usable e = Some v) ∧
     (v ∈ gpu_core_pool sensors ↔
      ∃ e, e ∈ sensors ∧ is_gpu_temp e = true ∧ is_hotspot_name e = false ∧
           usable e = Some v)) ∧
  (∀ e, is_hotspot_name e = true ↔
        Py.contains "hot spot" (name_of e) = true ∨
        Py.contains "hotspot" (name_of e) = true ∨
        Py.contains "junction" (name_of e) = true) ∧
  (∀ sensors, ∃ g,
     _select_gpu_metrics sensors = Py.Ok g ∧
     max_of (gpu_hotspot_pool sensors) (r_hotspot g) ∧
     max_of (gpu_core_pool sensors) (r_core_temp g)) ∧
  (let sensors := _collect_sensors [Examples.gpu_temperatures] in
   gpu_hotspot_pool sensors = [71; 80]%float ∧
   gpu_core_pool sensors = [55]%float ∧
   ∃ g, _select_gpu_metrics sensors = Py.Ok g ∧
        r_hotspot g = Some 80%float ∧ r_core_temp g = Some 55%float).
Proof.
  split; [| split; [| split; [| split]]].
  - intros sensors. by rewrite gpu_pools_spec.
  - intros sensors v. unfold gpu_hotspot_pool, gpu_core_pool.
    rewrite !elem_of_pool. split; split.
    + intros (e & He & Hs & Hv). apply andb_prop in Hs as [H1 H2]. by exists e.
    + intros (e & He & H1 & H2 & Hv). exists e. by rewrite H1, H2.
    + intros (e & He & Hs & Hv). apply andb_prop in Hs as [H1 H2].
      apply negb_true_iff in H2. by exists e.
    + intros (e & He & H1 & H2 & Hv). exists e. by rewrite H1, H2.
  - exact is_hotspot_name_iff.
  - intros sensors.
    destruct (select_gpu_metrics_spec sensors) as (g & Hg & Hc & Hh & _).
    by exists g.
  - repeat split; try (vm_compute; reflexivity).
    eexists. split; [reflexivity |]. split; vm_compute; reflexivity.
Qed.

(** The values kept by the loops that assign rather than append. *)
Lemma cpu_total_named_usable sensors :
  usable_or_absent (cpu_total_named sensors).
Proof.
  intros v. induction sensors as [|e sensors IH]; [done |]. simpl.
  destruct (_ && _is_finite (s_Value (sensor_of e))) eqn:E; [| exact IH].
  apply andb_prop in E as [_ E]. intros Hv. rewrite Hv in E. exact E.
Qed.

Lemma assign_finite_usable var value :
  usable_or_absent var → usable_or_absent (assign_finite var value).
Proof.
  intros Hvar v. unfold assign_finite.
  destruct value as [x|]; [| apply Hvar].
  simpl. destruct (Py.isfinite x) eqn:E; [| apply Hvar].
  by intros [= <-].
Qed.

Lemma fold_left_invariant {S B} (P : S → Prop) (step : S → B → S) :
  (∀ s e, P s → P (step s e)) → ∀ l s, P s → P (fold_left step l s).
Proof.
  intros Hstep. induction l as [|e l IH]; intros s Hs; [done |].
  simpl. by apply IH, Hstep.
Qed.

Lemma ram_vars_usable sensors :
  usable_or_absent (used_gb (_select_ram_used_free_gb sensors)) ∧
  usable_or_absent (free_gb (_select_ram_used_free_gb sensors)) ∧
  usable_or_absent (load_percent (_select_ram_used_free_gb sensors)).
Proof.
  unfold _select_ram_used_free_gb.
  apply (fold_left_invariant
    (λ r, usable_or_absent (used_gb r) ∧ usable_or_absent (free_gb r) ∧
          usable_or_absent (load_percent r))).
  - intros [u f l] e (Hu & Hf & Hl). unfold ram_step. simpl in *.
    repeat (case_match; simpl);
      repeat split; try done; by apply assign_finite_usable.
  - repeat split; intros v; discriminate.
Qed.

(** C4: the finite-value filter accepts exactly the values that are present
    and are neither NaN nor an infinity.  Every pool of every selector holds
    usable values only, and so does every variable assigned in a loop; the
    snapshot is the one computed on the usable sensors alone.  When no sensor
    has a usable value every metric is absent, and in all cases the snapshot
    is returned: no aggregate raises. *)
Theorem finite_filter_guards_aggregates :
  (∀ value,
     _is_finite value = true ↔
     ∃ v, value = Some v ∧ v ≠ nan ∧ v ≠ infinity ∧ v ≠ neg_infinity) ∧
  (∀ sensors,
     all_usable (core_sensor_temps (cpu_temp_pools sensors)) ∧
     all_usable (ccd_sensor_temps (cpu_temp_pools sensors)) ∧
     all_usable (package_temps (cpu_temp_pools sensors)) ∧
     all_usable (mb_cpu_temps (cpu_temp_pools sensors)) ∧
     usable_or_absent (cpu_total_named sensors) ∧
     all_usable (cpu_loads sensors) ∧
     all_usable (cpu_clocks sensors) ∧
     all_usable (cpu_powers sensors) ∧
     usable_or_absent (used_gb (_select_ram_used_free_gb sensors)) ∧
     usable_or_absent (free_gb (_select_ram_used_free_gb sensors)) ∧
     usable_or_absent (load_percent (_select_ram_used_free_gb sensors)) ∧
     all_usable (temps (gpu_pools sensors)) ∧
     all_usable (hotspot_temps (gpu_pools sensors)) ∧
     all_usable (loads (gpu_pools sensors)) ∧
     all_usable (powers (gpu_pools sensors)) ∧
     all_usable (core_clocks (gpu_pools sensors)) ∧
     all_usable (mem_clocks (gpu_pools sensors)) ∧
     all_usable (net_load_values sensors)) ∧
  (∀ sensors now,
     metrics_of sensors now =
     metrics_of (filter (λ e, is_usable e = true) sensors) now) ∧
  (∀ sensors now,
     Forall (λ e, is_usable e = false) sensors →
     metrics_of sensors now =
     Py.Ok (mkSnapshot (mkCpuMetrics None None None None None None)
              (mkRamMetrics None None None)
              (mkGpuMetrics None None None None None None)
              (mkNetMetrics None) now)) ∧
  (∀ sensors now, ∃ snap, metrics_of sensors now = Py.Ok snap).
Proof.
  split; [| split; [| split; [| split]]].
  - intros [v|]; simpl.
    + rewrite isfinite_iff. split; [by exists v |].
      by intros (v' & [= <-] & H).
    + split; [discriminate | by intros (v & ? & _)].
  - intros sensors.
    rewrite cpu_temp_pools_spec, cpu_loads_spec, cpu_clocks_spec, cpu_powers_spec,
      gpu_pools_spec, net_load_values_spec.
    cbn [core_sensor_temps ccd_sensor_temps package_temps mb_cpu_temps
         temps hotspot_temps loads powers core_clocks mem_clocks].
    destruct (ram_vars_usable sensors) as (Hu & Hf & Hl).
    repeat split; try apply pool_finite; try done.
    + apply cpu_total_named_usable.
    + apply net_pool_finite.
  - intros sensors now. symmetry. apply metrics_of_filter_usable.
  - intros sensors now Hall.
    rewrite <- metrics_of_filter_usable, (filter_usable_nil _ Hall).
    apply metrics_of_nil.
  - intros sensors now.
    destruct (metrics_of_spec sensors)
      as (ca & hs & cl & mc & ac & g & nl & cp & _ & _ & _ & _ & _ & _ & Hm).
    eexists. apply Hm.
Qed.

(** At a machine whose sensors report NaN, infinities or nothing, every
    metric is absent. *)
Lemma finite_filter_guards_aggregates_witness :
  metrics_of (_collect_sensors Examples.unusable_machine) 0 =
  Py.Ok (mkSnapshot (mkCpuMetrics None None None None None None)
           (mkRamMetrics None None None)
           (mkGpuMetrics None None None None None None)
           (mkNetMetrics None) 0).
Proof.
  apply (proj1 (proj2 (proj2 (proj2 finite_filter_guards_aggregates)))).
  repeat constructor.
Defined.

(** ** Rounding *)

Lemma rne_div_nearest num den :
  0 ≤ num → 0 < den → nearest_even num den (Py.rne_div num den).
Proof.
  intros Hnum Hden. unfold nearest_even, Py.rne_div.
  pose proof (Z.div_mod num den ltac:(lia)) as Hdm.
  pose proof (Z.mod_pos_bound num den Hden) as Hr.
  set (q := num / den) in *. set (r := num mod den) in *.
  destruct (Z.compare_spec (2 * r) den) as [Heq | Hlt | Hgt].
  - destruct (Z.even q) eqn:Hev.
    + split; [lia | done].
    + split; [lia | intros _].
      rewrite Z.even_add, Hev. reflexivity.
  - split; lia.
  - split; lia.
Qed.

Lemma scaled_nearest m e d :
  nearest_even (Z.pos m * 10 ^ Z.of_nat d * 2 ^ Z.max e 0) (2 ^ Z.max (- e) 0)
    (Py.scaled m e d).
Proof.
  unfold Py.scaled. destruct (Z.leb_spec 0 e) as [He | He].
  - rewrite (Z.max_l e 0), (Z.max_r (- e) 0) by lia.
    unfold nearest_even. change (2 ^ 0) with 1. split; [lia | lia].
  - rewrite (Z.max_r e 0), (Z.max_l (- e) 0) by lia.
    change (2 ^ 0) with 1. rewrite Z.mul_1_r.
    apply rne_div_nearest.
    + apply Z.mul_nonneg_nonneg; [lia | apply Z.pow_nonneg; lia].
    + apply Z.pow_pos_nonneg; lia.
Qed.

(** C5: every field of the snapshot is the result of its selector passed
    through [_round_or_none], with one decimal for temperatures, percentages,
    gigabytes and watts and none for clocks; an absent value stays absent and
    a present one stays present.  Rounding a finite value to [d] decimals
    takes the integer nearest to the exact value times [10^d], the even one
    on a tie, and returns the float nearest to that integer over [10^d].
    A power of 42.349 W becomes 42.3 and a clock of 3799.6 MHz becomes 3800. *)
Theorem snapshot_fields_rounded :
  (∀ sensors,
     ∃ core_avg hotspot cpu_load max_clock avg_clock g nl cp,
       _select_cpu_temps sensors = Py.Ok (core_avg, hotspot) ∧
       _select_cpu_total_load sensors = Py.Ok cpu_load ∧
       _select_cpu_core_clocks sensors = Py.Ok (max_clock, avg_clock) ∧
       _select_gpu_metrics sensors = Py.Ok g ∧
       net_load sensors = Py.Ok nl ∧
       cpu_power sensors = Py.Ok cp ∧
       ∀ now, metrics_of sensors now =
         Py.Ok (mkSnapshot
           (mkCpuMetrics (_round_or_none core_avg 1) (_round_or_none hotspot 1)
              (_round_or_none cpu_load 1) (_round_or_none max_clock 0)
              (_round_or_none avg_clock 0) (_round_or_none cp 1))
           (mkRamMetrics
              (_round_or_none (load_percent (_select_ram_used_free_gb sensors)) 1)
              (_round_or_none (used_gb (_select_ram_used_free_gb sensors)) 1)
              (_round_or_none (free_gb (_select_ram_used_free_gb sensors)) 1))
           (mkGpuMetrics (_round_or_none (r_core_temp g) 1)
              (_round_or_none (r_hotspot g) 1) (_round_or_none (r_load g) 1)
              (_round_or_none (r_core_clock g) 0)
              (_round_or_none (r_mem_clock g) 0)
              (_round_or_none (r_power g) 1))
           (mkNetMetrics (_round_or_none nl 1))
           now)) ∧
  (∀ value digits, _round_or_none value digits = None ↔ value = None) ∧
  (∀ v digits, _round_or_none (Some v) digits = Some (Py.round v digits)) ∧
  (∀ v s m e d,
     Prim2SF v = S754_finite s m e →
     Py.round v d = Py.decimal_to_float s (Py.scaled m e d) d ∧
     nearest_even (Z.pos m * 10 ^ Z.of_nat d * 2 ^ Z.max e 0) (2 ^ Z.max (- e) 0)
       (Py.scaled m e d)) ∧
  (_round_or_none (Some 42.349%float) 1 = Some 42.3%float ∧
   _round_or_none (Some 3799.6%float) 0 = Some 3800%float ∧
   ∀ now, ∃ snap,
     metrics_of (_collect_sensors [Examples.cpu_power_clock]) now = Py.Ok snap ∧
     cpu_power_w (cpu snap) = Some 42.3%float ∧
     cpu_max_clock_mhz (cpu snap) = Some 3800%float).
Proof.
  split; [exact metrics_of_spec |].
  split; [| split; [| split]].
  - intros [v|] digits; simpl; split; congruence.
  - reflexivity.
  - intros v s m e d Hv. split; [| apply scaled_nearest].
    unfold Py.round. by rewrite Hv.
  - split; [vm_compute; reflexivity |]. split; [vm_compute; reflexivity |].
    intros now. eexists. split; [reflexivity |].
    split; vm_compute; reflexivity.
Qed.

(** ** The usage of the memory *)

Lemma ram_step_load_percent r e :
  (ram_load_sel e = true → is_usable e = false) →
  load_percent (ram_step r e) = load_percent r.
Proof.
  intros Hsel. unfold ram_step.
  rewrite is_ram_hw_spec. fold (parent_is Memory e).
  destruct (parent_is Memory e) eqn:Hp; simpl; [| done].
  destruct (Py.contains "virtual" _); [done |].
  rewrite ST_LOAD_eq. cbn [st_is_or_unknown]. rewrite st_is_Some.
  fold (kind_is Load e).
  destruct (kind_is Load e) eqn:Hk; simpl.
  - unfold ram_load_sel in Hsel. rewrite Hp, Hk in Hsel.
    specialize (Hsel eq_refl). unfold is_usable in Hsel.
    rewrite !assign_finite_spec, (usable_value_None _ Hsel). simpl.
    repeat (case_match; simpl; try reflexivity).
  - repeat (case_match; simpl; try reflexivity).
Qed.

Lemma load_percent_absent sensors :
  Forall (λ e, ram_load_sel e = true → is_usable e = false) sensors →
  load_percent (_select_ram_used_free_gb sensors) = None.
Proof.
  unfold _select_ram_used_free_gb. intros Hall.
  enough (H : ∀ r, load_percent r = None →
                   load_percent (fold_left ram_step sensors r) = None)
    by by apply H.
  induction Hall as [|e sensors He _ IH]; intros r Hr; [done |].
  simpl. apply IH. by rewrite ram_step_load_percent.
Qed.

(** The guard [used + available > 0] excludes a zero divisor. *)
Lemma gt_zero_nonzero x : Py.gt x 0 = true → PrimFloat.eqb x 0 = false.
Proof.
  unfold Py.gt. rewrite FloatAxioms.ltb_spec, FloatAxioms.eqb_spec, Prim2SF_zero.
  unfold SFltb, SFeqb.
  destruct (Prim2SF x) as [s|s| |s m e]; simpl; try discriminate;
    destruct s; simpl; try discriminate; reflexivity.
Qed.

(** C1, on the code: the memory usage of the snapshot is the value of a Load
    sensor of the memory device and nothing else.  Without a usable Load
    sensor it is absent, whatever the Data sensors report: [read_metrics]
    takes it from [_select_ram_used_free_gb] and never calls
    [_select_ram_usage], the method that derives it from the used and
    available amounts.  With 8 GB used and 8 GB available that method
    returns 50 and the snapshot has no usage. *)
Theorem ram_usage_needs_load_sensor :
  (∀ sensors now,
     Forall (λ e, ram_load_sel e = true → is_usable e = false) sensors →
     ∃ snap, metrics_of sensors now = Py.Ok snap ∧
             ram_usage_percent (ram snap) = None) ∧
  (let sensors := _collect_sensors [Examples.memory_used_available] in
   _select_ram_usage sensors = Py.Ok (Some 50%float) ∧
   ∀ now, ∃ snap,
     metrics_of sensors now = Py.Ok snap ∧
     ram_usage_percent (ram snap) = None ∧
     ram_used_gb (ram snap) = Some 8%float ∧
     ram_free_gb (ram snap) = Some 8%float).
Proof.
  split.
  - intros sensors now Hall.
    destruct (metrics_of_spec sensors)
      as (ca & hs & cl & mc & ac & g & nl & cp & _ & _ & _ & _ & _ & _ & Hm).
    eexists. split; [apply Hm |]. simpl.
    by rewrite (load_percent_absent _ Hall).
  - split; [vm_compute; reflexivity |].
    intros now. eexists. split; [reflexivity |].
    repeat split; vm_compute; reflexivity.
Qed.

End Engine.

(* ===================================================================== *)
(** * The properties of the UI configuration *)
(* ===================================================================== *)

Section Order.
Import Config ConfigSpec.

(** ** Lists without repetitions *)

Lemma filter_id (P : string → Prop) `{∀ x, Decision (P x)} (l : list string) :
  (∀ x, x ∈ l → P x) → filter P l = l.
Proof.
  induction l as [|x l IH]; intros Hall; [done |].
  rewrite filter_cons_True by (apply Hall; left).
  f_equal. apply IH. intros y Hy. apply Hall. by right.
Qed.

Lemma filter_comm_string (P Q : string → Prop) `{∀ x, Decision (P x)}
    `{∀ x, Decision (Q x)} (l : list string) :
  filter P (filter Q l) = filter Q (filter P l).
Proof.
  induction l as [|x l IH]; [done |].
  rewrite !filter_cons.
  destruct (decide (Q x)), (decide (P x));
    rewrite ?filter_cons, ?decide_True, ?decide_False by done; by rewrite ?IH.
Qed.

Lemma elem_of_dedup l x : x ∈ dedup l ↔ x ∈ l.
Proof.
  induction l as [|y t IH]; [done |]. simpl.
  rewrite !elem_of_cons, list_elem_of_filter, IH.
  destruct (decide (x = y)); naive_solver.
Qed.

Lemma NoDup_dedup l : NoDup (dedup l).
Proof.
  induction l as [|y t IH]; simpl; [constructor |].
  constructor.
  - rewrite list_elem_of_filter. naive_solver.
  - by apply NoDup_filter.
Qed.

Lemma dedup_filter (P : string → Prop) `{∀ x, Decision (P x)} l :
  filter P (dedup l) = dedup (filter P l).
Proof.
  induction l as [|x l IH]; [done |]. simpl.
  rewrite !filter_cons. destruct (decide (P x)) as [Hx | Hx]; simpl.
  - by rewrite filter_comm_string, IH.
  - rewrite filter_comm_string, IH. apply filter_id.
    intros y Hy ->. apply elem_of_dedup, list_elem_of_filter in Hy. naive_solver.
Qed.

Lemma dedup_NoDup l : NoDup l → dedup l = l.
Proof.
  induction 1 as [|x l Hx _ IH]; [done |]. simpl. rewrite IH.
  f_equal. apply filter_id. intros y Hy ->. done.
Qed.

(** ** The two loops of [_normalize_order] *)

Lemma get_or_self_alias key : get_or_self ALIAS_TO_CANON key = canonical key.
Proof.
  unfold get_or_self, ALIAS_TO_CANON, canonical.
  destruct (String.eqb_spec key "cpu_temp") as [-> | Hne]; [done |].
  by rewrite lookup_singleton_ne.
Qed.

Lemma first_loop order : ∀ seen normalized,
  fold_left normalize_step order (seen, normalized) =
  (list_to_set (fresh seen order) ∪ seen, normalized ++ fresh seen order).
Proof.
  induction order as [|key order IH]; intros seen normalized.
  - simpl. f_equal; [set_solver | by rewrite app_nil_r].
  - cbn [fold_left]. unfold normalize_step at 2. rewrite get_or_self_alias.
    cbn [fst snd]. unfold fresh. cbn [map]. rewrite filter_cons.
    destruct (decide (canonical key ∈ SENSOR_KEYS_DEFAULT ∧ canonical key ∉ seen))
      as [[Hk Hs] | Hno].
    + rewrite !bool_decide_eq_true_2 by done. cbn [andb]. rewrite IH.
      cbn [dedup]. rewrite dedup_filter, list_filter_filter.
      assert (Hfresh : fresh ({[canonical key]} ∪ seen) order =
        dedup (filter (λ x, x ≠ canonical key ∧
                             x ∈ SENSOR_KEYS_DEFAULT ∧ x ∉ seen)
                 (map canonical order))).
      { unfold fresh. f_equal. apply list_filter_iff. set_solver. }
      rewrite Hfresh. f_equal; [set_solver | by rewrite <- app_assoc].
    + assert (Hb : bool_decide (canonical key ∈ SENSOR_KEYS_DEFAULT) &&
                   bool_decide (canonical key ∉ seen) = false).
      { apply andb_false_iff.
        destruct (decide (canonical key ∈ SENSOR_KEYS_DEFAULT));
          [right | left]; apply bool_decide_eq_false; naive_solver. }
      rewrite Hb. apply IH.
Qed.

Lemma second_loop seen keys : ∀ normalized,
  fold_left (append_missing_step seen) keys normalized =
  normalized ++ filter (λ k, k ∉ seen) keys.
Proof.
  induction keys as [|k keys IH]; intros normalized.
  - simpl. by rewrite app_nil_r.
  - cbn [fold_left]. rewrite IH, filter_cons. unfold append_missing_step.
    destruct (decide (k ∉ seen)).
    + rewrite bool_decide_eq_true_2 by done. by rewrite <- app_assoc.
    + by rewrite bool_decide_eq_false_2.
Qed.

Lemma fresh_empty order : fresh ∅ order = recognized order.
Proof.
  unfold fresh, recognized. f_equal. apply list_filter_iff. set_solver.
Qed.

Lemma normalize_order_spec order :
  _normalize_order order = recognized order ++ missing order.
Proof.
  unfold _normalize_order. rewrite first_loop, second_loop, fresh_empty.
  simpl. f_equal. unfold missing. apply list_filter_iff. set_solver.
Qed.

Lemma NoDup_SENSOR_KEYS_DEFAULT : NoDup SENSOR_KEYS_DEFAULT.
Proof. apply (bool_decide_unpack _). vm_compute. exact I. Qed.

Lemma recognized_known order k : k ∈ recognized order → k ∈ SENSOR_KEYS_DEFAULT.
Proof.
  unfold recognized. rewrite elem_of_dedup, list_elem_of_filter. naive_solver.
Qed.

Lemma NoDup_normalize_order order : NoDup (_normalize_order order).
Proof.
  rewrite normalize_order_spec. apply NoDup_app. split; [apply NoDup_dedup |].
  split.
  - intros k Hk. unfold missing. rewrite list_elem_of_filter. naive_solver.
  - apply NoDup_filter, NoDup_SENSOR_KEYS_DEFAULT.
Qed.

Lemma elem_of_normalize_order order k :
  k ∈ _normalize_order order ↔ k ∈ SENSOR_KEYS_DEFAULT.
Proof.
  rewrite normalize_order_spec, elem_of_app. unfold missing.
  rewrite list_elem_of_filter. split.
  - intros [Hk | [_ Hk]]; [by eapply recognized_known | done].
  - intros Hk. destruct (decide (k ∈ recognized order)); auto.
Qed.

Lemma normalize_order_Permutation order :
  _normalize_order order ≡ₚ SENSOR_KEYS_DEFAULT.
Proof.
  apply NoDup_Permutation.
  - apply NoDup_normalize_order.
  - apply NoDup_SENSOR_KEYS_DEFAULT.
  - apply elem_of_normalize_order.
Qed.

(** ** [",".join] followed by [split(",")] *)











(** ** Normalization leaves a normalized order unchanged *)

Lemma canonical_known k : k ∈ SENSOR_KEYS_DEFAULT → canonical k = k.
Proof.
  intros Hk. unfold canonical.
  destruct (String.eqb_spec k "cpu_temp") as [-> | _]; [| done].
  exfalso. revert Hk. apply (bool_decide_unpack _). vm_compute. exact I.
Qed.

Lemma filter_none (P : string → Prop) `{∀ x, Decision (P x)} (l : list string) :
  (∀ x, x ∈ l → ¬ P x) → filter P l = [].
Proof.
  induction l as [|x l IH]; intros Hall; [done |].
  rewrite filter_cons_False by (apply Hall; left).
  apply IH. intros y Hy. apply Hall. by right.
Qed.

Lemma normalize_order_fixed l :
  NoDup l → (∀ k, k ∈ l ↔ k ∈ SENSOR_KEYS_DEFAULT) → _normalize_order l = l.
Proof.
  intros Hnd Hel. rewrite normalize_order_spec.
  assert (Hrec : recognized l = l).
  { unfold recognized.
    assert (map canonical l = l) as ->.
    { rewrite <- (map_id l) at 2. apply map_ext_in. intros k Hk.
      apply canonical_known, Hel. by apply list_elem_of_In. }
    rewrite filter_id by (intros k Hk; by apply Hel).
    by apply dedup_NoDup. }
  unfold missing. rewrite Hrec.
  rewrite filter_none; [by rewrite app_nil_r |].
  intros k Hk Hnot. by apply Hnot, Hel.
Qed.

(** ** What [save_ui_config] writes and [load_ui_config] reads *)


Lemma cfg_set_lookup cfg section option value :
  (cfg_set cfg section option value !! section) ≫= (λ sec, sec !! option) =
  Some value.
Proof.
  unfold cfg_set. rewrite lookup_insert_eq. simpl. by rewrite lookup_insert_eq.
Qed.

Lemma cfg_set_has_section cfg section option value :
  has_section (cfg_set cfg section option value) section = true.
Proof.
  unfold has_section, cfg_set. rewrite lookup_insert_eq.
  by apply bool_decide_eq_true.
Qed.

(** A text without [%] is what [cfg.get] returns for it. *)
Lemma contains_percent_cons c s :
  Py.contains "%" (String c s) = Ascii.eqb c "%" || Py.contains "%" s.
Proof.
  cbn [Py.contains Py.startswith]. by rewrite andb_true_r, Ascii.eqb_sym.
Qed.





Lemma cfg_get_fallback cfg section option fallback :
  chain_lookup cfg section option = None →
  cfg_get cfg section option fallback = Py.Ok fallback.
Proof. unfold cfg_get. by intros ->. Qed.






Lemma cfg_to_save_interval o v f :
  (cfg_to_save o (Some v) f !! "ui") ≫= (λ sec, sec !! "update_interval_sec") =
  Some (Py.format_3f (Py.max2 0.05 v)).
Proof. unfold cfg_to_save. apply cfg_set_lookup. Qed.



(** What a load returns for a file with a [ui] section, by the outcome of
    reading the order. *)
Lemma load_ui_section cfg w :
  has_section cfg "ui" = true →
  load_ui_config (mkFileSystem (Ini cfg) w) =
  match cfg_get cfg "ui" "order" "," with
  | Py.Ok order_str =>
      mkUiConfig (_normalize_order (order_list_of order_str))
        (Py.try_except
           (s ← cfg_get cfg "ui" "update_interval_sec" "1.0";
            v ← Py.float_of_string s; Py.Ok (Py.max2 0.05 v)) 1%float)
  | Py.Raise _ => UI_CONFIG_default
  end.
Proof. unfold load_ui_config. cbn [config_file]. by intros ->. Qed.

Lemma load_order_Permutation fs : order (load_ui_config fs) ≡ₚ SENSOR_KEYS_DEFAULT.
Proof.
  unfold load_ui_config. destruct (config_file fs) as [| |cfg]; simpl; [done | done |].
  destruct (has_section cfg "ui"); simpl; [| done].
  destruct (cfg_get cfg "ui" "order" ","); simpl;
    [apply normalize_order_Permutation | done].
Qed.

Lemma config_view_order_Permutation repr st request :
  order (UI_CONFIG st) ≡ₚ SENSOR_KEYS_DEFAULT →
  order (UI_CONFIG (config_view repr st request).2) ≡ₚ SENSOR_KEYS_DEFAULT.
Proof.
  intros Hst. unfold config_view.
  destruct (String.eqb (method request) "GET"); [done |].
  destruct (payload_of (body request)) as [[| | | | | |members]|]; try done.
  assert (Ho : match obj_get members "order" with
               | Some (JArr l) => _normalize_order (map (py_str repr) l)
               | _ => order (UI_CONFIG st)
               end ≡ₚ SENSOR_KEYS_DEFAULT).
  { destruct (obj_get members "order") as [[]|]; try done.
    apply normalize_order_Permutation. }
  destruct (save_ui_config _ _ _); simpl; exact Ho.
Qed.

(** A write request with a JSON object stores the order and the interval
    it computes, whether the file could be written or not. *)
Lemma config_view_write repr st m members :
  String.eqb m "GET" = false →
  ∃ o i,
    o = match obj_get members "order" with
        | Some (JArr l) => _normalize_order (map (py_str repr) l)
        | _ => order (UI_CONFIG st)
        end ∧
    i = match obj_get members "update_interval_sec" with
        | None | Some JNull => update_interval_sec (UI_CONFIG st)
        | Some v =>
            Py.try_except (f ← py_float v; Py.Ok (Py.max2 0.05 f))
              (update_interval_sec (UI_CONFIG st))
        end ∧
    config_view repr st (mkRequest m (BodyJson (JObj members))) =
    if writable (fs st)
    then (Py.Ok OkResponse,
          mkState (mkUiConfig o i)
            (mkFileSystem (Ini (cfg_to_save (Some o) (Some i) (config_file (fs st))))
               true))
    else (Py.Ok (ErrorResponse 500 "Failed to save config"),
          mkState (mkUiConfig o i) (fs st)).
Proof.
  intros Hm. unfold config_view. cbn [method body payload_of]. rewrite Hm.
  eexists _, _. split; [reflexivity |]. split; [reflexivity |].
  unfold save_ui_config. by destruct (writable (fs st)) eqn:Hw.
Qed.




End Order.

Section Interval.
Import Config ConfigSpec.

(** ** The interval of a write and of a load *)

Lemma persisted_interval_saved o i f w :
  persisted_interval (mkFileSystem (Ini (cfg_to_save o (Some i) f)) w) =
  Some (Py.format_3f (Py.max2 0.05 i)).
Proof. unfold persisted_interval. simpl. apply cfg_to_save_interval. Qed.


(** The interval of a load, when the two options are read without error. *)
Lemma load_interval cfg w order_str s v :
  has_section cfg "ui" = true →
  cfg_get cfg "ui" "order" "," = Py.Ok order_str →
  cfg_get cfg "ui" "update_interval_sec" "1.0" = Py.Ok s →
  Py.float_of_string s = Py.Ok v →
  update_interval_sec (load_ui_config (mkFileSystem (Ini cfg) w)) = Py.max2 0.05 v.
Proof.
  intros Hsec Ho Hs Hv. rewrite load_ui_section by done.
  rewrite Ho, Hs. cbn [update_interval_sec mbind result_bind Py.bind].
  by rewrite Hv.
Qed.

(** The interval that a write stores, by what [float] makes of the value. *)
Lemma config_view_interval repr st m members v :
  String.eqb m "GET" = false →
  obj_get members "update_interval_sec" = Some v →
  update_interval_sec
    (UI_CONFIG (config_view repr st (mkRequest m (BodyJson (JObj members)))).2) =
  match py_float v with
  | Py.Ok f => Py.max2 0.05 f
  | Py.Raise _ => update_interval_sec (UI_CONFIG st)
  end.
Proof.
  intros Hm Hget.
  destruct (config_view_write repr st m members Hm) as (o & i & _ & Hi & Hr).
  rewrite Hget in Hi. rewrite Hr.
  assert (i = match py_float v with
              | Py.Ok f => Py.max2 0.05 f
              | Py.Raise _ => update_interval_sec (UI_CONFIG st)
              end) as ->.
  { rewrite Hi. destruct v; try reflexivity; simpl;
      [by destruct (Py.float_of_int z) | by destruct (Py.float_of_string s)]. }
  by destruct (writable (fs st)).
Qed.

(** C7, as the code has it: an interval submitted by a configuration write
    that [float] converts to a number is stored in memory as
    [max(0.05, number)], and so is the interval that a load reads from the
    file; a number below 0.05 becomes 0.05 and one of at least 0.05 is kept
    as it is.  Every JSON float converts; a JSON integer converts unless it
    is beyond the range of the floats, where [float] raises [OverflowError]
    and the interval keeps its value.  What a write persists is the stored
    value written with three decimals.  An interval of 0.01 is stored as
    0.05, persisted as 0.050 and loaded again as 0.05. *)
Theorem interval_floor_clamped :
  (∀ repr st m members v f,
     String.eqb m "GET" = false →
     obj_get members "update_interval_sec" = Some v →
     py_float v = Py.Ok f →
     let r := config_view repr st (mkRequest m (BodyJson (JObj members))) in
     update_interval_sec (UI_CONFIG r.2) = Py.max2 0.05 f ∧
     (writable (fs st) = true →
      r.1 = Py.Ok OkResponse ∧
      persisted_interval (fs r.2) = Some (Py.format_3f (Py.max2 0.05 f)))) ∧
  (∀ f, py_float (JFloat f) = Py.Ok f) ∧
  (∀ repr st m members z,
     String.eqb m "GET" = false →
     obj_get members "update_interval_sec" = Some (JInt z) →
     let r := config_view repr st (mkRequest m (BodyJson (JObj members))) in
     match py_float (JInt z) with
     | Py.Ok f =>
         f = Py.int_to_float z ∧
         update_interval_sec (UI_CONFIG r.2) = Py.max2 0.05 f
     | Py.Raise e =>
         e = Py.OverflowError ∧
         update_interval_sec (UI_CONFIG r.2) = update_interval_sec (UI_CONFIG st)
     end) ∧
  py_float (JInt (10 ^ 400)) = Py.Raise Py.OverflowError ∧
  (∀ cfg w order_str s v,
     has_section cfg "ui" = true →
     cfg_get cfg "ui" "order" "," = Py.Ok order_str →
     cfg_get cfg "ui" "update_interval_sec" "1.0" = Py.Ok s →
     Py.float_of_string s = Py.Ok v →
     update_interval_sec (load_ui_config (mkFileSystem (Ini cfg) w)) =
     Py.max2 0.05 v) ∧
  (∀ f, PrimFloat.ltb f 0.05 = true → Py.max2 0.05 f = 0.05%float) ∧
  (∀ f, PrimFloat.leb 0.05 f = true → Py.max2 0.05 f = f) ∧
  (let r := config_view Examples.repr_stub Examples.fresh
              (Examples.post [("update_interval_sec", JFloat 0.01)]) in
   r.1 = Py.Ok OkResponse ∧
   update_interval_sec (UI_CONFIG r.2) = 0.05%float ∧
   persisted_interval (fs r.2) = Some "0.050" ∧
   update_interval_sec (load_ui_config (fs r.2)) = 0.05%float).
Proof.
  split; [| split; [done | split; [| split; [by vm_compute |
            split; [exact load_interval |
            split; [exact max2_floor_below | split; [exact max2_floor_above |]]]]]]].
  - intros repr st m members v f Hm Hget Hf r.
    pose proof (config_view_interval repr st m members v Hm Hget) as Hi.
    rewrite Hf in Hi. fold r in Hi. split; [exact Hi |].
    intros Hw. revert Hi. subst r.
    destruct (config_view_write repr st m members Hm) as (o & i & _ & _ & Hr).
    rewrite Hr, Hw. cbn [fst snd fs UI_CONFIG update_interval_sec].
    intros ->. split; [done |].
    by rewrite persisted_interval_saved, max2_floor_idem.
  - intros repr st m members z Hm Hget r.
    pose proof (config_view_interval repr st m members (JInt z) Hm Hget) as Hi.
    fold r in Hi. revert Hi. cbn [py_float]. unfold Py.float_of_int.
    by destruct (PrimFloat.is_infinity (Py.int_to_float z)).
  - repeat split; vm_compute; reflexivity.
Qed.

(** An interval of 0.5 submitted to a fresh installation. *)
Lemma interval_floor_clamped_witness :
  let r := config_view Examples.repr_stub Examples.fresh
             (mkRequest "POST" (BodyJson (JObj [("update_interval_sec", JFloat 0.5)]))) in
  update_interval_sec (UI_CONFIG r.2) = Py.max2 0.05 0.5 ∧
  (writable (fs Examples.fresh) = true →
   r.1 = Py.Ok OkResponse ∧
   persisted_interval (fs r.2) = Some (Py.format_3f (Py.max2 0.05 0.5))).
Proof.
  apply (proj1 interval_floor_clamped Examples.repr_stub Examples.fresh "POST"
           [("update_interval_sec", JFloat 0.5)] (JFloat 0.5) 0.5%float);
    reflexivity.
Defined.

(** C7, as stated, fails on what is persisted: an interval of 0.1234 is
    stored as 0.1234, which is [max(0.05, 0.1234)], but persisted as 0.123,
    and 0.123 is what the next load returns. *)
Lemma persisted_interval_three_decimals :
  let r := config_view Examples.repr_stub Examples.fresh
             (Examples.post [("update_interval_sec", JFloat 0.1234)]) in
  r.1 = Py.Ok OkResponse ∧
  Py.max2 0.05 0.1234 = 0.1234%float ∧
  update_interval_sec (UI_CONFIG r.2) = 0.1234%float ∧
  persisted_interval (fs r.2) = Some "0.123" ∧
  update_interval_sec (load_ui_config (fs r.2)) = 0.123%float ∧
  PrimFloat.eqb 0.123 0.1234 = false.
Proof. repeat split; vm_compute; reflexivity. Qed.




End Interval.

(* ===================================================================== *)
(** * Further properties of the selectors *)
(* ===================================================================== *)

Section Selectors.
Import LHM Reader Spec.

#[local] Arguments Py.any_in : simpl never.
#[local] Arguments Py.contains : simpl never.
#[local] Arguments Py.startswith : simpl never.
#[local] Arguments Py.str_in_tuple : simpl never.
#[local] Arguments Py.lower : simpl never.

(** ** Loops that keep the first or the last match *)

(** A loop that assigns the usable value of the selected sensors to a
    variable ends with the last of them. *)
Lemma fold_left_field_last {S} (step : S → Entry → S) (field : S → option float)
    (sel : Entry → bool) :
  (∀ s e, field (step s e) =
          from_option Some (field s) (if sel e then usable e else None)) →
  ∀ sensors s,
    field (fold_left step sensors s) =
    from_option Some (field s) (last (pool sel sensors)).
Proof.
  intros Hstep. induction sensors as [|e sensors IH]; intros s; [done |].
  cbn [fold_left]. rewrite IH, Hstep, pool_cons.
  destruct (if sel e then usable e else None) as [v|]; simpl; [| done].
  rewrite last_cons. by destruct (last (pool sel sensors)).
Qed.

Lemma from_option_Some_None (o : option float) : from_option Some None o = o.
Proof. by destruct o. Qed.

Lemma ram_step_spec r e :
  ram_step r e =
  mkRamVars
    (from_option Some (used_gb r) (if ram_used_sel e then usable e else None))
    (from_option Some (free_gb r) (if ram_free_sel e then usable e else None))
    (from_option Some (load_percent r) (if ram_usage_sel e then usable e else None)).
Proof.
  unfold ram_step, ram_used_sel, ram_free_sel, ram_usage_sel, ram_sel, parent_is,
    kind_is, usable, name_of.
  rewrite is_ram_hw_spec, ST_LOAD_eq.
  assert (Hd : ST_DATA = Some Data) by reflexivity. rewrite Hd.
  cbn [st_is_or_unknown st_is_or_named]. rewrite !st_is_Some, !assign_finite_spec.
  destruct r as [u f l].
  destruct (bool_decide (h_HardwareType (parent_of e) = Memory)); simpl; [| done].
  destruct (Py.contains "virtual" _); simpl; [done |].
  destruct (s_SensorType (sensor_of e)); simpl;
    repeat match goal with
    | |- context [Py.contains ?a ?b] => destruct (Py.contains a b)
    | |- context [String.eqb ?a ?b] => destruct (String.eqb a b)
    end; simpl; reflexivity.
Qed.

(** The first loop of [_select_cpu_total_load] returns at the first usable
    sensor with one of the two names. *)
Lemma cpu_total_named_spec sensors :
  cpu_total_named sensors = head (pool cpu_total_sel sensors).
Proof.
  induction sensors as [|e sensors IH]; [done |].
  rewrite pool_cons. cbn [cpu_total_named].
  unfold cpu_total_sel at 1, cpu_load_sel, is_cpu_load, parent_is, kind_is, usable.
  rewrite HT_CPU_eq, ST_LOAD_eq, hw_is_Some. cbn [st_is_or_unknown].
  rewrite st_is_Some, is_finite_usable.
  destruct (bool_decide _ && bool_decide _ && Py.str_in_tuple _ _); simpl;
    [| exact IH].
  destruct (s_Value (sensor_of e)) as [v|]; simpl; [| exact IH].
  destruct (Py.isfinite v); simpl; [done | exact IH].
Qed.

(** So does the first loop of [_select_ram_usage]. *)
Lemma ram_load_first_spec sensors :
  ram_load_first sensors = head (pool ram_load_sel sensors).
Proof.
  induction sensors as [|e sensors IH]; [done |].
  rewrite pool_cons. cbn [ram_load_first].
  unfold ram_load_sel at 1, parent_is, kind_is, usable.
  rewrite is_ram_hw_spec, ST_LOAD_eq. cbn [st_is_or_unknown].
  rewrite st_is_Some, is_finite_usable.
  destruct (bool_decide _ && bool_decide _); simpl; [| exact IH].
  destruct (s_Value (sensor_of e)) as [v|]; simpl; [| exact IH].
  destruct (Py.isfinite v); simpl; [done | exact IH].
Qed.

Lemma ram_used_available_step_spec ua e :
  ram_used_available_step ua e =
  (from_option Some ua.1 (if usage_used_sel e then usable e else None),
   from_option Some ua.2 (if usage_available_sel e then usable e else None)).
Proof.
  unfold ram_used_available_step, usage_used_sel, usage_available_sel, parent_is,
    kind_is, usable, name_of.
  rewrite is_ram_hw_spec.
  assert (Hd : ST_DATA = Some Data) by reflexivity. rewrite Hd.
  cbn [st_is_or_named]. rewrite !st_is_Some, !assign_finite_spec.
  destruct ua as [u a].
  destruct (bool_decide (h_HardwareType (parent_of e) = Memory)); simpl; [| done].
  destruct (bool_decide (s_SensorType (sensor_of e) = Data)); simpl; [| done].
  by destruct (Py.contains "used" _), (Py.contains "available" _).
Qed.

Lemma ram_used_available_spec sensors :
  fold_left ram_used_available_step sensors (None, None) =
  (last (pool usage_used_sel sensors), last (pool usage_available_sel sensors)).
Proof.
  pose proof (fold_left_field_last ram_used_available_step fst usage_used_sel
    (λ s e, f_equal fst (ram_used_available_step_spec s e)) sensors (None, None)) as H1.
  pose proof (fold_left_field_last ram_used_available_step snd usage_available_sel
    (λ s e, f_equal snd (ram_used_available_step_spec s e)) sensors (None, None)) as H2.
  simpl in H1, H2. rewrite from_option_Some_None in H1, H2.
  destruct (fold_left _ _ _) as [u a]. simpl in *. by subst.
Qed.

(** X1: [_select_ram_usage], the method that [read_metrics] leaves unused,
    never raises.  It returns the usable value of the first Load sensor of a
    memory device; without one, it takes the last usable Data value named
    "used" and the last one named "available" and returns
    used / (used + available) * 100 when both exist and their sum is
    positive; in every other case it returns nothing. *)
Theorem select_ram_usage_spec sensors :
  _select_ram_usage sensors =
  Py.Ok
    match head (pool ram_load_sel sensors) with
    | Some v => Some v
    | None =>
        match last (pool usage_used_sel sensors),
              last (pool usage_available_sel sensors) with
        | Some used, Some available =>
            if Py.gt (used + available)%float 0%float
            then Some (used / (used + available) * 100)%float
            else None
        | _, _ => None
        end
    end.
Proof.
  unfold _select_ram_usage.
  rewrite ram_load_first_spec, ram_used_available_spec.
  destruct (head (pool ram_load_sel sensors)); [done |].
  destruct (last (pool usage_used_sel sensors)) as [used|]; [| done].
  destruct (last (pool usage_available_sel sensors)) as [available|]; [| done].
  destruct (Py.gt (used + available) 0) eqn:Hpos; [| done].
  unfold Py.div. by rewrite (gt_zero_nonzero _ Hpos).
Qed.

Lemma ram_vars_spec sensors :
  used_gb (_select_ram_used_free_gb sensors) = last (pool ram_used_sel sensors) ∧
  free_gb (_select_ram_used_free_gb sensors) = last (pool ram_free_sel sensors) ∧
  load_percent (_select_ram_used_free_gb sensors) =
    last (pool ram_usage_sel sensors).
Proof.
  unfold _select_ram_used_free_gb.
  pose proof (fold_left_field_last ram_step used_gb ram_used_sel
    (λ s e, f_equal used_gb (ram_step_spec s e)) sensors
    (mkRamVars None None None)) as H1.
  pose proof (fold_left_field_last ram_step free_gb ram_free_sel
    (λ s e, f_equal free_gb (ram_step_spec s e)) sensors
    (mkRamVars None None None)) as H2.
  pose proof (fold_left_field_last ram_step load_percent ram_usage_sel
    (λ s e, f_equal load_percent (ram_step_spec s e)) sensors
    (mkRamVars None None None)) as H3.
  rewrite H1, H2, H3. simpl. by rewrite !from_option_Some_None.
Qed.

(** X2: the used amount, the free amount and the usage returned by
    [_select_ram_used_free_gb] are each the usable value of the last
    matching sensor of the physical memory: Data sensors named "used", Data
    sensors named "available" or "free", and Load sensors named after the
    memory, its load or its usage.  A sensor whose name contains "virtual"
    never matches. *)
Theorem ram_last_match_wins sensors :
  used_gb (_select_ram_used_free_gb sensors) = last (pool ram_used_sel sensors) ∧
  free_gb (_select_ram_used_free_gb sensors) = last (pool ram_free_sel sensors) ∧
  load_percent (_select_ram_used_free_gb sensors) =
    last (pool ram_usage_sel sensors) ∧
  ∀ e, Py.contains "virtual" (name_of e) = true →
       ram_used_sel e = false ∧ ram_free_sel e = false ∧ ram_usage_sel e = false.
Proof.
  destruct (ram_vars_spec sensors) as (Hu & Hf & Hl).
  split; [done |]. split; [done |]. split; [done |].
  intros e Hv. unfold ram_used_sel, ram_free_sel, ram_usage_sel, ram_sel.
  by rewrite Hv, andb_false_r.
Qed.

(** X3: the CPU clocks are the maximum and the average of one pool, the
    usable Clock values of the CPU whose name starts with "cpu core" or
    "core" or contains "clock"; the two are absent together, when the pool
    is empty.  The selector never raises. *)
Theorem cpu_clocks_selection sensors :
  ∃ max_clock avg_clock,
    _select_cpu_core_clocks sensors = Py.Ok (max_clock, avg_clock) ∧
    max_of (pool cpu_clock_sel sensors) max_clock ∧
    average_of (pool cpu_clock_sel sensors) avg_clock ∧
    (max_clock = None ↔ avg_clock = None).
Proof.
  destruct (select_cpu_core_clocks_spec sensors) as (m & a & Hsel & Hm & Ha).
  exists m, a. repeat split; try done.
  - intros ->. destruct (pool cpu_clock_sel sensors); [done |].
    by destruct Hm as (? & ? & _).
  - intros ->. by destruct (pool cpu_clock_sel sensors).
Qed.

(** X4: the CPU power of the snapshot is the maximum, not the sum, of the
    usable Power values of the CPU whose name contains "package", "cpu",
    "ppt", "socket" or "total", rounded to one decimal; it is absent when
    there is no such value. *)
Theorem cpu_power_is_max sensors now :
  ∃ r snap,
    max_of (pool cpu_power_sel sensors) r ∧
    metrics_of sensors now = Py.Ok snap ∧
    cpu_power_w (cpu snap) = _round_or_none r 1.
Proof.
  destruct (metrics_of_spec sensors)
    as (ca & hs & cl & mc & ac & g & nl & cp & _ & _ & _ & _ & _ & Hcp & Hm).
  destruct (cpu_power_spec sensors) as (r & Hr & Hmax).
  assert (r = cp) as -> by congruence.
  exists cp. eexists. split; [done |]. split; [apply Hm | done].
Qed.

(** X5: the CPU usage is the usable value of the first Load sensor of the
    CPU named "cpu total" or "total" (case and surrounding white space
    apart); without one it is the average of the usable Load values of the
    CPU, and it is absent when there is none.  The selector never raises.
    The white space is the one of [str.strip]: a total named with a
    no-break space after it is found. *)
Theorem cpu_usage_selection :
  (∀ sensors,
     ∃ r, _select_cpu_total_load sensors = Py.Ok r ∧
          match head (pool cpu_total_sel sensors) with
          | Some v => r = Some v
          | None => average_of (pool cpu_load_sel sensors) r
          end) ∧
  _select_cpu_total_load (_collect_sensors [Examples.cpu_total_padded]) =
    Py.Ok (Some 99%float).
Proof.
  split; [| vm_compute; reflexivity]. intros sensors.
  unfold _select_cpu_total_load. rewrite cpu_total_named_spec, cpu_loads_spec.
  destruct (head (pool cpu_total_sel sensors)) as [v|]; [by eexists |].
  destruct (decide (pool cpu_load_sel sensors = [])) as [-> | Hne]; [by eexists |].
  rewrite (proj2 (nonempty_true _) Hne), (some_mean_spec _ Hne).
  eexists. split; [reflexivity |]. by destruct (pool cpu_load_sel sensors).
Qed.

Lemma max_of_None l r : max_of l r → (r = None ↔ l = []).
Proof.
  destruct l; simpl; [by intros -> |].
  intros (m & -> & _). split; discriminate.
Qed.

Lemma average_of_None l r : average_of l r → (r = None ↔ l = []).
Proof. destruct l; simpl; intros ->; split; done || discriminate. Qed.

(** X6: which CPU temperatures are present.  The hotspot is absent exactly
    when the Core, Package and Mainboard-CPU pools are all empty, whatever
    the CCD sensors report; the core temperature is absent exactly when the
    CCD pool is empty as well.  So a hotspot never comes without a core
    temperature, and a processor that reports CCD temperatures only has a
    core temperature and no hotspot. *)
Theorem cpu_temps_presence sensors :
  ∃ core_avg hotspot,
    _select_cpu_temps sensors = Py.Ok (core_avg, hotspot) ∧
    (hotspot = None ↔
     cpu_pool Core sensors = [] ∧ cpu_pool Package sensors = [] ∧
     cpu_pool MainboardCpu sensors = []) ∧
    (core_avg = None ↔
     cpu_pool CCD sensors = [] ∧ cpu_pool Core sensors = [] ∧
     cpu_pool Package sensors = [] ∧ cpu_pool MainboardCpu sensors = []) ∧
    (is_Some hotspot → is_Some core_avg).
Proof.
  destruct (select_cpu_temps_spec sensors) as (ca & hs & Hsel & Hmax & Havg).
  apply max_of_None in Hmax. apply average_of_None in Havg.
  exists ca, hs. split; [done |].
  destruct (cpu_pool CCD sensors), (cpu_pool Core sensors),
    (cpu_pool Package sensors), (cpu_pool MainboardCpu sensors);
    simpl in Hmax, Havg; (split; [| split]);
    try (intros [h ->]; destruct ca as [c|]; [by eexists | exfalso]);
    naive_solver.
Qed.

(** X7: the load, the power and the two clocks of the GPU are the maxima
    of their pools, each absent when its pool is empty: the Load values
    whose name contains "core" or is "gpu core" or "gpu", every Power value
    whatever its name, the Clock values whose name contains "memory", and
    the Clock values whose name contains "core" but not "memory".  No clock
    sensor counts for both clocks. *)
Theorem gpu_load_power_clocks sensors :
  loads (gpu_pools sensors) = pool gpu_load_sel sensors ∧
  powers (gpu_pools sensors) = pool gpu_power_sel sensors ∧
  core_clocks (gpu_pools sensors) = pool gpu_core_clock_sel sensors ∧
  mem_clocks (gpu_pools sensors) = pool gpu_mem_clock_sel sensors ∧
  (∃ g, _select_gpu_metrics sensors = Py.Ok g ∧
        max_of (pool gpu_load_sel sensors) (r_load g) ∧
        max_of (pool gpu_power_sel sensors) (r_power g) ∧
        max_of (pool gpu_core_clock_sel sensors) (r_core_clock g) ∧
        max_of (pool gpu_mem_clock_sel sensors) (r_mem_clock g)) ∧
  (∀ e, gpu_mem_clock_sel e = true → gpu_core_clock_sel e = false) ∧
  (∀ e, gpu_power_sel e = true ↔
        h_HardwareType (parent_of e) ∈
          [GpuNvidia; GpuAti; GpuAmd; GpuAmdRadeon; GpuIntel] ∧
        s_SensorType (sensor_of e) = Power).
Proof.
  rewrite gpu_pools_spec. cbn [loads powers core_clocks mem_clocks].
  repeat (split; [reflexivity |]).
  split; [| split].
  - destruct (select_gpu_metrics_spec sensors) as (g & Hg & _ & _ & H3 & H4 & H5 & H6).
    by exists g.
  - intros e. unfold gpu_mem_clock_sel, gpu_core_clock_sel.
    intros H. apply andb_prop in H as [H Hm]. by rewrite H, Hm.
  - intros e. unfold gpu_power_sel, is_gpu, kind_is.
    by rewrite andb_true_iff, !bool_decide_eq_true.
Qed.

(** ** Each part of the snapshot reads its own devices *)

Lemma pool_filter (P : Entry → bool) sel sensors :
  (∀ e, sel e = true → P e = true) →
  pool sel (filter (λ e, P e = true) sensors) = pool sel sensors.
Proof.
  intros HP. induction sensors as [|e sensors IH]; [done |].
  rewrite filter_cons, (pool_cons sel e sensors).
  destruct (decide (P e = true)) as [He | He].
  - by rewrite pool_cons, IH.
  - rewrite IH. destruct (sel e) eqn:Hs; [| done]. by apply HP in Hs.
Qed.

Lemma cpu_pool_of_kinds c e :
  cpu_pool_of e = Some c → of_kinds [Cpu; Mainboard] e = true.
Proof.
  unfold cpu_pool_of, parent_is, of_kinds. intros H.
  apply bool_decide_eq_true.
  destruct (kind_is Temperature e); [| done].
  repeat case_bool_decide; try done; set_solver.
Qed.

Lemma select_cpu_temps_filter (P : Entry → bool) sensors :
  (∀ e, of_kinds [Cpu; Mainboard] e = true → P e = true) →
  _select_cpu_temps (filter (λ e, P e = true) sensors) = _select_cpu_temps sensors.
Proof.
  intros HP. unfold _select_cpu_temps. rewrite !cpu_temp_pools_spec.
  unfold cpu_pool. rewrite !pool_filter; [done | ..];
    intros e He; apply bool_decide_eq_true in He;
    by eapply HP, cpu_pool_of_kinds.
Qed.

Lemma cpu_sel_kinds e :
  (cpu_load_sel e = true ∨ cpu_total_sel e = true ∨ cpu_clock_sel e = true ∨
   cpu_power_sel e = true) → of_kinds [Cpu; Mainboard] e = true.
Proof.
  unfold cpu_total_sel, cpu_load_sel, cpu_clock_sel, cpu_power_sel, parent_is, of_kinds.
  rewrite !andb_true_iff, !bool_decide_eq_true. set_solver.
Qed.

Lemma gpu_sel_kinds e :
  (is_gpu_temp e = true ∨ gpu_load_sel e = true ∨ gpu_power_sel e = true ∨
   gpu_core_clock_sel e = true ∨ gpu_mem_clock_sel e = true) →
  of_kinds [GpuNvidia; GpuAti; GpuAmd; GpuAmdRadeon; GpuIntel] e = true.
Proof.
  unfold is_gpu_temp, gpu_load_sel, gpu_power_sel, gpu_core_clock_sel,
    gpu_mem_clock_sel, is_gpu, of_kinds.
  rewrite !andb_true_iff, !bool_decide_eq_true. naive_solver.
Qed.

Lemma ram_sel_kinds e :
  (ram_used_sel e = true ∨ ram_free_sel e = true ∨ ram_usage_sel e = true) →
  of_kinds [Memory] e = true.
Proof.
  unfold ram_used_sel, ram_free_sel, ram_usage_sel, ram_sel, parent_is, of_kinds.
  rewrite !andb_true_iff, !bool_decide_eq_true. set_solver.
Qed.

Lemma net_sel_kinds e :
  parent_is Network e && kind_is Load e = true → of_kinds [Network] e = true.
Proof.
  unfold parent_is, of_kinds. rewrite !andb_true_iff, !bool_decide_eq_true.
  set_solver.
Qed.

(** X8: the four parts of the snapshot do not depend on each other's
    devices.  The CPU part is the one computed from the sensors attributed
    to Cpu and Mainboard devices alone, the RAM part from those of Memory
    devices, the GPU part from those of the five GPU kinds and the network
    part from those of Network devices: a sensor of another device never
    changes them. *)
Theorem snapshot_parts_by_device_kind sensors now :
  ∃ snap s_cpu s_ram s_gpu s_net,
    metrics_of sensors now = Py.Ok snap ∧
    metrics_of (filter (λ e, of_kinds [Cpu; Mainboard] e = true) sensors) now =
      Py.Ok s_cpu ∧
    metrics_of (filter (λ e, of_kinds [Memory] e = true) sensors) now =
      Py.Ok s_ram ∧
    metrics_of (filter (λ e, of_kinds [GpuNvidia; GpuAti; GpuAmd; GpuAmdRadeon;
                                       GpuIntel] e = true) sensors) now =
      Py.Ok s_gpu ∧
    metrics_of (filter (λ e, of_kinds [Network] e = true) sensors) now =
      Py.Ok s_net ∧
    cpu s_cpu = cpu snap ∧ ram s_ram = ram snap ∧
    gpu s_gpu = gpu snap ∧ net s_net = net snap.
Proof.
  set (Pc := of_kinds [Cpu; Mainboard]).
  set (Pr := of_kinds [Memory]).
  set (Pg := of_kinds [GpuNvidia; GpuAti; GpuAmd; GpuAmdRadeon; GpuIntel]).
  set (Pn := of_kinds [Network]).
  destruct (metrics_of_spec sensors)
    as (ca & hs & cl & mc & ac & g & nl & cp & E1 & E2 & E3 & E4 & E5 & E6 & Hm).
  destruct (metrics_of_spec (filter (λ e, Pc e = true) sensors))
    as (ca1 & hs1 & cl1 & mc1 & ac1 & g1 & nl1 & cp1 & C1 & C2 & C3 & _ & _ & C6 & Hc).
  destruct (metrics_of_spec (filter (λ e, Pr e = true) sensors))
    as (? & ? & ? & ? & ? & ? & ? & ? & _ & _ & _ & _ & _ & _ & Hr).
  destruct (metrics_of_spec (filter (λ e, Pg e = true) sensors))
    as (? & ? & ? & ? & ? & g3 & ? & ? & _ & _ & _ & G4 & _ & _ & Hg).
  destruct (metrics_of_spec (filter (λ e, Pn e = true) sensors))
    as (? & ? & ? & ? & ? & ? & nl4 & ? & _ & _ & _ & _ & N5 & _ & Hn).
  eexists _, _, _, _, _.
  split; [apply Hm |]. split; [apply Hc |]. split; [apply Hr |].
  split; [apply Hg |]. split; [apply Hn |].
  cbn [cpu ram gpu net].
  split; [| split; [| split]].
  - rewrite select_cpu_temps_filter in C1 by done.
    unfold _select_cpu_total_load in C2, E2.
    rewrite !cpu_total_named_spec, !cpu_loads_spec in C2, E2.
    rewrite !pool_filter in C2 by (intros e He; apply cpu_sel_kinds; auto).
    unfold _select_cpu_core_clocks in C3, E3. rewrite !cpu_clocks_spec in C3, E3.
    rewrite !pool_filter in C3 by (intros e He; apply cpu_sel_kinds; auto).
    unfold cpu_power in C6, E6. rewrite !cpu_powers_spec in C6, E6.
    rewrite !pool_filter in C6 by (intros e He; apply cpu_sel_kinds; auto).
    rewrite E1 in C1. rewrite E2 in C2. rewrite E3 in C3. rewrite E6 in C6.
    by simplify_eq.
  - destruct (ram_vars_spec sensors) as (-> & -> & ->).
    destruct (ram_vars_spec (filter (λ e, Pr e = true) sensors)) as (-> & -> & ->).
    by rewrite !pool_filter by (intros e He; apply ram_sel_kinds; auto).
  - unfold _select_gpu_metrics in G4, E4. rewrite !gpu_pools_spec in G4, E4.
    unfold gpu_core_pool, gpu_hotspot_pool in G4, E4.
    rewrite !(pool_filter Pg) in G4
      by (intros e He; apply gpu_sel_kinds;
          first [ by auto 6
                | apply andb_prop in He as [He _]; by left ]).
    rewrite E4 in G4. by simplify_eq.
  - unfold net_load in N5, E5. rewrite !net_load_values_spec in N5, E5.
    unfold net_pool in N5, E5.
    rewrite pool_filter in N5 by apply net_sel_kinds.
    rewrite E5 in N5. by simplify_eq.
Qed.

(** ** The flattened sensor list *)

Lemma length_flat_map_sum {A B} (f : A → list B) (l : list A) :
  length (flat_map f l) = sum_list (map (λ x, length (f x)) l).
Proof.
  induction l as [|x l IH]; [done |]. simpl. by rewrite length_app, IH.
Qed.

(** X9: what [_collect_sensors] collects.  An entry (hardware, sensor,
    parent) is in the list exactly when the parent is a device of the
    computer, the hardware is the parent or one of its direct sub-devices,
    and the sensor is one of the hardware's; so the sensor of a sub-device
    is attributed to the top-level device, and the sensors of deeper
    sub-devices are not collected.  The list has one entry for each such
    sensor. *)
Theorem collect_sensors_spec computer :
  (∀ hardware sensor parent,
     (hardware, sensor, parent) ∈ _collect_sensors computer ↔
     parent ∈ computer ∧
     (hardware = parent ∨ hardware ∈ h_SubHardware parent) ∧
     sensor ∈ h_Sensors hardware) ∧
  length (_collect_sensors computer) = reachable_sensors computer.
Proof.
  split.
  - intros hardware sensor parent. unfold _collect_sensors. split.
    + intros Hin. apply list_elem_of_In, in_flat_map in Hin as (h & Hh & Hin).
      apply list_elem_of_In in Hh.
      apply in_app_iff in Hin as [Hin | Hin].
      * apply in_map_iff in Hin as (s & [= <- <- <-] & Hs).
        apply list_elem_of_In in Hs. auto.
      * apply in_flat_map in Hin as (sub & Hsub & Hin).
        apply in_map_iff in Hin as (s & [= <- <- <-] & Hs).
        apply list_elem_of_In in Hs, Hsub. auto.
    + intros (Hp & Hhw & Hs). apply list_elem_of_In, in_flat_map.
      exists parent. split; [by apply list_elem_of_In |].
      apply list_elem_of_In in Hs.
      apply in_app_iff. destruct Hhw as [-> | Hsub].
      * left. apply in_map_iff. by exists sensor.
      * right. apply in_flat_map. exists hardware.
        split; [by apply list_elem_of_In |]. apply in_map_iff. by exists sensor.
  - unfold _collect_sensors, reachable_sensors.
    rewrite length_flat_map_sum. f_equal. apply map_ext. intros h.
    rewrite length_app, length_map, length_flat_map_sum. f_equal. f_equal.
    apply map_ext. intros sub. by rewrite length_map.
Qed.

(** ** The snapshot and the device tree *)

Lemma fold_left_readings {S} (step : S → Entry → S) :
  (∀ p e, step p e = step p (entry_of (reading e))) →
  ∀ sensors init,
    fold_left step sensors init =
    fold_left step (map entry_of (map reading sensors)) init.
Proof.
  intros Hstep sensors. induction sensors as [|e sensors IH]; intros init; [done |].
  simpl. by rewrite <- IH, <- Hstep.
Qed.

Local Ltac by_reading :=
  apply fold_left_readings; intros ? [[? ?] [? ? ?]]; reflexivity.

Lemma cpu_total_named_readings sensors :
  cpu_total_named sensors = cpu_total_named (map entry_of (map reading sensors)).
Proof.
  induction sensors as [|[[hw s] [k ss sub]] sensors IH]; [done |].
  simpl. rewrite <- IH. reflexivity.
Qed.

Lemma metrics_of_readings sensors now :
  metrics_of sensors now = metrics_of (map entry_of (map reading sensors)) now.
Proof.
  unfold metrics_of, _select_cpu_temps, _select_cpu_total_load,
    _select_cpu_core_clocks, _select_gpu_metrics, net_load, cpu_power.
  replace (cpu_temp_pools (map entry_of (map reading sensors)))
    with (cpu_temp_pools sensors) by (unfold cpu_temp_pools; by_reading).
  rewrite <- cpu_total_named_readings.
  replace (cpu_loads (map entry_of (map reading sensors)))
    with (cpu_loads sensors) by (unfold cpu_loads; by_reading).
  replace (cpu_clocks (map entry_of (map reading sensors)))
    with (cpu_clocks sensors) by (unfold cpu_clocks; by_reading).
  replace (_select_ram_used_free_gb (map entry_of (map reading sensors)))
    with (_select_ram_used_free_gb sensors)
    by (unfold _select_ram_used_free_gb; by_reading).
  replace (gpu_pools (map entry_of (map reading sensors)))
    with (gpu_pools sensors) by (unfold gpu_pools; by_reading).
  replace (net_load_values (map entry_of (map reading sensors)))
    with (net_load_values sensors) by (unfold net_load_values; by_reading).
  replace (cpu_powers (map entry_of (map reading sensors)))
    with (cpu_powers sensors) by (unfold cpu_powers; by_reading).
  reflexivity.
Qed.

(** X23: the snapshot depends on the device tree only through the list of
    its readings, each the sensor (name, kind and value) with the kind of
    the top-level device it is attributed to: two trees that give the same
    readings in the same order give the same snapshot, the time stamp
    apart, whatever else differs in them (a sensor on a device or on one of
    its sub-devices, the kind of the sub-device, what lies deeper). *)
Theorem snapshot_depends_on_readings computer1 computer2 t1 t2 :
  map reading (_collect_sensors computer1) =
  map reading (_collect_sensors computer2) →
  ∃ c r g n,
    read_metrics (mkWorld computer1 t1) = Py.Ok (mkSnapshot c r g n t1) ∧
    read_metrics (mkWorld computer2 t2) = Py.Ok (mkSnapshot c r g n t2).
Proof.
  intros H. unfold read_metrics. cbn [computer clock].
  rewrite (metrics_of_readings (_collect_sensors computer1)),
    (metrics_of_readings (_collect_sensors computer2)), <- H.
  destruct (metrics_of_spec (map entry_of (map reading (_collect_sensors computer1))))
    as (ca & hs & cl & mc & ac & g & nl & cp & _ & _ & _ & _ & _ & _ & Hm).
  eexists _, _, _, _. split; apply Hm.
Qed.

(** The sensors on the processor, read at one time, and the same sensors on
    a sub-device of it, read at another. *)
Lemma snapshot_depends_on_readings_witness :
  ∃ c r g n,
    read_metrics (mkWorld [Examples.sensors_on_device] 1) =
      Py.Ok (mkSnapshot c r g n 1) ∧
    read_metrics (mkWorld [Examples.sensors_on_sub_device] 2) =
      Py.Ok (mkSnapshot c r g n 2).
Proof. apply snapshot_depends_on_readings. reflexivity. Defined.

End Selectors.

(* ===================================================================== *)
(** * The interval, written and read back *)
(* ===================================================================== *)

Section FormatParse.
Import Config ConfigSpec.

(** ** Decimal digits *)








(** ** Reading what [pretty] prints *)







(** ** Plain text *)






(** ** The fraction digits *)


(** ** White space around the text *)





(** ** [float] of the text written by the [.3f] format *)





End FormatParse.

(* ===================================================================== *)
(** * Further properties of the UI configuration *)
(* ===================================================================== *)

Section Persistence.
Import Config ConfigSpec.

(** ** Interpolation depends on the chain of the section alone *)

Lemma interpolate_some_ext r1 r2 :
  (∀ x, r1 x = r2 x) →
  ∀ n s, (String.length s ≤ n)%nat →
  ∀ name, interpolate_some r1 name s = interpolate_some r2 name s.
Proof.
  intros Hr n. induction n as [|n IH]; intros s Hn name.
  - destruct s; [by destruct name | simpl in Hn; lia].
  - destruct s as [|c s]; [by destruct name |]. simpl in Hn.
    destruct name as [acc|]; cbn [interpolate_some].
    + destruct (Ascii.eqb c ")"); [| apply IH; lia].
      destruct acc; [done |]. destruct s as [|c' s']; [done |]. simpl in Hn.
      destruct (Ascii.eqb c' "s"); [| done].
      by rewrite Hr, (IH s' ltac:(lia) None).
    + destruct (Ascii.eqb c "%").
      * destruct s as [|c' s']; [done |]. simpl in Hn.
        destruct (Ascii.eqb c' "%"); [by rewrite (IH s' ltac:(lia) None) |].
        destruct (Ascii.eqb c' "("); [apply IH; lia | done].
      * by rewrite (IH s ltac:(lia) None).
Qed.

Lemma interpolate_ext map1 map2 depth value :
  (∀ x, map1 x = map2 x) →
  interpolate depth map1 value = interpolate depth map2 value.
Proof.
  intros Hmap. revert value. induction depth as [|depth IH]; intros value; [done |].
  cbn [interpolate]. apply (interpolate_some_ext _ _) with (n := String.length value);
    [| done].
  intros x. rewrite Hmap. destruct (map2 _); [| done].
  by rewrite IH.
Qed.

Lemma cfg_get_ext cfg1 cfg2 section option fallback :
  (∀ x, chain_lookup cfg1 section x = chain_lookup cfg2 section x) →
  cfg_get cfg1 section option fallback = cfg_get cfg2 section option fallback.
Proof.
  intros Hc. unfold cfg_get. rewrite Hc.
  destruct (chain_lookup cfg2 section option); [| done].
  by apply interpolate_ext.
Qed.

(** ** A stray percent sign *)

(** A [%] that is followed neither by a [%] nor by a [(]. *)
Lemma interpolate_some_stray resolve a rest :
  Py.contains "%" a = false →
  Py.startswith rest "%" = false → Py.startswith rest "(" = false →
  interpolate_some resolve None (a +:+ String "%" rest) =
  Py.Raise Py.ConfigParserError.
Proof.
  intros Ha H1 H2. induction a as [|c a IH].
  - change ("" +:+ String "%" rest)%string with (String "%" rest).
    cbn [interpolate_some]. change (Ascii.eqb "%" "%") with true. cbv iota.
    destruct rest as [|c' r']; [done |].
    cbn [Py.startswith] in H1, H2. rewrite andb_true_r in H1, H2.
    rewrite Ascii.eqb_sym in H1. rewrite Ascii.eqb_sym in H2. by rewrite H1, H2.
  - rewrite contains_percent_cons in Ha. apply orb_false_iff in Ha as [Hc Ha].
    change (String c a +:+ String "%" rest)%string
      with (String c (a +:+ String "%" rest)%string).
    cbn [interpolate_some]. by rewrite Hc, IH.
Qed.

(** ** The canonical order *)

(** X10: [_normalize_order] leaves a complete order as it is: a list that
    holds every canonical key once is returned unchanged, so normalizing
    twice is normalizing once.  A list without any recognized key, the
    empty list among them, gives the default order.  The result always has
    sixteen keys. *)
Theorem normalize_order_stable :
  (∀ l, l ≡ₚ SENSOR_KEYS_DEFAULT → _normalize_order l = l) ∧
  (∀ o, _normalize_order (_normalize_order o) = _normalize_order o) ∧
  (∀ o, (∀ k, k ∈ o → canonical k ∉ SENSOR_KEYS_DEFAULT) →
        _normalize_order o = SENSOR_KEYS_DEFAULT) ∧
  _normalize_order [] = SENSOR_KEYS_DEFAULT ∧
  (∀ o, length (_normalize_order o) = 16%nat).
Proof.
  split; [| split; [| split; [| split]]].
  - intros l Hl. apply normalize_order_fixed.
    + rewrite Hl. apply NoDup_SENSOR_KEYS_DEFAULT.
    + intros k. by rewrite Hl.
  - intros o. apply normalize_order_fixed;
      [apply NoDup_normalize_order | apply elem_of_normalize_order].
  - intros o Hnone. rewrite normalize_order_spec.
    assert (Hrec : recognized o = []).
    { unfold recognized. rewrite filter_none; [done |].
      intros k Hk. apply list_elem_of_fmap in Hk as (k' & -> & Hk').
      by apply Hnone. }
    unfold missing. rewrite Hrec. simpl. apply filter_id.
    intros k _. apply not_elem_of_nil.
  - vm_compute. reflexivity.
  - intros o. by rewrite (normalize_order_Permutation o).
Qed.

(** ** A missing or unusable file *)

Lemma chain_lookup_None cfg section name :
  chain_lookup cfg section name = None →
  (cfg !! section) ≫= (λ sec, sec !! name) = None.
Proof. unfold chain_lookup. by destruct (_ ≫= _). Qed.

Lemma has_section_ui cfg sec : cfg !! "ui" = Some sec → has_section cfg "ui" = true.
Proof. intros H. unfold has_section. rewrite H. by apply bool_decide_eq_true. Qed.

Lemma load_no_interval : Py.try_except
           (s ← Py.Ok "1.0"; v ← Py.float_of_string s; Py.Ok (Py.max2 0.05 v)) 1%float = 1%float.
Proof. vm_compute. reflexivity. Qed.

(** X11: [load_ui_config] falls back to the defaults.  Without a file,
    with a file that cannot be parsed, or with one that has no [ui] section,
    it returns the default order and an interval of 1 s.  With a [ui]
    section, an [order] that neither [ui] nor [DEFAULT] has gives the default
    order, and an interval that neither has gives 1 s; an interval whose
    text is not the text of a number gives 1 s and leaves the order of the
    file in force; an order whose text has a [%] followed by neither [%] nor
    [(] is an interpolation error and gives both defaults, whatever the
    interval of the file.  An option that [ui] lacks and [DEFAULT] has counts
    as an option of [ui]. *)
Theorem load_falls_back_to_defaults :
  (∀ w, load_ui_config (mkFileSystem NoFile w) = UI_CONFIG_default) ∧
  (∀ w, load_ui_config (mkFileSystem Malformed w) = UI_CONFIG_default) ∧
  (∀ cfg w, cfg !! "ui" = None →
            load_ui_config (mkFileSystem (Ini cfg) w) = UI_CONFIG_default) ∧
  (∀ cfg w,
     has_section cfg "ui" = true →
     let c := load_ui_config (mkFileSystem (Ini cfg) w) in
     (chain_lookup cfg "ui" "order" = None → order c = SENSOR_KEYS_DEFAULT) ∧
     (chain_lookup cfg "ui" "update_interval_sec" = None →
      update_interval_sec c = 1%float) ∧
     (∀ order_str s e,
        cfg_get cfg "ui" "order" "," = Py.Ok order_str →
        cfg_get cfg "ui" "update_interval_sec" "1.0" = Py.Ok s →
        Py.float_of_string s = Py.Raise e →
        c = mkUiConfig (_normalize_order (order_list_of order_str)) 1) ∧
     (∀ a rest,
        chain_lookup cfg "ui" "order" = Some (a +:+ String "%" rest)%string →
        Py.contains "%" a = false →
        Py.startswith rest "%" = false → Py.startswith rest "(" = false →
        c = UI_CONFIG_default)) ∧
  (∀ cfg w sec name v,
     cfg !! "ui" = Some sec → sec !! name = None →
     (cfg !! "DEFAULT") ≫= (λ d, d !! name) = Some v →
     load_ui_config (mkFileSystem (Ini cfg) w) =
     load_ui_config (mkFileSystem (Ini (cfg_set cfg "ui" name v)) w)).
Proof.
  split; [done |]. split; [done |]. split; [| split].
  - intros cfg w Hui. unfold load_ui_config, has_section. cbn [config_file].
    rewrite Hui. by rewrite bool_decide_eq_false_2 by (by intros [? ?]).
  - intros cfg w Hsec c. subst c. rewrite load_ui_section by done.
    split; [| split; [| split]].
    + intros Hnone. rewrite (cfg_get_fallback _ _ _ _ Hnone). vm_compute. reflexivity.
    + intros Hnone. destruct (cfg_get cfg "ui" "order" ","); [| done].
      rewrite (cfg_get_fallback _ _ _ _ Hnone). cbn [update_interval_sec].
      apply load_no_interval.
    + intros order_str s e -> -> Hf.
      cbn [mbind result_bind Py.bind]. by rewrite Hf.
    + intros a rest Ho Ha H1 H2. unfold cfg_get. rewrite Ho.
      cbn [MAX_INTERPOLATION_DEPTH interpolate].
      by rewrite interpolate_some_stray.
  - intros cfg w sec name v Hui Hname Hdef.
    assert (Hchain : ∀ x, chain_lookup cfg "ui" x =
                          chain_lookup (cfg_set cfg "ui" name v) "ui" x).
    { intros x. unfold chain_lookup, cfg_set. rewrite lookup_insert_eq, Hui.
      rewrite lookup_insert_ne by done. cbn [mbind option_bind default].
      destruct (decide (x = name)) as [-> | Hne].
      - by rewrite lookup_insert_eq, Hname, Hdef.
      - by rewrite lookup_insert_ne. }
    rewrite !load_ui_section
      by (try apply cfg_set_has_section; by eapply has_section_ui).
    rewrite (cfg_get_ext _ _ _ "order" _ Hchain).
    by rewrite (cfg_get_ext _ _ _ "update_interval_sec" _ Hchain).
Qed.

(** ** The interval never falls below its floor *)

Lemma max2_floor_leb v : PrimFloat.leb 0.05 (Py.max2 0.05 v) = true.
Proof.
  unfold Py.max2, Py.gt. destruct (PrimFloat.ltb 0.05 v) eqn:E.
  - by apply ltb_leb.
  - by apply leb_refl.
Qed.

Lemma load_valid files : valid_config (load_ui_config files).
Proof.
  split; [apply load_order_Permutation |].
  unfold load_ui_config. destruct (config_file files) as [| |cfg]; [done | done |].
  destruct (has_section cfg "ui"); [| done].
  destruct (cfg_get cfg "ui" "order" ","); [| done]. cbn [update_interval_sec].
  destruct (cfg_get cfg "ui" "update_interval_sec" "1.0") as [s|]; [| done].
  cbn [mbind result_bind Py.bind].
  destruct (Py.float_of_string s); simpl; [apply max2_floor_leb | done].
Qed.

Lemma config_view_valid repr st request :
  valid_config (UI_CONFIG st) →
  valid_config (UI_CONFIG (config_view repr st request).2).
Proof.
  intros [Ho Hi]. split; [by apply config_view_order_Permutation |].
  unfold config_view.
  destruct (String.eqb (method request) "GET"); [done |].
  destruct (payload_of (body request)) as [[| | | | | |members]|]; try done.
  assert (Hint : PrimFloat.leb 0.05
    match obj_get members "update_interval_sec" with
    | None | Some JNull => update_interval_sec (UI_CONFIG st)
    | Some v =>
        Py.try_except (f ← py_float v; Py.Ok (Py.max2 0.05 f))
          (update_interval_sec (UI_CONFIG st))
    end = true).
  { destruct (obj_get members "update_interval_sec") as [v|]; [| done].
    destruct v; try done; simpl; try apply max2_floor_leb.
    - destruct (Py.float_of_int z); simpl; [apply max2_floor_leb | done].
    - destruct (Py.float_of_string s); simpl; [apply max2_floor_leb | done]. }
  destruct (save_ui_config _ _ _); exact Hint.
Qed.

(** X12: in every state the server can reach, from whatever file it
    started on and whatever requests and outside changes of the file
    followed, the configuration in memory is valid: the order holds every
    canonical key once and the interval is at least 0.05 (and so is not
    NaN).  A GET request is answered with that configuration. *)
Theorem config_always_valid repr st :
  reachable repr st →
  valid_config (UI_CONFIG st) ∧
  ∃ o i, (config_view repr st (mkRequest "GET" BodyEmpty)).1 =
           Py.Ok (ConfigResponse o i) ∧
         valid_config (mkUiConfig o i).
Proof.
  intros Hreach.
  assert (Hvalid : valid_config (UI_CONFIG st)).
  { induction Hreach as [files | st request _ IH | st files _ IH].
    - apply load_valid.
    - by apply config_view_valid.
    - exact IH. }
  split; [done |]. eexists _, _. split; [reflexivity |]. by destruct Hvalid.
Qed.

(** A server started without a file, after a write that asks for an
    interval of zero. *)
Lemma config_always_valid_witness :
  let st := (config_view Examples.repr_stub (main (mkFileSystem NoFile true))
               (Examples.post [("update_interval_sec", JInt 0)])).2 in
  valid_config (UI_CONFIG st) ∧
  ∃ o i, (config_view Examples.repr_stub st (mkRequest "GET" BodyEmpty)).1 =
           Py.Ok (ConfigResponse o i) ∧
         valid_config (mkUiConfig o i).
Proof.
  apply config_always_valid. apply reachable_request, reachable_main.
Defined.

(** ** What a save leaves alone *)

(** X13: [save_ui_config] rewrites the file from what it reads of it: every
    section other than [ui] and every option of [ui] other than [order] and
    [update_interval_sec] is written back as it was, and an argument that is
    [None] leaves its option as it was.  A file that is absent or cannot be
    parsed is replaced by one that has the [ui] section alone. *)
Theorem save_keeps_other_content o i f :
  ∃ cfg',
    save_ui_config o i (mkFileSystem f true) =
      Py.Ok (mkFileSystem (Ini cfg') true) ∧
    (∀ section, section ≠ "ui" →
       cfg' !! section = cfg_read_or_empty f !! section) ∧
    (∀ name, name ≠ "order" → name ≠ "update_interval_sec" →
       (cfg' !! "ui") ≫= (λ sec, sec !! name) = persisted_option f name) ∧
    (o = None →
       (cfg' !! "ui") ≫= (λ sec, sec !! "order") = persisted_option f "order") ∧
    (i = None →
       (cfg' !! "ui") ≫= (λ sec, sec !! "update_interval_sec") =
       persisted_option f "update_interval_sec") ∧
    ((f = NoFile ∨ f = Malformed) → dom cfg' = {[ "ui" ]}).
Proof.
  eexists. split; [reflexivity |]. cbn [config_file].
  unfold cfg_to_save, persisted_option, cfg_set, has_section.
  set (cfg0 := cfg_read_or_empty f).
  assert (Hui : ∀ name,
    ((if bool_decide (is_Some (cfg0 !! "ui")) then cfg0 else <["ui":=∅]> cfg0)
       !! "ui") ≫= (λ sec, sec !! name) = (cfg0 !! "ui") ≫= (λ sec, sec !! name)).
  { intros name. case_bool_decide as Hs; [done |].
    rewrite lookup_insert_eq. simpl. rewrite lookup_empty.
    destruct (cfg0 !! "ui") eqn:E; [| done]. exfalso. apply Hs. by eexists. }
  split; [| split; [| split; [| split]]].
  - intros section Hne.
    destruct o, i; rewrite ?lookup_insert_ne by done;
      case_bool_decide; by rewrite ?lookup_insert_ne by done.
  - intros name Hn1 Hn2. rewrite <- Hui.
    destruct o, i; rewrite ?lookup_insert_eq; simpl;
      rewrite ?lookup_insert_ne by done; rewrite ?lookup_insert_eq; simpl;
      rewrite ?lookup_insert_ne by done;
      by destruct (_ !! "ui").
  - intros ->. rewrite <- Hui.
    destruct i; [| done]. rewrite lookup_insert_eq. simpl.
    rewrite lookup_insert_ne by done. by destruct (_ !! "ui").
  - intros ->. rewrite <- Hui. destruct o; [| done].
    rewrite lookup_insert_eq. simpl.
    rewrite lookup_insert_ne by done. by destruct (_ !! "ui").
  - intros Hf.
    assert (cfg0 = ∅) as -> by (by destruct Hf as [-> | ->]).
    rewrite lookup_empty. rewrite bool_decide_eq_false_2 by (by intros [? ?]).
    destruct o, i; rewrite ?dom_insert_L, ?dom_empty_L; set_solver.
Qed.

(** ** The interval read back *)




(** ** A restart after a write *)




(** ** A write that cannot be saved *)



(** ** The answers of [config_view] *)


(** ** Writing twice *)





End Persistence.

(* ===================================================================== *)
(** * The metrics view *)
(* ===================================================================== *)

Section MetricsView.
Import Reader Server.

(** X19: [metrics_json] answers with a 500 and the message
    "LibreHardwareMonitor not initialized" when the reader was not created;
    with a reader it always answers with the snapshot of [read_metrics],
    stamped with the time of the call: the view never raises. *)
Theorem metrics_json_answers :
  metrics_json None =
    Py.Ok (MetricsError 500 "LibreHardwareMonitor not initialized") ∧
  ∀ reader, ∃ data,
    read_metrics (hw reader) = Py.Ok data ∧
    metrics_json (Some reader) = Py.Ok (MetricsData data) ∧
    timestamp data = clock (hw reader).
Proof.
  split; [reflexivity |]. intros [w].
  unfold metrics_json, Composite_read_metrics, read_metrics. cbn [hw].
  destruct (metrics_of_spec (_collect_sensors (computer w)))
    as (ca & hs & cl & mc & ac & g & nl & cp & _ & _ & _ & _ & _ & _ & Hm).
  rewrite Hm. eexists. split; [reflexivity |]. split; reflexivity.
Qed.

End MetricsView.

(* ===================================================================== *)
(** * The order of the tiles on the page *)
(* ===================================================================== *)

Section Tiles.
Import Config Page.

(** ** The map from keys to elements *)

Lemma key_map_snoc grid el :
  key_map (grid ++ [el]) = <[ data_key el := el ]> (key_map grid).
Proof. unfold key_map. by rewrite foldl_app. Qed.

Lemma key_map_Some grid k el :
  key_map grid !! k = Some el → el ∈ grid ∧ data_key el = k.
Proof.
  induction grid as [|x grid IH] using rev_ind;
    [unfold key_map; simpl; by rewrite lookup_empty |].
  rewrite key_map_snoc. destruct (decide (data_key x = k)) as [<- | Hne].
  - rewrite lookup_insert_eq. intros [= <-]. split; [set_solver | done].
  - rewrite lookup_insert_ne by done. intros H. apply IH in H. set_solver.
Qed.

Lemma key_map_elem grid el :
  NoDup (map data_key grid) → el ∈ grid →
  key_map grid !! data_key el = Some el.
Proof.
  induction grid as [|x grid IH] using rev_ind; [set_solver |].
  rewrite map_app, key_map_snoc. intros Hnd Hel.
  apply NoDup_app in Hnd as (Hnd & Hx & _).
  apply elem_of_app in Hel as [Hel | Hel].
  - rewrite lookup_insert_ne; [by apply IH |].
    intros Heq. apply (Hx (data_key el)).
    + apply list_elem_of_fmap. by exists el.
    + rewrite <- Heq. set_solver.
  - apply list_elem_of_singleton in Hel as ->. apply lookup_insert_eq.
Qed.

(** ** Moving one element to the end *)

Lemma appendChild_keys g el :
  NoDup (map data_key g) → el ∈ g →
  map data_key (appendChild g el) =
  filter (λ k, k ≠ data_key el) (map data_key g) ++ [data_key el].
Proof.
  intros Hnd Hel. unfold appendChild. rewrite map_app. f_equal.
  induction g as [|x g IH]; [done |].
  cbn [map] in Hnd. apply NoDup_cons in Hnd as [Hx Hnd].
  rewrite !filter_cons. cbn [map]. rewrite filter_cons.
  destruct (decide (x = el)) as [-> | Hne].
  - rewrite decide_False by (by intros H; apply H).
    rewrite decide_False by (by intros H; apply H).
    clear IH Hel. induction g as [|y g IH]; [done |].
    cbn [map] in Hx, Hnd |- *. apply NoDup_cons in Hnd as [_ Hnd].
    apply not_elem_of_cons in Hx as [Hy Hx].
    rewrite !filter_cons.
    rewrite decide_True by (intros ->; done).
    rewrite decide_True by done. cbn [map]. f_equal. by apply IH.
  - apply elem_of_cons in Hel as [-> | Hel]; [done |].
    assert (Hk : data_key x ≠ data_key el).
    { intros Heq. apply Hx. rewrite Heq. apply list_elem_of_fmap. by exists el. }
    rewrite !decide_True by done. cbn [map]. f_equal. by apply IH.
Qed.

Lemma appendChild_elem g el x :
  el ∈ g → x ∈ appendChild g el ↔ x ∈ g.
Proof.
  intros Hel. unfold appendChild.
  rewrite elem_of_app, list_elem_of_filter, list_elem_of_singleton.
  destruct (decide (x = el)) as [-> | Hne]; naive_solver.
Qed.

(** ** The loop of [applyOrder] *)

Lemma filter_iff_in (P Q : string → Prop) `{∀ x, Decision (P x)}
    `{∀ x, Decision (Q x)} (l : list string) :
  (∀ x, x ∈ l → P x ↔ Q x) → filter P l = filter Q l.
Proof.
  induction l as [|a l IH]; intros Hiff; [done |].
  rewrite !filter_cons.
  assert (Ha : P a ↔ Q a) by (apply Hiff; left).
  rewrite IH by (intros x Hx; apply Hiff; by right).
  destruct (decide (P a)), (decide (Q a)); naive_solver.
Qed.

Lemma applyOrder_loop grid : ∀ order g,
  NoDup (map data_key grid) → NoDup order →
  NoDup (map data_key g) → (∀ x, x ∈ g ↔ x ∈ grid) →
  map data_key
    (foldl (λ g key, match key_map grid !! key with
                     | Some el => appendChild g el
                     | None => g
                     end) g order) =
  filter (λ k, k ∉ order) (map data_key g) ++
  filter (λ k, k ∈ map data_key grid) order.
Proof.
  intros order. induction order as [|k order IH]; intros g Hgrid Hord Hg Hmem.
  - simpl. rewrite app_nil_r. symmetry. apply filter_id. set_solver.
  - apply NoDup_cons in Hord as [Hk Hord]. cbn [foldl].
    assert (Hkeys : ∀ key, key ∈ map data_key g ↔ key ∈ map data_key grid).
    { intros key. rewrite !list_elem_of_fmap. naive_solver. }
    destruct (key_map grid !! k) as [el|] eqn:Hlook.
    + apply key_map_Some in Hlook as [Hel <-].
      assert (Hel' : el ∈ g) by by apply Hmem.
      rewrite IH; [| done | done | |].
      * rewrite appendChild_keys by done.
        rewrite filter_app, list_filter_filter, filter_cons, filter_nil.
        rewrite decide_True by done.
        rewrite (filter_cons _ (data_key el)), decide_True
          by (apply list_elem_of_fmap; by exists el).
        rewrite <- app_assoc. cbn [app]. f_equal.
        apply list_filter_iff. intros key. rewrite not_elem_of_cons. naive_solver.
      * rewrite appendChild_keys by done.
        apply NoDup_app. split; [by apply NoDup_filter |].
        split; [| apply NoDup_singleton].
        intros key Hin. apply list_elem_of_filter in Hin as [Hne _].
        by rewrite list_elem_of_singleton.
      * intros x. rewrite appendChild_elem by done. apply Hmem.
    + assert (Hnot : k ∉ map data_key grid).
      { intros Hin. apply list_elem_of_fmap in Hin as (el & -> & Hel).
        by rewrite key_map_elem in Hlook. }
      rewrite IH by done. rewrite filter_cons, decide_False by done. f_equal.
      apply filter_iff_in. intros key Hin.
      rewrite not_elem_of_cons. split; [| naive_solver].
      intros Hno. split; [| done]. intros ->. by apply Hnot, Hkeys.
Qed.

Lemma applyOrder_keys grid order :
  NoDup (map data_key grid) → NoDup order →
  getCurrentOrder (applyOrder grid order) =
  filter (λ k, k ∉ order) (getCurrentOrder grid) ++
  filter (λ k, k ∈ getCurrentOrder grid) order.
Proof.
  intros Hgrid Hord. unfold getCurrentOrder, applyOrder.
  by apply applyOrder_loop.
Qed.

(** X20: [applyOrder] with an order that has no repetition moves the tiles
    it names to the end of the grid, in the order given, and keeps the
    others in front as they were; a key that no tile has is ignored.  (The
    keys of the tiles are distinct, as they are in the markup.) *)
Theorem applyOrder_spec grid order :
  NoDup (getCurrentOrder grid) → NoDup order →
  getCurrentOrder (applyOrder grid order) =
  filter (λ k, k ∉ order) (getCurrentOrder grid) ++
  filter (λ k, k ∈ getCurrentOrder grid) order.
Proof. apply applyOrder_keys. Qed.

(** The grid of the markup, with an order that names two tiles and an
    unknown key. *)
Lemma applyOrder_spec_witness :
  getCurrentOrder (applyOrder initial_grid ["gpu_power"; "bogus"; "cpu_usage"]) =
  filter (λ k, k ∉ ["gpu_power"; "bogus"; "cpu_usage"])
    (getCurrentOrder initial_grid) ++
  filter (λ k, k ∈ getCurrentOrder initial_grid) ["gpu_power"; "bogus"; "cpu_usage"].
Proof.
  apply applyOrder_spec; apply (bool_decide_unpack _); vm_compute; exact I.
Defined.

(** ** The page and the server agree on the order *)

Lemma grid_keys_Permutation : getCurrentOrder initial_grid ≡ₚ SENSOR_KEYS_DEFAULT.
Proof.
  apply NoDup_Permutation.
  - apply (bool_decide_unpack _). vm_compute. exact I.
  - apply NoDup_SENSOR_KEYS_DEFAULT.
  - intros k. split; intros Hk.
    + revert k Hk. apply Forall_forall.
      apply (bool_decide_unpack _). vm_compute. exact I.
    + revert k Hk. apply Forall_forall.
      apply (bool_decide_unpack _). vm_compute. exact I.
Qed.

Lemma applyOrder_complete grid order :
  NoDup (getCurrentOrder grid) → order ≡ₚ getCurrentOrder grid →
  getCurrentOrder (applyOrder grid order) = order.
Proof.
  intros Hnd Hperm. rewrite applyOrder_keys; [| done | by rewrite Hperm].
  rewrite filter_none by (intros k Hk; rewrite Hperm; naive_solver).
  apply filter_id. intros k Hk. by rewrite <- Hperm.
Qed.

(** X21: the page and the server agree on the tiles and on their order.
    The keys of the tiles of the markup are the canonical keys of the
    server, each once.  Whatever order the server holds, [applyOrder] puts
    the tiles in exactly that order.  And whatever arrangement of the tiles
    the page sends, the server stores it unchanged, so the page shows the
    same arrangement when it is loaded again. *)
Theorem page_shows_stored_order :
  getCurrentOrder initial_grid ≡ₚ SENSOR_KEYS_DEFAULT ∧
  (∀ o, getCurrentOrder (applyOrder initial_grid (_normalize_order o)) =
        _normalize_order o) ∧
  (∀ grid,
     grid ≡ₚ initial_grid →
     _normalize_order (getCurrentOrder grid) = getCurrentOrder grid ∧
     getCurrentOrder
       (applyOrder initial_grid (_normalize_order (getCurrentOrder grid))) =
     getCurrentOrder grid).
Proof.
  pose proof grid_keys_Permutation as Hkeys.
  assert (Hnd : NoDup (getCurrentOrder initial_grid))
    by (rewrite Hkeys; apply NoDup_SENSOR_KEYS_DEFAULT).
  assert (Hshow : ∀ o, getCurrentOrder (applyOrder initial_grid (_normalize_order o)) =
                       _normalize_order o).
  { intros o. apply applyOrder_complete; [done |].
    by rewrite normalize_order_Permutation, Hkeys. }
  split; [done |]. split; [done |].
  intros grid Hgrid.
  assert (Hfix : _normalize_order (getCurrentOrder grid) = getCurrentOrder grid).
  { assert (Hp : getCurrentOrder grid ≡ₚ SENSOR_KEYS_DEFAULT).
    { unfold getCurrentOrder in *. by rewrite Hgrid. }
    apply normalize_order_fixed.
    - rewrite Hp. apply NoDup_SENSOR_KEYS_DEFAULT.
    - intros k. by rewrite Hp. }
  split; [done |]. rewrite Hshow. exact Hfix.
Qed.

End Tiles.

(* ===================================================================== *)
(** * The search for the monitoring library *)
(* ===================================================================== *)

Section LibrarySearch.
Import Loader.

Lemma load_first_spec env paths :
  match load_first env paths with
  | Some reference =>
      ∃ before path after,
        paths = before ++ path :: after ∧
        reference = dll_full env path ∧
        loads env path = true ∧
        Forall (λ p, loads env p = false) before
  | None => Forall (λ p, loads env p = false) paths
  end.
Proof.
  induction paths as [|path rest IH]; [by constructor |].
  cbn [load_first]. destruct (loads env path) eqn:Hl.
  - exists [], path, rest. by repeat split.
  - destruct (load_first env rest) as [r|].
    + destruct IH as (before & p & after & -> & -> & Hp & Hb).
      exists (path :: before), p, after. repeat split; try done.
      by constructor.
    + by constructor.
Qed.

(** X22: [_load_monitor_lib] adds the reference of the first candidate
    whose file exists and loads, the candidates being, in this order, the
    path given as argument, the one of [LHM_DLL_PATH], the library in the
    current directory and the library next to the script, and a candidate
    that is a directory standing for the library inside it; when no
    candidate loads it adds the assembly name, if that loads.  It raises
    [RuntimeError] exactly when [clr] cannot be imported and
    [FileNotFoundError] exactly when nothing loads.  So a path given as
    argument that loads is the one used, whatever the environment holds. *)
Theorem load_monitor_lib_search env dll_path :
  match _load_monitor_lib env dll_path with
  | Loaded reference =>
      clr_importable env = true ∧
      ((∃ before path after,
          candidate_paths env dll_path = before ++ path :: after ∧
          reference = dll_full env path ∧
          path_exists env reference = true ∧
          add_reference env reference = true ∧
          Forall (λ p, loads env p = false) before) ∨
       (reference = ASSEMBLY_NAME ∧
        add_reference env ASSEMBLY_NAME = true ∧
        Forall (λ p, loads env p = false) (candidate_paths env dll_path)))
  | RaiseRuntimeError => clr_importable env = false
  | RaiseFileNotFoundError =>
      clr_importable env = true ∧
      add_reference env ASSEMBLY_NAME = false ∧
      Forall (λ p, loads env p = false) (candidate_paths env dll_path)
  end ∧
  (∀ p, dll_path = Some p → p ≠ EmptyString →
        clr_importable env = true → loads env p = true →
        _load_monitor_lib env dll_path = Loaded (dll_full env p)) ∧
  (dll_path = None ∨ dll_path = Some EmptyString →
   LHM_DLL_PATH env = None ∨ LHM_DLL_PATH env = Some EmptyString →
   candidate_paths env dll_path =
   path_join env (getcwd env) DLL_NAME ::
   match script_dir env with
   | Some d => [path_join env d DLL_NAME]
   | None => []
   end).
Proof.
  split; [| split].
  - unfold _load_monitor_lib.
    destruct (clr_importable env); [| done].
    pose proof (load_first_spec env (candidate_paths env dll_path)) as H.
    destruct (load_first env (candidate_paths env dll_path)) as [r|].
    + destruct H as (before & p & after & Hc & -> & Hp & Hb).
      split; [done |]. left. exists before, p, after.
      unfold loads in Hp. apply andb_prop in Hp as [He Ha]. done.
    + destruct (add_reference env ASSEMBLY_NAME) eqn:Ha.
      * split; [done |]. by right.
      * done.
  - intros p -> Hne Hclr Hl. unfold _load_monitor_lib, candidate_paths.
    rewrite Hclr. destruct p as [|c rest]; [done |].
    cbn [append_if_set app load_first]. by rewrite Hl.
  - intros [-> | ->] [H | H]; unfold candidate_paths; rewrite H; reflexivity.
Qed.

End LibrarySearch.
